(** * AutoGUILD: a shallow embedding of [src/daf/guild/autoguild.py]

    The development follows the Python class [AutoGUILD] method by method.
    Python objects that are mutated in place are threaded explicitly
    through a system state; awaited calls into the Discord API wrapper,
    the browser layer and the clock are answered by an explicit
    environment. *)

From Stdlib Require Import ZArith Ascii String List Bool Lia.
From stdpp Require Import base decidable option list strings numbers.
Import ListNotations.
Local Open Scope string_scope.
Local Open Scope list_scope.
Local Open Scope Z_scope.

(** ** Python exceptions and results *)

Inductive Exn :=
  | AttributeError (attr : string)
  | KeyError (key : string)
  | TypeError
  | ValueError
  | RuntimeError (msg : string)
  | HTTPException
  | ReError
  | OtherError (msg : string).

#[global] Instance Exn_eq_dec : EqDecision Exn.
Proof. solve_decision. Defined.

(** A call either returns a value or raises. *)
Inductive result (A : Type) :=
  | Ok (a : A)
  | Raise (e : Exn).
Arguments Ok {A} a.
Arguments Raise {A} e.

Definition rbind {A B} (r : result A) (k : A -> result B) : result B :=
  match r with
  | Ok a => k a
  | Raise e => Raise e
  end.

Notation "'let!' x ':=' r 'in' k" := (rbind r (fun x => k))
  (at level 10, x name, r at level 100, k at level 200).

(** ** Python dictionaries with string keys

    Insertion ordered: assigning to an existing key keeps its position,
    a new key goes last.  The class deletes only keys that are present. *)
Module PyDict.
Section Dict.
Context {V : Type}.

Fixpoint get (d : list (string * V)) (k : string) : option V :=
  match d with
  | [] => None
  | (k', v) :: d' => if decide (k' = k) then Some v else get d' k
  end.

Fixpoint set (d : list (string * V)) (k : string) (v : V) : list (string * V) :=
  match d with
  | [] => [(k, v)]
  | (k', v') :: d' =>
      if decide (k' = k) then (k', v) :: d' else (k', v') :: set d' k v
  end.

Fixpoint del (d : list (string * V)) (k : string) : list (string * V) :=
  match d with
  | [] => []
  | (k', v') :: d' =>
      if decide (k' = k) then d' else (k', v') :: del d' k
  end.

Definition keys (d : list (string * V)) : list string := map fst d.

Definition mem (d : list (string * V)) (k : string) : bool :=
  match get d k with Some _ => true | None => false end.

(** [{key(x): val(x) for x in xs}] *)
Definition of_list (kvs : list (string * V)) : list (string * V) :=
  fold_left (fun d kv => set d (fst kv) (snd kv)) kvs [].
End Dict.
End PyDict.

(** ** Patterns

    [re.search] belongs to the Python runtime and is taken from the
    surroundings: [Some true] when [re.search(p, s)] is a match object,
    [Some false] when it is [None], and [None] when the pattern does not
    compile ([re.error]). *)
Definition Regex := string -> string -> option bool.

(** ** Time, events, listeners and timers *)

(** [datetime] values are instants and [timedelta] values are durations,
    both counted in seconds. *)
Inductive RemoveAfter :=
  | RA_timedelta (d : Z)
  | RA_datetime (t : Z).

#[global] Instance RemoveAfter_eq_dec : EqDecision RemoveAfter.
Proof. solve_decision. Defined.

Definition GUILD_JOIN_INTERVAL : Z := 45.
Definition GUILD_MAX_AMOUNT : nat := 100.

Inductive EventID :=
  | server_update
  | server_removed
  | discord_guild_join
  | discord_guild_remove
  | discord_member_join
  | discord_invite_delete
  | auto_guild_start_join.

#[global] Instance EventID_eq_dec : EqDecision EventID.
Proof. solve_decision. Defined.

(** The bound methods of the instance that are handed to the controller. *)
Inductive Callback :=
  | cb_join_guilds
  | cb_on_update
  | cb_on_member_join
  | cb_on_invite_delete
  | cb_on_guild_join
  | cb_on_guild_remove.

#[global] Instance Callback_eq_dec : EqDecision Callback.
Proof. solve_decision. Defined.

(** The two shapes of predicate the class registers. *)
Inductive Predicate :=
  | pred_name_match   (* lambda x: self._check_name_match(x.guild.name) *)
  | pred_is_self.     (* lambda ag: ag is self *)

Record Listener := {
  l_event : EventID;
  l_callback : Callback;
  l_predicate : option Predicate
}.

(** Modelled from the spec: the EventController ([daf/events.py]) is not
    under src/.  A registration is [(EventID, callback, optional
    predicate)]; several registrations may exist per EventID and are kept
    in registration order; [remove_listener] unregisters the callback
    from the EventID. *)
Module EventController.
Definition t := list Listener.

Definition add_listener (ev : EventID) (cb : Callback)
    (p : option Predicate) (c : t) : t :=
  c ++ [ {| l_event := ev; l_callback := cb; l_predicate := p |} ].

Definition registered (ev : EventID) (cb : Callback) (l : Listener) : bool :=
  bool_decide (l_event l = ev) && bool_decide (l_callback l = cb).

Definition remove_listener (ev : EventID) (cb : Callback) (c : t) : t :=
  List.filter (fun l => negb (registered ev cb l)) c.

Definition count (ev : EventID) (cb : Callback) (c : t) : nat :=
  length (List.filter (registered ev cb) c).

(** The callbacks [emit] invokes, in registration order: those
    registered under [ev] whose predicate, when present, accepts. *)
Definition dispatch (accepts : Predicate -> bool) (ev : EventID) (c : t)
    : list Callback :=
  map l_callback
    (List.filter
       (fun l => bool_decide (l_event l = ev) &&
                 match l_predicate l with
                 | None => true
                 | Some p => accepts p
                 end) c).
End EventController.

(** Modelled from the spec: [async_util.call_at] is not under src/.  It
    schedules a callback at an absolute time, or after a relative delay,
    and returns a cancelable handle.  Every use in the class schedules
    [event_ctrl.emit(event, self)]. *)
Inductive When :=
  | AtTime (t : Z)
  | AfterDelay (d : Z).

Inductive TimerState := Pending | Cancelled | Done.

#[global] Instance TimerState_eq_dec : EqDecision TimerState.
Proof. solve_decision. Defined.

Record Timer := {
  t_when : When;
  t_event : EventID;
  t_state : TimerState
}.

Definition cancel_timer (t : Timer) : Timer :=
  match t_state t with
  | Pending => {| t_when := t_when t; t_event := t_event t; t_state := Cancelled |}
  | _ => t
  end.

(** ** Discord objects, messages and generated guilds *)

Record Invite := {
  inv_id : string;
  inv_uses : Z
}.

(** A [discord.Guild] as the class reads it. [dg_manage_guild] is [None]
    when [guild.get_member] finds no member; [dg_invites] is the outcome
    of [await guild.invites()]. *)
Record DiscordGuild := {
  dg_name : option string;
  dg_id : Z;
  dg_manage_guild : option bool;
  dg_invites : result (list Invite)
}.

Record Member := {
  m_id : Z;
  m_name : string;
  m_guild : DiscordGuild
}.

(** A message object. [msg_obj] is the Python identity ([id(message)]);
    [msg_uid] is what [==] compares: deep copies of one message compare
    equal (comment in [remove_message]). *)
Record Message := {
  msg_obj : nat;
  msg_uid : Z;
  msg_data : string;
  msg_remote : bool
}.

Definition msg_eqb (m1 m2 : Message) : bool := (msg_uid m1 =? msg_uid m2)%Z.

(** [message._update_tracked_id(False)] *)
Definition _update_tracked_id (b : bool) (m : Message) : Message :=
  {| msg_obj := msg_obj m; msg_uid := msg_uid m; msg_data := msg_data m;
     msg_remote := b |}.

(** [deepcopy(message)]: a new object, the same contents. *)
Definition deepcopy_message (fresh : nat) (m : Message) : Message :=
  {| msg_obj := fresh; msg_uid := msg_uid m; msg_data := msg_data m;
     msg_remote := msg_remote m |}.

(** [deepcopy] of a list copies every object once: an object met again
    is given the copy made for it ([memo] maps originals to copies). *)
Fixpoint memo_lookup (memo : list (nat * nat)) (obj : nat) : option nat :=
  match memo with
  | [] => None
  | (o, c) :: memo' => if Nat.eqb o obj then Some c else memo_lookup memo' obj
  end.

Fixpoint deepcopy_memo (memo : list (nat * nat)) (fresh : nat)
    (ms : list Message) : list Message :=
  match ms with
  | [] => []
  | m :: ms' =>
      match memo_lookup memo (msg_obj m) with
      | Some c => deepcopy_message c m :: deepcopy_memo memo fresh ms'
      | None =>
          deepcopy_message fresh m ::
          deepcopy_memo ((msg_obj m, fresh) :: memo) (S fresh) ms'
      end
  end.

Definition deepcopy_messages (fresh : nat) (ms : list Message) : list Message :=
  deepcopy_memo [] fresh ms.

(** [list.index(x)]: position of the first element equal to [x]. *)
Fixpoint list_index (x : Message) (l : list Message) : option nat :=
  match l with
  | [] => None
  | y :: l' => if msg_eqb x y then Some 0%nat else S <$> list_index x l'
  end.

(** [list.remove(x)]: drops the first element equal to [x]. *)
Fixpoint list_remove (x : Message) (l : list Message) : option (list Message) :=
  match l with
  | [] => None
  | y :: l' => if msg_eqb x y then Some l' else (cons y) <$> list_remove x l'
  end.

(** Modelled from the spec: the Guild manager ([daf/guild/guilduser.py])
    is not under src/.  It wraps one remote destination and holds its
    message list and a logging flag. *)
Record GUILD := {
  apiobject : DiscordGuild;
  g_messages : list Message;
  g_logging : option bool;
  g_removal_buffer_length : Z
}.

Definition set_g_messages (ms : list Message) (g : GUILD) : GUILD :=
  {| apiobject := apiobject g; g_messages := ms; g_logging := g_logging g;
     g_removal_buffer_length := g_removal_buffer_length g |}.

(** A result of the discovery feed ([web.QueryResult]). *)
Record QueryResult := {
  q_id : Z;
  q_name : string;
  q_url : string
}.

(** One step of the asynchronous feed iterator: a result, or an error
    raised by the query.  The end of the list is [StopAsyncIteration]. *)
Inductive FeedItem :=
  | Yield (q : QueryResult)
  | QueryFails (e : Exn).

(** Modelled from the spec: [web.GuildDISCOVERY] is not under src/.  The
    class reads its [limit], awaits its [initialize], and iterates
    [_query_request()]. *)
Record GuildDISCOVERY := {
  limit : Z;
  dsc_init_error : option Exn;
  dsc_feed : list FeedItem
}.

(** ** The AutoGUILD object

    One field per entry of [__slots__], the [update_semaphore] slot
    apart: a method called on its own finds the semaphore free and
    leaves it free. *)

Inductive ParentRef := the_account.
Inductive CtrlRef := the_controller.

Record AutoGUILD := {
  include_pattern : option string;
  exclude_pattern : option string;
  _remove_after : option RemoveAfter;
  logging : option bool;
  parent : option ParentRef;
  auto_join : option GuildDISCOVERY;
  guild_query_iter : option (list FeedItem);
  guild_join_count : Z;
  _messages : list Message;
  removal_buffer_length : Z;
  _removal_timer_handle : option nat;
  _guild_join_timer_handle : option nat;
  _invite_join_count : list (string * Z);
  _cache : list DiscordGuild;
  _event_ctrl : option CtrlRef;
  _gen_guilds : list GUILD
}.

Definition set_remove_after (v : option RemoveAfter) (a : AutoGUILD) : AutoGUILD :=
  {| include_pattern := include_pattern a;
     exclude_pattern := exclude_pattern a;
     _remove_after := v;
     logging := logging a;
     parent := parent a;
     auto_join := auto_join a;
     guild_query_iter := guild_query_iter a;
     guild_join_count := guild_join_count a;
     _messages := _messages a;
     removal_buffer_length := removal_buffer_length a;
     _removal_timer_handle := _removal_timer_handle a;
     _guild_join_timer_handle := _guild_join_timer_handle a;
     _invite_join_count := _invite_join_count a;
     _cache := _cache a;
     _event_ctrl := _event_ctrl a;
     _gen_guilds := _gen_guilds a |}.

Definition set_parent (v : option ParentRef) (a : AutoGUILD) : AutoGUILD :=
  {| include_pattern := include_pattern a;
     exclude_pattern := exclude_pattern a;
     _remove_after := _remove_after a;
     logging := logging a;
     parent := v;
     auto_join := auto_join a;
     guild_query_iter := guild_query_iter a;
     guild_join_count := guild_join_count a;
     _messages := _messages a;
     removal_buffer_length := removal_buffer_length a;
     _removal_timer_handle := _removal_timer_handle a;
     _guild_join_timer_handle := _guild_join_timer_handle a;
     _invite_join_count := _invite_join_count a;
     _cache := _cache a;
     _event_ctrl := _event_ctrl a;
     _gen_guilds := _gen_guilds a |}.

Definition set_guild_query_iter (v : option (list FeedItem)) (a : AutoGUILD) : AutoGUILD :=
  {| include_pattern := include_pattern a;
     exclude_pattern := exclude_pattern a;
     _remove_after := _remove_after a;
     logging := logging a;
     parent := parent a;
     auto_join := auto_join a;
     guild_query_iter := v;
     guild_join_count := guild_join_count a;
     _messages := _messages a;
     removal_buffer_length := removal_buffer_length a;
     _removal_timer_handle := _removal_timer_handle a;
     _guild_join_timer_handle := _guild_join_timer_handle a;
     _invite_join_count := _invite_join_count a;
     _cache := _cache a;
     _event_ctrl := _event_ctrl a;
     _gen_guilds := _gen_guilds a |}.

Definition set_guild_join_count (v : Z) (a : AutoGUILD) : AutoGUILD :=
  {| include_pattern := include_pattern a;
     exclude_pattern := exclude_pattern a;
     _remove_after := _remove_after a;
     logging := logging a;
     parent := parent a;
     auto_join := auto_join a;
     guild_query_iter := guild_query_iter a;
     guild_join_count := v;
     _messages := _messages a;
     removal_buffer_length := removal_buffer_length a;
     _removal_timer_handle := _removal_timer_handle a;
     _guild_join_timer_handle := _guild_join_timer_handle a;
     _invite_join_count := _invite_join_count a;
     _cache := _cache a;
     _event_ctrl := _event_ctrl a;
     _gen_guilds := _gen_guilds a |}.

Definition set_messages (v : list Message) (a : AutoGUILD) : AutoGUILD :=
  {| include_pattern := include_pattern a;
     exclude_pattern := exclude_pattern a;
     _remove_after := _remove_after a;
     logging := logging a;
     parent := parent a;
     auto_join := auto_join a;
     guild_query_iter := guild_query_iter a;
     guild_join_count := guild_join_count a;
     _messages := v;
     removal_buffer_length := removal_buffer_length a;
     _removal_timer_handle := _removal_timer_handle a;
     _guild_join_timer_handle := _guild_join_timer_handle a;
     _invite_join_count := _invite_join_count a;
     _cache := _cache a;
     _event_ctrl := _event_ctrl a;
     _gen_guilds := _gen_guilds a |}.

Definition set_removal_timer_handle (v : option nat) (a : AutoGUILD) : AutoGUILD :=
  {| include_pattern := include_pattern a;
     exclude_pattern := exclude_pattern a;
     _remove_after := _remove_after a;
     logging := logging a;
     parent := parent a;
     auto_join := auto_join a;
     guild_query_iter := guild_query_iter a;
     guild_join_count := guild_join_count a;
     _messages := _messages a;
     removal_buffer_length := removal_buffer_length a;
     _removal_timer_handle := v;
     _guild_join_timer_handle := _guild_join_timer_handle a;
     _invite_join_count := _invite_join_count a;
     _cache := _cache a;
     _event_ctrl := _event_ctrl a;
     _gen_guilds := _gen_guilds a |}.

Definition set_guild_join_timer_handle (v : option nat) (a : AutoGUILD) : AutoGUILD :=
  {| include_pattern := include_pattern a;
     exclude_pattern := exclude_pattern a;
     _remove_after := _remove_after a;
     logging := logging a;
     parent := parent a;
     auto_join := auto_join a;
     guild_query_iter := guild_query_iter a;
     guild_join_count := guild_join_count a;
     _messages := _messages a;
     removal_buffer_length := removal_buffer_length a;
     _removal_timer_handle := _removal_timer_handle a;
     _guild_join_timer_handle := v;
     _invite_join_count := _invite_join_count a;
     _cache := _cache a;
     _event_ctrl := _event_ctrl a;
     _gen_guilds := _gen_guilds a |}.

Definition set_invite_join_count (v : list (string * Z)) (a : AutoGUILD) : AutoGUILD :=
  {| include_pattern := include_pattern a;
     exclude_pattern := exclude_pattern a;
     _remove_after := _remove_after a;
     logging := logging a;
     parent := parent a;
     auto_join := auto_join a;
     guild_query_iter := guild_query_iter a;
     guild_join_count := guild_join_count a;
     _messages := _messages a;
     removal_buffer_length := removal_buffer_length a;
     _removal_timer_handle := _removal_timer_handle a;
     _guild_join_timer_handle := _guild_join_timer_handle a;
     _invite_join_count := v;
     _cache := _cache a;
     _event_ctrl := _event_ctrl a;
     _gen_guilds := _gen_guilds a |}.

Definition set_cache (v : list DiscordGuild) (a : AutoGUILD) : AutoGUILD :=
  {| include_pattern := include_pattern a;
     exclude_pattern := exclude_pattern a;
     _remove_after := _remove_after a;
     logging := logging a;
     parent := parent a;
     auto_join := auto_join a;
     guild_query_iter := guild_query_iter a;
     guild_join_count := guild_join_count a;
     _messages := _messages a;
     removal_buffer_length := removal_buffer_length a;
     _removal_timer_handle := _removal_timer_handle a;
     _guild_join_timer_handle := _guild_join_timer_handle a;
     _invite_join_count := _invite_join_count a;
     _cache := v;
     _event_ctrl := _event_ctrl a;
     _gen_guilds := _gen_guilds a |}.

Definition set_event_ctrl (v : option CtrlRef) (a : AutoGUILD) : AutoGUILD :=
  {| include_pattern := include_pattern a;
     exclude_pattern := exclude_pattern a;
     _remove_after := _remove_after a;
     logging := logging a;
     parent := parent a;
     auto_join := auto_join a;
     guild_query_iter := guild_query_iter a;
     guild_join_count := guild_join_count a;
     _messages := _messages a;
     removal_buffer_length := removal_buffer_length a;
     _removal_timer_handle := _removal_timer_handle a;
     _guild_join_timer_handle := _guild_join_timer_handle a;
     _invite_join_count := _invite_join_count a;
     _cache := _cache a;
     _event_ctrl := v;
     _gen_guilds := _gen_guilds a |}.

Definition set_gen_guilds (v : list GUILD) (a : AutoGUILD) : AutoGUILD :=
  {| include_pattern := include_pattern a;
     exclude_pattern := exclude_pattern a;
     _remove_after := _remove_after a;
     logging := logging a;
     parent := parent a;
     auto_join := auto_join a;
     guild_query_iter := guild_query_iter a;
     guild_join_count := guild_join_count a;
     _messages := _messages a;
     removal_buffer_length := removal_buffer_length a;
     _removal_timer_handle := _removal_timer_handle a;
     _guild_join_timer_handle := _guild_join_timer_handle a;
     _invite_join_count := _invite_join_count a;
     _cache := _cache a;
     _event_ctrl := _event_ctrl a;
     _gen_guilds := v |}.

(** What [logging.save_log(guild_ctx, None, None, invite_ctx)] stores. *)
Record LogEntry := {
  log_guild_name : option string;
  log_guild_id : Z;
  log_invite_id : string;
  log_member_id : Z;
  log_member_name : string
}.

(** Awaited calls into objects the class uses but does not define. *)
Inductive ExtCall :=
  | call_auto_join_initialize
  | call_auto_join_close
  | call_guild_close (guild_id : Z)
  | call_fetch_invite_link (url : string).

#[global] Instance ExtCall_eq_dec : EqDecision ExtCall.
Proof. solve_decision. Defined.

(** The state the methods run in: the object, the controller it was
    initialized with, the timer tasks, the logging sink, the identity
    allocator and the client's guild cache. *)
Record Sys := {
  self : AutoGUILD;
  ctrl : EventController.t;
  timers : list Timer;
  saved_logs : list LogEntry;
  ext_calls : list ExtCall;
  next_obj : nat;
  client_guilds : list DiscordGuild
}.

Definition set_self (v : AutoGUILD) (s : Sys) : Sys :=
  {| self := v;
     ctrl := ctrl s;
     timers := timers s;
     saved_logs := saved_logs s;
     ext_calls := ext_calls s;
     next_obj := next_obj s;
     client_guilds := client_guilds s |}.

Definition set_ctrl (v : EventController.t) (s : Sys) : Sys :=
  {| self := self s;
     ctrl := v;
     timers := timers s;
     saved_logs := saved_logs s;
     ext_calls := ext_calls s;
     next_obj := next_obj s;
     client_guilds := client_guilds s |}.

Definition set_timers (v : list Timer) (s : Sys) : Sys :=
  {| self := self s;
     ctrl := ctrl s;
     timers := v;
     saved_logs := saved_logs s;
     ext_calls := ext_calls s;
     next_obj := next_obj s;
     client_guilds := client_guilds s |}.

Definition set_saved_logs (v : list LogEntry) (s : Sys) : Sys :=
  {| self := self s;
     ctrl := ctrl s;
     timers := timers s;
     saved_logs := v;
     ext_calls := ext_calls s;
     next_obj := next_obj s;
     client_guilds := client_guilds s |}.

Definition set_ext_calls (v : list ExtCall) (s : Sys) : Sys :=
  {| self := self s;
     ctrl := ctrl s;
     timers := timers s;
     saved_logs := saved_logs s;
     ext_calls := v;
     next_obj := next_obj s;
     client_guilds := client_guilds s |}.

Definition set_next_obj (v : nat) (s : Sys) : Sys :=
  {| self := self s;
     ctrl := ctrl s;
     timers := timers s;
     saved_logs := saved_logs s;
     ext_calls := ext_calls s;
     next_obj := v;
     client_guilds := client_guilds s |}.

Definition set_client_guilds (v : list DiscordGuild) (s : Sys) : Sys :=
  {| self := self s;
     ctrl := ctrl s;
     timers := timers s;
     saved_logs := saved_logs s;
     ext_calls := ext_calls s;
     next_obj := next_obj s;
     client_guilds := v |}.

(** What a browser join attempt leads to. *)
Inductive JoinOutcome :=
  | NoInviteLink              (* fetch_invite_link returned None *)
  | BrowserRaises (e : Exn)   (* one of the selenium calls raised *)
  | Joined (seen : option DiscordGuild).
      (* no browser error; [Some g]: [g] has entered [client.guilds] *)

(** The surroundings the methods read: the clock, the regular
    expression engine, and the outcomes of calls that leave the class. *)
Record Env := {
  now : Z;
  re_search : Regex;
  re_sub_bar : string -> string;        (* re.sub(r"\s*\|\s*", "|", p) *)
  guild_init_error : DiscordGuild -> option Exn;
  message_init_error : DiscordGuild -> Message -> option Exn;
  selenium_join : QueryResult -> JoinOutcome
}.

(** ** State and exceptions *)

Definition M (A : Type) : Type := Sys -> Sys * result A.

Definition ret {A} (a : A) : M A := fun s => (s, Ok a).
Definition raise {A} (e : Exn) : M A := fun s => (s, Raise e).
Definition bind {A B} (m : M A) (k : A -> M B) : M B := fun s =>
  match m s with
  | (s', Ok a) => k a s'
  | (s', Raise e) => (s', Raise e)
  end.
Definition lift {A} (r : result A) : M A := fun s => (s, r).
Definition get : M Sys := fun s => (s, Ok s).
Definition modify (f : Sys -> Sys) : M unit := fun s => (f s, Ok tt).
Definition modify_self (f : AutoGUILD -> AutoGUILD) : M unit :=
  modify (fun s => set_self (f (self s)) s).

(** [try: m except Exception as e: h e] *)
Definition try_except {A} (m : M A) (h : Exn -> M A) : M A := fun s =>
  match m s with
  | (s', Ok a) => (s', Ok a)
  | (s', Raise e) => h e s'
  end.

Notation "'do' x '<-' m ';' k" := (bind m (fun x => k))
  (at level 10, x name, m at level 100, k at level 200).
Notation "m ';;' k" := (bind m (fun _ => k))
  (at level 100, k at level 200, right associativity).

Definition when (b : bool) (m : M unit) : M unit := if b then m else ret tt.

Fixpoint for_each {A} (l : list A) (body : A -> M unit) : M unit :=
  match l with
  | [] => ret tt
  | x :: l' => body x ;; for_each l' body
  end.

(** ** The methods of the class *)

(** The parameters of [__init__]; [None] stands for an argument left at
    its default. *)
Record InitArgs := {
  a_include_pattern : string;
  a_exclude_pattern : option string;
  a_remove_after : option RemoveAfter;
  a_messages : option (list Message);
  a_logging : option bool;
  a_auto_join : option GuildDISCOVERY;
  a_invite_track : option (list string);
  a_removal_buffer_length : Z
}.

(** [invite.split("/")[-1]] *)
Fixpoint last_segment_from (acc s : string) : string :=
  match s with
  | EmptyString => acc
  | String c s' =>
      if Ascii.eqb c "/"%char then last_segment_from EmptyString s'
      else last_segment_from (acc +:+ String c EmptyString) s'
  end.

Definition last_segment (s : string) : string := last_segment_from EmptyString s.

(** A non-empty string is truthy. *)
Definition truthy (s : string) : bool :=
  match s with EmptyString => false | _ => true end.

(** [init_options] and the keyword overrides of [update]; in [Kwargs] a
    field is [None] when the key is not in the dictionary. *)
Record InitOptions := {
  io_parent : option ParentRef;
  io_event_ctrl : option CtrlRef
}.

Record Kwargs := {
  k_include_pattern : option string;
  k_exclude_pattern : option (option string);
  k_remove_after : option (option RemoveAfter);
  k_messages : option (list Message);
  k_logging : option (option bool);
  k_auto_join : option (option GuildDISCOVERY);
  k_invite_track : option (list string);
  k_removal_buffer_length : option Z
}.

Definition set_k_invite_track (v : option (list string)) (k : Kwargs) : Kwargs :=
  {| k_include_pattern := k_include_pattern k;
     k_exclude_pattern := k_exclude_pattern k;
     k_remove_after := k_remove_after k;
     k_messages := k_messages k;
     k_logging := k_logging k;
     k_auto_join := k_auto_join k;
     k_invite_track := v;
     k_removal_buffer_length := k_removal_buffer_length k |}.

Definition set_k_messages (v : option (list Message)) (k : Kwargs) : Kwargs :=
  {| k_include_pattern := k_include_pattern k;
     k_exclude_pattern := k_exclude_pattern k;
     k_remove_after := k_remove_after k;
     k_messages := v;
     k_logging := k_logging k;
     k_auto_join := k_auto_join k;
     k_invite_track := k_invite_track k;
     k_removal_buffer_length := k_removal_buffer_length k |}.

(** The candidate a firing of the join loop obtains from the feed. *)
Inductive Pulled :=
  | IterationOver             (* the iterator is dropped *)
  | Filtered                  (* the name does not pass the patterns *)
  | Candidate (q : QueryResult).

Section Methods.
Variable env : Env.

(** [async_util.update_obj_param] is not under src/: it is a parameter
    of the development. *)
Variable update_obj_param : InitOptions -> Kwargs -> M unit.

(** [AutoGUILD.__init__].  No guild is generated yet, so each
    [add_message] of the loop only appends the template and clears its
    remote flag. *)
Definition __init__ (args : InitArgs) : AutoGUILD :=
  {| include_pattern :=
       if truthy (a_include_pattern args)
       then Some (re_sub_bar env (a_include_pattern args)) else None;
     exclude_pattern :=
       match a_exclude_pattern args with
       | Some p => if truthy p then Some (re_sub_bar env p) else None
       | None => None
       end;
     _remove_after := a_remove_after args;
     logging := a_logging args;
     parent := None;
     auto_join := a_auto_join args;
     guild_query_iter := None;
     guild_join_count := 0;
     _messages := map (_update_tracked_id false) (default [] (a_messages args));
     removal_buffer_length := a_removal_buffer_length args;
     _removal_timer_handle := None;
     _guild_join_timer_handle := None;
     _invite_join_count :=
       PyDict.of_list
         (map (fun invite => (last_segment invite, 0))
              (default [] (a_invite_track args)));
     _cache := [];
     _event_ctrl := None;
     _gen_guilds := [] |}.

(** [re.search(pattern, name) is not None] *)
Definition search (p name : string) : result bool :=
  match re_search env p name with
  | Some b => Ok b
  | None => Raise ReError
  end.

(** The same on a pattern slot; a [None] pattern is a [TypeError]. *)
Definition search_pattern (p : option string) (name : string) : result bool :=
  match p with
  | None => Raise TypeError
  | Some p => search p name
  end.

(** [AutoGUILD._check_name_match], with Python's short-circuit
    [and] / [or]. *)
Definition _check_name_match (a : AutoGUILD) (name : option string) : result bool :=
  match name with
  | None => Ok false
  | Some name =>
      let! inc := search_pattern (include_pattern a) name in
      if inc then
        match exclude_pattern a with
        | None => Ok true
        | Some ex =>
            let! exc := search ex name in
            Ok (negb exc)
        end
      else Ok false
  end.

(** [[g for g in client.guilds if self._check_name_match(g.name)]] *)
Fixpoint matching_guilds (a : AutoGUILD) (gs : list DiscordGuild)
    : result (list DiscordGuild) :=
  match gs with
  | [] => Ok []
  | g :: gs' =>
      let! b := _check_name_match a (dg_name g) in
      let! rest := matching_guilds a gs' in
      Ok (if b then g :: rest else rest)
  end.

(** Attribute access on [self.parent] and on the controller. *)
Definition the_parent (p : option ParentRef) (attr : string) : M unit :=
  match p with
  | Some _ => ret tt
  | None => raise (AttributeError attr)
  end.

Definition the_ctrl (c : option CtrlRef) (attr : string) : M unit :=
  match c with
  | Some _ => ret tt
  | None => raise (AttributeError attr)
  end.

Definition add_listener (c : option CtrlRef) (ev : EventID) (cb : Callback)
    (p : option Predicate) : M unit :=
  the_ctrl c "add_listener" ;;
  modify (fun s => set_ctrl (EventController.add_listener ev cb p (ctrl s)) s).

Definition remove_listener (c : option CtrlRef) (ev : EventID) (cb : Callback)
    : M unit :=
  the_ctrl c "remove_listener" ;;
  modify (fun s => set_ctrl (EventController.remove_listener ev cb (ctrl s)) s).

(** [async_util.call_at(event_ctrl.emit, when, event, self)]: a new
    pending timer; its handle is its position. *)
Definition call_at (c : option CtrlRef) (w : When) (ev : EventID) : M nat :=
  the_ctrl c "emit" ;;
  do s <- get;
  modify (set_timers
            (timers s ++ [ {| t_when := w; t_event := ev; t_state := Pending |} ])) ;;
  ret (length (timers s)).

(** [AutoGUILD._get_guilds] *)
Definition _get_guilds : M (list DiscordGuild) :=
  do s <- get;
  the_parent (parent (self s)) "client" ;;
  do guilds <- lift (matching_guilds (self s) (client_guilds s));
  modify_self (set_cache guilds) ;;
  ret guilds.

(** Modelled from the spec: [GUILD.add_message] is not under src/.  The
    message is initialized and, when that succeeds, joins the guild's
    list; otherwise the awaited future raises. *)
Definition guild_add_message (g : GUILD) (m : Message) : GUILD * option Exn :=
  match message_init_error env (apiobject g) m with
  | None => (set_g_messages (g_messages g ++ [m]) g, None)
  | Some e => (g, Some e)
  end.

(** Modelled from the spec: [GUILD.remove_message] is not under src/.
    The owner drops the message from its list. *)
Definition guild_remove_message (g : GUILD) (m : Message) : GUILD :=
  match list_remove m (g_messages g) with
  | Some ms => set_g_messages ms g
  | None => g
  end.

(** The gathered [g.add_message(deepcopy(message))], one per generated
    guild: every guild receives its own copy; the gathered future raises the
    first failure and lets the other additions finish. *)
Fixpoint fan_out_add (m : Message) (fresh : nat) (gs : list GUILD)
    : list GUILD * option Exn :=
  match gs with
  | [] => ([], None)
  | g :: gs' =>
      let '(g', e) := guild_add_message g (deepcopy_message fresh m) in
      let '(gs'', e') := fan_out_add m (S fresh) gs' in
      (g' :: gs'', match e with Some x => Some x | None => e' end)
  end.

(** [AutoGUILD.add_message], awaited. *)
Definition add_message (message : Message) : M unit :=
  modify_self (fun a =>
    set_messages (_messages a ++ [_update_tracked_id false message]) a) ;;
  do s <- get;
  let '(gs, e) := fan_out_add (_update_tracked_id false message)
                    (next_obj s) (_gen_guilds (self s)) in
  modify (set_next_obj (next_obj s + length (_gen_guilds (self s)))%nat) ;;
  modify_self (set_gen_guilds gs) ;;
  match e with
  | Some x => raise x
  | None => ret tt
  end.

(** The loop of [remove_message].  [list.index] raises [ValueError]
    when nothing compares equal, so the [idx == -1] test of the source
    never holds.  The removals requested before a failure stay made. *)
Fixpoint fan_out_remove (m : Message) (gs : list GUILD)
    : list GUILD * result unit :=
  match gs with
  | [] => ([], Ok tt)
  | g :: gs' =>
      match list_index m (g_messages g) with
      | None => (g :: gs', Raise ValueError)
      | Some idx =>
          match g_messages g !! idx with
          | None => (g :: gs', Raise ValueError)
          | Some copy =>
              let '(gs'', r) := fan_out_remove m gs' in
              (guild_remove_message g copy :: gs'', r)
          end
      end
  end.

(** [AutoGUILD.remove_message], awaited. *)
Definition remove_message (message : Message) : M unit :=
  do s <- get;
  match list_remove message (_messages (self s)) with
  | None => raise ValueError
  | Some ms =>
      modify_self (set_messages ms) ;;
      let '(gs, r) := fan_out_remove message (_gen_guilds (self s)) in
      modify_self (set_gen_guilds gs) ;;
      lift r
  end.

(** [AutoGUILD._reset_auto_join_timer] *)
Definition _reset_auto_join_timer : M unit :=
  do s <- get;
  do h <- call_at (_event_ctrl (self s)) (AfterDelay GUILD_JOIN_INTERVAL)
            auto_guild_start_join;
  modify_self (set_guild_join_timer_handle (Some h)).

(** [AutoGUILD._make_new_guild].  The outcome of the awaited
    [new_guild.initialize] comes from the surroundings. *)
Definition _make_new_guild (guild : DiscordGuild) : M unit :=
  do s <- get;
  let new_guild :=
    {| apiobject := guild;
       g_messages := deepcopy_messages (next_obj s) (_messages (self s));
       g_logging := logging (self s);
       g_removal_buffer_length := 0 |} in
  modify (set_next_obj (next_obj s + length (_messages (self s)))%nat) ;;
  match guild_init_error env guild with
  | Some _ => ret tt
  | None => modify_self (fun a => set_gen_guilds (_gen_guilds a ++ [new_guild]) a)
  end.

(** The loop of [_get_invites]: only [discord.HTTPException] is caught. *)
Fixpoint collect_invites (gs : list DiscordGuild) : result (list Invite) :=
  match gs with
  | [] => Ok []
  | g :: gs' =>
      let! here :=
        match dg_manage_guild g with
        | None => Raise (AttributeError "guild_permissions")
        | Some false => Ok []
        | Some true =>
            match dg_invites g with
            | Ok l => Ok l
            | Raise HTTPException => Ok []
            | Raise e => Raise e
            end
        end in
      let! rest := collect_invites gs' in
      Ok (here ++ rest)
  end.

(** [AutoGUILD._get_invites] *)
Definition _get_invites : M (list Invite) :=
  do s <- get;
  the_parent (parent (self s)) "client" ;;
  do guilds <- _get_guilds;
  lift (collect_invites guilds).

(** [{invite.id: invite.uses for invite in invites}] *)
Definition uses_by_id (invites : list Invite) : list (string * Z) :=
  PyDict.of_list (map (fun i => (inv_id i, inv_uses i)) invites).

(** [except discord.HTTPException: trace(...)] *)
Definition except_http (m : M unit) : M unit :=
  try_except m (fun e =>
    match e with
    | HTTPException => ret tt
    | _ => raise e
    end).

(** One iteration of the loop over [list(counts.keys())] in
    [initialize]: refresh or drop the count, then register both
    listeners. *)
Definition track_invite (invites : list (string * Z)) (invite : string) : M unit :=
  modify_self (fun a =>
    set_invite_join_count
      (match PyDict.get invites invite with
       | Some uses => PyDict.set (_invite_join_count a) invite uses
       | None => PyDict.del (_invite_join_count a) invite
       end) a) ;;
  do s <- get;
  add_listener (_event_ctrl (self s)) discord_member_join cb_on_member_join
    (Some pred_name_match) ;;
  add_listener (_event_ctrl (self s)) discord_invite_delete cb_on_invite_delete
    (Some pred_name_match).

Definition log_call (c : ExtCall) : M unit :=
  modify (fun s => set_ext_calls (ext_calls s ++ [c]) s).

(** [initialize], the auto-join block: the discovery object is
    initialized and its feed opened. *)
Definition init_auto_join : M unit :=
  do s <- get;
  match auto_join (self s) with
  | Some d =>
      log_call call_auto_join_initialize ;;
      match dsc_init_error d with
      | Some res => raise res
      | None => modify_self (set_guild_query_iter (Some (dsc_feed d)))
      end
  | None => ret tt
  end.

(** [initialize], the [remove_after] block. *)
Definition init_removal (event_ctrl : option CtrlRef) : M unit :=
  do s <- get;
  match _remove_after (self s) with
  | Some ra =>
      let deadline :=
        match ra with
        | RA_timedelta d => now env + d
        | RA_datetime _ => now env
        end in
      modify_self (set_remove_after (Some (RA_datetime deadline))) ;;
      do h <- call_at event_ctrl (AtTime deadline) server_removed;
      modify_self (set_removal_timer_handle (Some h))
  | None => ret tt
  end.

(** [initialize], the invite block. *)
Definition init_invites : M unit :=
  do s <- get;
  when (negb (Nat.eqb (length (_invite_join_count (self s))) 0))
    (except_http
       (do invites <- _get_invites;
        do s <- get;
        for_each (PyDict.keys (_invite_join_count (self s)))
          (track_invite (uses_by_id invites)))).

(** [initialize], the auto-join timer and its listener. *)
Definition init_join_timer (event_ctrl : option CtrlRef) : M unit :=
  do s <- get;
  match auto_join (self s) with
  | Some _ =>
      _reset_auto_join_timer ;;
      add_listener event_ctrl auto_guild_start_join cb_join_guilds (Some pred_is_self)
  | None => ret tt
  end.

(** [initialize], the three listeners every instance registers. *)
Definition init_listeners (event_ctrl : option CtrlRef) : M unit :=
  do s <- get;
  add_listener (_event_ctrl (self s)) discord_guild_join cb_on_guild_join
    (Some pred_name_match) ;;
  add_listener (_event_ctrl (self s)) discord_guild_remove cb_on_guild_remove None ;;
  add_listener event_ctrl server_update cb_on_update (Some pred_is_self).

(** [initialize], the generation of one guild manager per match. *)
Definition init_guilds : M unit :=
  do guilds <- _get_guilds;
  for_each guilds _make_new_guild.

(** The body of [AutoGUILD.initialize]. *)
Definition initialize_body (parent_ : option ParentRef)
    (event_ctrl : option CtrlRef) : M unit :=
  the_parent parent_ "client" ;;
  modify_self (set_event_ctrl event_ctrl) ;;
  modify_self (set_parent parent_) ;;
  init_auto_join ;;
  init_removal event_ctrl ;;
  init_invites ;;
  init_join_timer event_ctrl ;;
  init_listeners event_ctrl ;;
  init_guilds.

(** [@async_util.except_return]: the coroutine returns the exception
    instead of raising it ("not None == exc returned", as
    [_make_new_guild] reads it). *)
Definition except_return (m : M unit) : M (option Exn) := fun s =>
  match m s with
  | (s', Ok _) => (s', Ok None)
  | (s', Raise e) => (s', Ok (Some e))
  end.

(** [AutoGUILD.initialize] *)
Definition initialize (parent_ : option ParentRef) (event_ctrl : option CtrlRef)
    : M (option Exn) :=
  except_return (initialize_body parent_ event_ctrl).

(** [handle.cancel()] guarded by [handle is not None and not
    handle.cancelled()], then awaited. *)
Definition cancel_handle (h : option nat) : M unit :=
  match h with
  | None => ret tt
  | Some i => modify (fun s => set_timers (alter cancel_timer i (timers s)) s)
  end.

(** [AutoGUILD._close] *)
Definition _close : M unit :=
  do s <- get;
  match _event_ctrl (self s) with
  | None => ret tt
  | Some c =>
      remove_listener (Some c) auto_guild_start_join cb_join_guilds ;;
      remove_listener (Some c) server_update cb_on_update ;;
      remove_listener (Some c) discord_member_join cb_on_member_join ;;
      remove_listener (Some c) discord_invite_delete cb_on_invite_delete ;;
      cancel_handle (_removal_timer_handle (self s)) ;;
      cancel_handle (_guild_join_timer_handle (self s)) ;;
      match auto_join (self s) with
      | Some _ => log_call call_auto_join_close
      | None => ret tt
      end ;;
      for_each (_gen_guilds (self s))
        (fun g => log_call (call_guild_close (dg_id (apiobject g))))
  end.

(** [self.invite_track]: the class has no such slot, property or
    method, so the attribute lookup fails. *)
Definition getattr_invite_track : M (list string) :=
  raise (AttributeError "invite_track").

(** [AutoGUILD._on_update] *)
Definition _on_update (init_options : option InitOptions) (kwargs : Kwargs)
    : M unit :=
  _close ;;
  try_except
    (do kwargs <-
       match k_invite_track kwargs with
       | None =>
           do v <- getattr_invite_track;
           ret (set_k_invite_track (Some v) kwargs)
       | Some _ => ret kwargs
       end;
     do s <- get;
     let kwargs :=
       set_k_messages
         (Some (default (_messages (self s)) (k_messages kwargs))) kwargs in
     let init_options :=
       match init_options with
       | Some io => io
       | None => {| io_parent := parent (self s);
                    io_event_ctrl := _event_ctrl (self s) |}
       end in
     update_obj_param init_options kwargs)
    (fun e =>
       do s <- get;
       initialize (parent (self s)) (_event_ctrl (self s)) ;;
       raise e).

(** [client.get_guild(id)] *)
Definition get_guild (s : Sys) (id : Z) : option DiscordGuild :=
  List.find (fun g => (dg_id g =? id)%Z) (client_guilds s).

(** The inner [get_next_guild] of [_join_guilds] on one step of the
    feed; every exception of the [try] block ends the iteration. *)
Definition get_next_guild (a : AutoGUILD) (item : FeedItem) : Pulled :=
  match item with
  | QueryFails _ => IterationOver
  | Yield yielded =>
      match search_pattern (include_pattern a) (q_name yielded) with
      | Raise _ => IterationOver
      | Ok false => Filtered
      | Ok true =>
          match exclude_pattern a with
          | None => Candidate yielded
          | Some ex =>
              match search ex (q_name yielded) with
              | Raise _ => IterationOver
              | Ok true => Filtered
              | Ok false => Candidate yielded
              end
          end
      end
  end.

Definition incr_join_count : M unit :=
  modify_self (fun a => set_guild_join_count (guild_join_count a + 1) a).

(** The [try] block of the join attempt, which opens with
    [selenium.fetch_invite_link(yielded.url)]; every exception is caught
    and traced. *)
Definition attempt_join (yielded : QueryResult) : M unit :=
  log_call (call_fetch_invite_link (q_url yielded)) ;;
  match selenium_join env yielded with
  | NoInviteLink => ret tt
  | BrowserRaises _ => ret tt
  | Joined seen =>
      match seen with
      | Some g => modify (fun s => set_client_guilds (client_guilds s ++ [g]) s)
      | None => ret tt
      end ;;
      do s <- get;
      match get_guild s (q_id yielded) with
      | None => ret tt
      | Some _ => incr_join_count
      end
  end.

(** The [while True] loop of [_join_guilds] over what is left of the
    feed.  The result tells whether the loop was left by [break]
    ([true]) or by [return] ([false]). *)
Fixpoint join_loop (feed : list FeedItem) : M bool :=
  match feed with
  | [] => modify_self (set_guild_query_iter None) ;; ret false
  | item :: rest =>
      do s <- get;
      match get_next_guild (self s) item with
      | IterationOver => modify_self (set_guild_query_iter None) ;; ret false
      | Filtered => modify_self (set_guild_query_iter (Some rest)) ;; ret false
      | Candidate yielded =>
          modify_self (set_guild_query_iter (Some rest)) ;;
          match get_guild s (q_id yielded) with
          | Some _ => incr_join_count ;; join_loop rest
          | None => attempt_join yielded ;; ret true
          end
      end
  end.

(** [AutoGUILD._join_guilds] *)
Definition _join_guilds : M unit :=
  do s <- get;
  the_parent (parent (self s)) "selenium" ;;
  match guild_query_iter (self s) with
  | None =>
      remove_listener (_event_ctrl (self s)) auto_guild_start_join cb_join_guilds
  | Some feed =>
      match auto_join (self s) with
      | None => raise (AttributeError "limit")
      | Some discovery =>
          if (guild_join_count (self s) =? limit discovery)%Z
             || Nat.eqb (length (client_guilds s)) GUILD_MAX_AMOUNT
          then
            remove_listener (_event_ctrl (self s)) auto_guild_start_join
              cb_join_guilds
          else
            do rearm <- join_loop feed;
            when rearm _reset_auto_join_timer
      end
  end.

(** The scan of [_on_member_join] over [counts.items()]: the first
    tracked invite whose fetched count is not the stored one. *)
Fixpoint first_changed (invites counts : list (string * Z))
    : result (option (string * Z)) :=
  match counts with
  | [] => Ok None
  | (id_, last_uses) :: counts' =>
      match PyDict.get invites id_ with
      | None => Raise (KeyError id_)
      | Some uses =>
          if bool_decide (last_uses <> uses) then Ok (Some (id_, uses))
          else first_changed invites counts'
      end
  end.

Definition save_log (member : Member) (invite_id : string) : M unit :=
  modify (fun s =>
    set_saved_logs
      (saved_logs s ++
         [ {| log_guild_name := dg_name (m_guild member);
              log_guild_id := dg_id (m_guild member);
              log_invite_id := invite_id;
              log_member_id := m_id member;
              log_member_name := m_name member |} ]) s).

(** [AutoGUILD._on_member_join] *)
Definition _on_member_join (member : Member) : M unit :=
  do invites <- _get_invites;
  do s <- get;
  do hit <- lift (first_changed (uses_by_id invites) (_invite_join_count (self s)));
  match hit with
  | None => ret tt
  | Some (id_, uses) =>
      modify_self (fun a =>
        set_invite_join_count (PyDict.set (_invite_join_count a) id_ uses) a) ;;
      save_log member id_
  end.

(** [AutoGUILD._on_invite_delete] *)
Definition _on_invite_delete (invite_id : string) : M unit :=
  do s <- get;
  when (PyDict.mem (_invite_join_count (self s)) invite_id)
    (modify_self (fun a =>
       set_invite_join_count (PyDict.del (_invite_join_count a) invite_id) a)).

(** [AutoGUILD._on_guild_join] *)
Definition _on_guild_join (guild : DiscordGuild) : M unit :=
  _make_new_guild guild.

(** Position of the first generated guild whose [apiobject] equals
    [guild]; [discord.Guild] objects compare by id. *)
Fixpoint find_generated (guild : DiscordGuild) (gs : list GUILD) : option nat :=
  match gs with
  | [] => None
  | g :: gs' =>
      if (dg_id (apiobject g) =? dg_id guild)%Z then Some 0%nat
      else S <$> find_generated guild gs'
  end.

(** [AutoGUILD._on_guild_remove] *)
Definition _on_guild_remove (guild : DiscordGuild) : M unit :=
  do s <- get;
  match find_generated guild (_gen_guilds (self s)) with
  | None => ret tt
  | Some i =>
      log_call (call_guild_close (dg_id guild)) ;;
      modify_self (fun a => set_gen_guilds (delete i (_gen_guilds a)) a)
  end.
End Methods.

(** ** A concrete surrounding for the examples

    Patterns that are [|]-separated literals: [re.search] succeeds when
    one alternative occurs in the name. *)

Fixpoint is_prefix (p s : string) : bool :=
  match p, s with
  | EmptyString, _ => true
  | String a p', String b s' => Ascii.eqb a b && is_prefix p' s'
  | String _ _, EmptyString => false
  end.

Fixpoint occurs (p s : string) : bool :=
  is_prefix p s ||
  match s with
  | EmptyString => false
  | String _ s' => occurs p s'
  end.

Fixpoint alternatives_from (acc p : string) : list string :=
  match p with
  | EmptyString => [acc]
  | String c p' =>
      if Ascii.eqb c "|"%char then acc :: alternatives_from EmptyString p'
      else alternatives_from (acc +:+ String c EmptyString) p'
  end.

Definition literal_search : Regex := fun p name =>
  Some (existsb (fun alt => occurs alt name) (alternatives_from EmptyString p)).

(** The clock reads [t]; guild managers and messages initialize without
    error; the browser finds no invite link. *)
Definition quiet_env (t : Z) : Env :=
  {| now := t;
     re_search := literal_search;
     re_sub_bar := fun p => p;
     guild_init_error := fun _ => None;
     message_init_error := fun _ _ => None;
     selenium_join := fun _ => NoInviteLink |}.

(** A system around a freshly constructed object; the next identity to
    hand out lies above those of the template messages. *)
Definition system_of (a : AutoGUILD) (guilds : list DiscordGuild) : Sys :=
  {| self := a;
     ctrl := [];
     timers := [];
     saved_logs := [];
     ext_calls := [];
     next_obj := S (fold_right Nat.max 0%nat (map msg_obj (_messages a)));
     client_guilds := guilds |}.

Definition guild_named (id : Z) (name : string) : DiscordGuild :=
  {| dg_name := Some name;
     dg_id := id;
     dg_manage_guild := Some true;
     dg_invites := Ok [] |}.

Definition plain_args (include : string) : InitArgs :=
  {| a_include_pattern := include;
     a_exclude_pattern := None;
     a_remove_after := None;
     a_messages := None;
     a_logging := Some false;
     a_auto_join := None;
     a_invite_track := None;
     a_removal_buffer_length := 50 |}.

Definition with_remove_after (ra : option RemoveAfter) (args : InitArgs) : InitArgs :=
  {| a_include_pattern := a_include_pattern args;
     a_exclude_pattern := a_exclude_pattern args;
     a_remove_after := ra;
     a_messages := a_messages args;
     a_logging := a_logging args;
     a_auto_join := a_auto_join args;
     a_invite_track := a_invite_track args;
     a_removal_buffer_length := a_removal_buffer_length args |}.

Definition with_include (p : string) (args : InitArgs) : InitArgs :=
  {| a_include_pattern := p;
     a_exclude_pattern := a_exclude_pattern args;
     a_remove_after := a_remove_after args;
     a_messages := a_messages args;
     a_logging := a_logging args;
     a_auto_join := a_auto_join args;
     a_invite_track := a_invite_track args;
     a_removal_buffer_length := a_removal_buffer_length args |}.

(** Construction followed by [initialize] on the account's controller. *)
Definition boot (env : Env) (args : InitArgs) (guilds : list DiscordGuild) : Sys :=
  fst (initialize env (Some the_account) (Some the_controller)
         (system_of (__init__ env args) guilds)).

(** [update()] called with no keyword, and with [include_pattern] only. *)
Definition no_kwargs : Kwargs :=
  {| k_include_pattern := None;
     k_exclude_pattern := None;
     k_remove_after := None;
     k_messages := None;
     k_logging := None;
     k_auto_join := None;
     k_invite_track := None;
     k_removal_buffer_length := None |}.

Definition include_kwargs (p : string) : Kwargs :=
  {| k_include_pattern := Some p;
     k_exclude_pattern := None;
     k_remove_after := None;
     k_messages := None;
     k_logging := None;
     k_auto_join := None;
     k_invite_track := None;
     k_removal_buffer_length := None |}.

(** ** Properties of computations *)

(** [m] leaves the observed part of the state as it found it. *)
Definition keeps {B A} (proj : Sys -> B) (m : M A) : Prop :=
  forall s, proj (fst (m s)) = proj s.

(** [m] never raises. *)
Definition succeeds {A} (m : M A) : Prop :=
  forall s, exists a, snd (m s) = Ok a.

(** ** Inputs for the auto-join loop *)

Definition with_auto_join (d : GuildDISCOVERY) (args : InitArgs) : InitArgs :=
  {| a_include_pattern := a_include_pattern args;
     a_exclude_pattern := a_exclude_pattern args;
     a_remove_after := a_remove_after args;
     a_messages := a_messages args;
     a_logging := a_logging args;
     a_auto_join := Some d;
     a_invite_track := a_invite_track args;
     a_removal_buffer_length := a_removal_buffer_length args |}.

Definition discovery (lim : Z) (feed : list FeedItem) : GuildDISCOVERY :=
  {| limit := lim; dsc_init_error := None; dsc_feed := feed |}.

Definition candidate (id : Z) (name : string) : FeedItem :=
  Yield {| q_id := id; q_name := name; q_url := "https://top.gg/" +:+ name |}.

(** The timer task [i] has run its callback. *)
Definition timer_fired (i : nat) (s : Sys) : Sys :=
  set_timers
    (alter (fun t => {| t_when := t_when t; t_event := t_event t; t_state := Done |})
       i (timers s)) s.

Definition pending (ev : EventID) (s : Sys) : list Timer :=
  List.filter
    (fun t => bool_decide (t_event t = ev) && bool_decide (t_state t = Pending))
    (timers s).

(** ** Registrations and invite tracking *)

(** The registrations under one event, in order. *)
Definition under (ev : EventID) (c : EventController.t) : list Listener :=
  List.filter (fun l => bool_decide (l_event l = ev)) c.

(** How often [emit] on [ev] invokes [cb]. *)
Definition invocations (accepts : Predicate -> bool) (ev : EventID)
    (cb : Callback) (c : EventController.t) : nat :=
  length (List.filter (fun x => bool_decide (x = cb))
            (EventController.dispatch accepts ev c)).

(** What the two predicates of the class answer on a member-join
    payload; a predicate that raises accepts nothing. *)
Definition accepts_member (env : Env) (a : AutoGUILD) (member : Member)
    (p : Predicate) : bool :=
  match p with
  | pred_name_match =>
      match _check_name_match env a (dg_name (m_guild member)) with
      | Ok b => b
      | Raise _ => false
      end
  | pred_is_self => true
  end.

(** Modelled from the spec: [EventController.emit] is not under src/.
    It invokes every registered listener whose predicate accepts the
    payload, in registration order, on the listeners registered when it
    is called; an exception of a listener is caught and logged and
    reaches neither the other listeners nor the emitter.  Under the
    member-join event the class registers [_on_member_join] only. *)
Definition caught (m : M unit) : M unit := try_except m (fun _ => ret tt).

Definition emit_member_join (env : Env) (member : Member) : M unit :=
  do s <- get;
  for_each
    (EventController.dispatch (accepts_member env (self s) member)
       discord_member_join (ctrl s))
    (fun cb =>
       match cb with
       | cb_on_member_join => caught (_on_member_join env member)
       | _ => ret tt
       end).

(** The two events of invite tracking and the listener [initialize]
    registers under each. *)
Definition tracking_callback (ev : EventID) : Callback :=
  match ev with
  | discord_member_join => cb_on_member_join
  | _ => cb_on_invite_delete
  end.

Definition tracking_listener (ev : EventID) : Listener :=
  {| l_event := ev; l_callback := tracking_callback ev;
     l_predicate := Some pred_name_match |}.

Definition tracking (ev : EventID) : Prop :=
  ev = discord_member_join \/ ev = discord_invite_delete.

Definition with_invite_track (links : list string) (args : InitArgs) : InitArgs :=
  {| a_include_pattern := a_include_pattern args;
     a_exclude_pattern := a_exclude_pattern args;
     a_remove_after := a_remove_after args;
     a_messages := a_messages args;
     a_logging := a_logging args;
     a_auto_join := a_auto_join args;
     a_invite_track := Some links;
     a_removal_buffer_length := a_removal_buffer_length args |}.

Definition guild_with_invites (id : Z) (name : string) (invites : list Invite)
    : DiscordGuild :=
  {| dg_name := Some name;
     dg_id := id;
     dg_manage_guild := Some true;
     dg_invites := Ok invites |}.

(** Three links, two of them to the same invite: two keys, two
    iterations, two registrations of each listener. *)
Definition tracked_start : Sys :=
  system_of
    (__init__ (quiet_env 1000)
       (with_invite_track
          ["https://discord.gg/abc"; "https://discord.gg/xyz"; "discord.gg/abc"]
          (plain_args "shill")))
    [guild_with_invites 1 "shill-chat"
       [ {| inv_id := "abc"; inv_uses := 3 |}; {| inv_id := "xyz"; inv_uses := 0 |} ]].

Definition tracked_sys : Sys :=
  fst (initialize (quiet_env 1000) (Some the_account) (Some the_controller)
         tracked_start).

(** The tracked invite the scan stops at: every tracked invite before
    it is found in the fetched counts with its stored count, and its own
    fetched count is another number than the stored one. *)
Definition attributed (fetched counts : list (string * Z))
    (id : string) (uses : Z) : Prop :=
  exists pre last post,
    counts = pre ++ (id, last) :: post /\
    (forall k v, In (k, v) pre -> PyDict.get fetched k = Some v) /\
    PyDict.get fetched id = Some uses /\
    uses <> last.

(** No tracked invite has a fetched count other than the stored one. *)
Definition unchanged (fetched counts : list (string * Z)) : Prop :=
  forall k v, In (k, v) counts -> PyDict.get fetched k = Some v.

Definition invite_log (member : Member) (invite_id : string) : LogEntry :=
  {| log_guild_name := dg_name (m_guild member);
     log_guild_id := dg_id (m_guild member);
     log_invite_id := invite_id;
     log_member_id := m_id member;
     log_member_name := m_name member |}.

Definition tracked_guilds (a b : Z) : list DiscordGuild :=
  [guild_with_invites 1 "shill-chat"
     [ {| inv_id := "a"; inv_uses := a |}; {| inv_id := "b"; inv_uses := b |} ]].

(** An object tracking invites "a" and "b", initialized when their use
    counts were [a0] and [b0]; the counts have since become [a1], [b1]. *)
Definition tracking_sys (a0 b0 a1 b1 : Z) : Sys :=
  set_client_guilds (tracked_guilds a1 b1)
    (boot (quiet_env 1000)
       (with_invite_track ["discord.gg/a"; "discord.gg/b"] (plain_args "shill"))
       (tracked_guilds a0 b0)).

Definition newcomer : Member :=
  {| m_id := 42; m_name := "newcomer"; m_guild := guild_named 1 "shill-chat" |}.

(** Follows the spec's words: the first invite, in iteration order,
    whose use count increased since the last known count. *)
Definition first_increased (fetched counts : list (string * Z))
    (id : string) (uses : Z) : Prop :=
  exists pre last post,
    counts = pre ++ (id, last) :: post /\
    (forall k v u, In (k, v) pre -> PyDict.get fetched k = Some u -> u <= v) /\
    PyDict.get fetched id = Some uses /\
    last < uses.

(** Two matching guilds with one tracked invite each, "a" in
    "shill-chat" and "b" in "shill-hub": [chat_invites] is what
    [guild.invites()] answers for the first, [b] the use count of "b". *)
Definition hub (b : Z) : DiscordGuild :=
  guild_with_invites 2 "shill-hub" [ {| inv_id := "b"; inv_uses := b |} ].

Definition chat_and_hub (chat_invites : result (list Invite)) (b : Z)
    : list DiscordGuild :=
  [ {| dg_name := Some "shill-chat"; dg_id := 1; dg_manage_guild := Some true;
       dg_invites := chat_invites |};
    hub b ].

(** The object was initialized when "a" had 5 uses and "b" had 3.  Since
    then "b" has been used once more, and the invites of "shill-chat"
    cannot be read: the query raises [discord.HTTPException]. *)
Definition outage_sys : Sys :=
  set_client_guilds (chat_and_hub (Raise HTTPException) 4)
    (boot (quiet_env 1000)
       (with_invite_track ["discord.gg/a"; "discord.gg/b"] (plain_args "shill"))
       (chat_and_hub (Ok [ {| inv_id := "a"; inv_uses := 5 |} ]) 3)).

Definition hub_newcomer : Member :=
  {| m_id := 42; m_name := "newcomer"; m_guild := hub 4 |}.

(** ** Copies of template messages *)

(** How many elements of [l] compare equal to [m]. *)
Definition copies (m : Message) (l : list Message) : nat :=
  length (List.filter (msg_eqb m) l).

(** [l'] is [l] without its first element equal to [m]: the elements
    before it, none of them equal to [m], and the elements after it are
    all there, in order. *)
Definition first_removed (m : Message) (l l' : list Message) : Prop :=
  exists pre x post,
    l = pre ++ x :: post /\
    l' = pre ++ post /\
    msg_eqb m x = true /\
    Forall (fun y => msg_eqb m y = false) pre.

(** [c] is a deep copy of [m]: the same contents in another object. *)
Definition deep_copy_of (c m : Message) : Prop :=
  msg_uid c = msg_uid m /\
  msg_data c = msg_data m /\
  msg_remote c = msg_remote m /\
  msg_obj c <> msg_obj m.

Definition with_messages (ms : list Message) (args : InitArgs) : InitArgs :=
  {| a_include_pattern := a_include_pattern args;
     a_exclude_pattern := a_exclude_pattern args;
     a_remove_after := a_remove_after args;
     a_messages := Some ms;
     a_logging := a_logging args;
     a_auto_join := a_auto_join args;
     a_invite_track := a_invite_track args;
     a_removal_buffer_length := a_removal_buffer_length args |}.

Definition text_message (obj : nat) (uid : Z) (data : string) : Message :=
  {| msg_obj := obj; msg_uid := uid; msg_data := data; msg_remote := true |}.

(** Two generated guilds, one template ("promo"), and a message "hello"
    that is not a template yet. *)
Definition fan_sys : Sys :=
  boot (quiet_env 1000)
    (with_messages [text_message 2 9 "promo"] (plain_args "shill"))
    [guild_named 1 "shill-chat"; guild_named 2 "shill-market"].

Definition hello : Message := text_message 0 7 "hello".

(** ** Message contexts and the per-guild filter *)

(** One entry of [channels["successful"]] or [channels["failed"]]. *)
Record ChannelCtx := {
  ch_id : Z;
  ch_name : string;
  ch_reason : option string
}.

(** A message context as [_filter_message_context] reads it: the
    [channels] dictionary with its two lists, and the other keys. *)
Record MessageCtx := {
  mc_type : string;
  mc_sent_data : string;
  mc_successful : list ChannelCtx;
  mc_failed : list ChannelCtx
}.

(** [x["id"] in guild_channels] *)
Definition in_guild_channels (guild_channels : list Z) (x : ChannelCtx) : bool :=
  existsb (Z.eqb (ch_id x)) guild_channels.

(** [AutoGUILD._filter_message_context]; [guild_channels] are the ids of
    [guild.channels].  The context and its [channels] dictionary are
    copied before the two lists are replaced. *)
Definition _filter_message_context (guild_channels : list Z)
    (message_ctx : MessageCtx) : option MessageCtx :=
  let successful :=
    List.filter (in_guild_channels guild_channels) (mc_successful message_ctx) in
  let failed :=
    List.filter (in_guild_channels guild_channels) (mc_failed message_ctx) in
  match successful, failed with
  | [], [] => None
  | _, _ =>
      Some {| mc_type := mc_type message_ctx;
              mc_sent_data := mc_sent_data message_ctx;
              mc_successful := successful;
              mc_failed := failed |}
  end.

(** ** The remote connection client ([daf_gui/connector.py]) *)

(** [host.rstrip('/')] *)
Fixpoint rstrip_slash (s : string) : string :=
  match s with
  | EmptyString => EmptyString
  | String c s' =>
      match rstrip_slash s' with
      | EmptyString =>
          if Ascii.eqb c "/"%char then EmptyString else String c EmptyString
      | r => String c r
      end
  end.

Fixpoint ends_with_slash (s : string) : bool :=
  match s with
  | EmptyString => false
  | String c EmptyString => Ascii.eqb c "/"%char
  | String _ s' => ends_with_slash s'
  end.

Fixpoint slashes (n : nat) : string :=
  match n with
  | O => EmptyString
  | S n' => String "/"%char (slashes n')
  end.

(** The string holds a colon. *)
Fixpoint has_colon (s : string) : bool :=
  match s with
  | EmptyString => false
  | String c s' => Ascii.eqb c ":"%char || has_colon s'
  end.

Module Connector.
(** [aiohttp.BasicAuth(login, password)], called with a login that is
    not [None]: the constructor raises [ValueError] for a [None]
    password and for a login that holds a colon. *)
Definition BasicAuth (login : string) (password : option string)
    : result (string * string) :=
  match password with
  | None => Raise ValueError
  | Some p => if has_colon login then Raise ValueError else Ok (login, p)
  end.

Record RemoteConnectionCLIENT := {
  session : option unit;
  connected : bool;
  host : string;
  port : Z;
  auth : option (string * string);
  verify_ssl : bool
}.

(** [RemoteConnectionCLIENT.__init__]; [verify_ssl] may be passed as
    [None].  When [BasicAuth] raises, the exception leaves the
    constructor and no client is built. *)
Definition __init__ (host_ : string) (port_ : Z) (username password : option string)
    (verify_ssl_ : option bool) : result RemoteConnectionCLIENT :=
  let! auth_ :=
    match username with
    | Some u => let! a := BasicAuth u password in Ok (Some a)
    | None => Ok None
    end in
  Ok {| session := None;
        connected := false;
        host := rstrip_slash host_;
        port := port_;
        auth := auth_;
        verify_ssl := match verify_ssl_ with
                      | None => false
                      | Some b => b
                      end |}.
End Connector.

(** ** The JSON answers of the remote server ([daf/remote.py]) *)

Module Remote.
(** [{**kwargs, **dict_}]: the keys of [kwargs] in their order, then the
    entries of [dict_] assigned one by one. *)
Definition merge {V} (kwargs dict_ : list (string * V)) : list (string * V) :=
  fold_left (fun d kv => PyDict.set d (fst kv) (snd kv)) dict_ kwargs.

Record JsonResponse (V : Type) := {
  message : string;
  result_ : list (string * V)
}.
Arguments message {V} _.
Arguments result_ {V} _.

(** [create_json_response(message, dict_, **kwargs)] *)
Definition create_json_response {V} (message_ : string)
    (dict_ kwargs : list (string * V)) : JsonResponse V :=
  {| message := message_; result_ := merge kwargs dict_ |}.
End Remote.

(** ** Inputs and observations for the further properties *)

(** The string holds no slash. *)
Fixpoint no_slash (s : string) : bool :=
  match s with
  | EmptyString => true
  | String c s' => negb (Ascii.eqb c "/"%char) && no_slash s'
  end.

(** The same system after every generated guild has lost its messages
    (each removed by its own [remove_after] policy, say). *)
Definition stripped_guilds (s : Sys) : Sys :=
  set_self (set_gen_guilds (map (set_g_messages []) (_gen_guilds (self s))) (self s)) s.

(** One template ("hello") and one generated guild. *)
Definition hello_sys : Sys :=
  boot (quiet_env 1000)
    (with_messages [text_message 0 7 "hello"] (plain_args "shill"))
    [guild_named 1 "shill-chat"].

(** What decides which guild managers [initialize] generates: the
    managers already there, the client's guilds and the two patterns. *)
Definition generation_inputs (s : Sys)
    : list GUILD * list DiscordGuild * option string * option string :=
  (_gen_guilds (self s), client_guilds s,
   include_pattern (self s), exclude_pattern (self s)).

(** The guild manager of [g] initializes without error. *)
Definition manager_starts (env : Env) (g : DiscordGuild) : bool :=
  match guild_init_error env g with
  | None => true
  | Some _ => false
  end.

(** The timer at position [i] is one whose handle the object holds. *)
Definition held (s : Sys) (i : nat) : Prop :=
  _removal_timer_handle (self s) = Some i \/
  _guild_join_timer_handle (self s) = Some i.

(** The registrations [initialize] makes once per call, whatever is
    tracked: the last one only when [auto_join] is set. *)
Definition guild_join_listener : Listener :=
  {| l_event := discord_guild_join; l_callback := cb_on_guild_join;
     l_predicate := Some pred_name_match |}.

Definition guild_remove_listener : Listener :=
  {| l_event := discord_guild_remove; l_callback := cb_on_guild_remove;
     l_predicate := None |}.

Definition update_listener : Listener :=
  {| l_event := server_update; l_callback := cb_on_update;
     l_predicate := Some pred_is_self |}.

Definition start_join_listener : Listener :=
  {| l_event := auto_guild_start_join; l_callback := cb_join_guilds;
     l_predicate := Some pred_is_self |}.



(** The invites [_get_invites] reads from one guild: those the query
    returns when the account may manage the guild, none otherwise. *)
Definition readable_invites (g : DiscordGuild) : list Invite :=
  match dg_manage_guild g, dg_invites g with
  | Some true, Ok l => l
  | _, _ => []
  end.

(** No key occurs twice, as in every Python dictionary. *)
Definition well_formed_dict {V} (d : list (string * V)) : Prop :=
  List.NoDup (PyDict.keys d).

(** [q] passes the patterns of [a] and the client is already in it. *)
Definition already_joined (env : Env) (s : Sys) (q : QueryResult) : Prop :=
  get_next_guild env (self s) (Yield q) = Candidate q /\
  get_guild s (q_id q) <> None.

Definition add_join_count (n : Z) (s : Sys) : Sys :=
  set_self (set_guild_join_count (guild_join_count (self s) + n) (self s)) s.

Definition with_feed (feed : option (list FeedItem)) (s : Sys) : Sys :=
  set_self (set_guild_query_iter feed (self s)) s.

Definition failing_discovery (e : Exn) : GuildDISCOVERY :=
  {| limit := 5; dsc_init_error := Some e; dsc_feed := [] |}.

(** An environment like [quiet_env] in which the guild manager of the
    guild with id [bad] fails to initialize. *)
Definition failing_guild_env (t : Z) (bad : Z) : Env :=
  {| now := t;
     re_search := literal_search;
     re_sub_bar := fun p => p;
     guild_init_error :=
       fun g => if (dg_id g =? bad)%Z then Some (OtherError "no channels") else None;
     message_init_error := fun _ _ => None;
     selenium_join := fun _ => NoInviteLink |}.

(** * Name matching *)

Lemma check_name_match_None (env : Env) (a : AutoGUILD) :
  _check_name_match env a None = Ok false.
Proof. reflexivity. Qed.

(** C3. [_check_name_match(name)] returns true exactly when the include
    pattern finds a match in the name and the exclude pattern is absent
    or finds none. *)
Theorem check_name_match_iff (env : Env) (a : AutoGUILD) (name : option string) :
  _check_name_match env a name = Ok true <->
  exists n, name = Some n /\
    search_pattern env (include_pattern a) n = Ok true /\
    (exclude_pattern a = None \/
     exists ex, exclude_pattern a = Some ex /\ search env ex n = Ok false).
Proof.
  split.
  - destruct name as [n|]; [|discriminate].
    intros H. exists n. split; [reflexivity|].
    unfold _check_name_match in H.
    destruct (search_pattern env (include_pattern a) n) as [[|]|e];
      cbn in H; try discriminate.
    split; [reflexivity|].
    destruct (exclude_pattern a) as [ex|]; [|left; reflexivity].
    right. exists ex. split; [reflexivity|].
    destruct (search env ex n) as [[|]|e]; cbn in H; congruence.
  - intros (n & -> & Hinc & Hexc).
    unfold _check_name_match. rewrite Hinc. cbn.
    destruct Hexc as [-> | (ex & -> & Hex)]; [reflexivity|].
    rewrite Hex. reflexivity.
Qed.

(** A name that both patterns match is excluded. *)
Lemma check_name_match_both (env : Env) (a : AutoGUILD) (n ex : string) :
  search_pattern env (include_pattern a) n = Ok true ->
  exclude_pattern a = Some ex ->
  search env ex n = Ok true ->
  _check_name_match env a (Some n) = Ok false.
Proof.
  intros Hinc Hex Hm. unfold _check_name_match.
  rewrite Hinc. cbn. rewrite Hex, Hm. reflexivity.
Qed.

Example check_name_match_shill :
  let a := __init__ (quiet_env 0) (plain_args "shill|promo") in
  _check_name_match (quiet_env 0) a (Some "shill-chat") = Ok true /\
  _check_name_match (quiet_env 0) a (Some "general") = Ok false.
Proof. split; reflexivity. Qed.

(** * The removal deadline *)

(** The [remove_after] block on a relative delay: the deadline is the
    initialization time plus the delay, and the timer is set for it. *)
Lemma init_removal_timedelta (env : Env) (c : CtrlRef) (s : Sys) (d : Z) :
  _remove_after (self s) = Some (RA_timedelta d) ->
  exists s',
    init_removal env (Some c) s = (s', Ok tt) /\
    _remove_after (self s') = Some (RA_datetime (now env + d)) /\
    _removal_timer_handle (self s') = Some (length (timers s)) /\
    timers s' = timers s ++
      [ {| t_when := AtTime (now env + d); t_event := server_removed;
           t_state := Pending |} ].
Proof.
  intros H. unfold init_removal, bind, get. rewrite H. cbn.
  eexists. split; [reflexivity|]. cbn. auto.
Qed.

(** Without [remove_after] the block does nothing: no timer is made. *)
Lemma init_removal_never (env : Env) (c : option CtrlRef) (s : Sys) :
  _remove_after (self s) = None ->
  init_removal env c s = (s, Ok tt).
Proof.
  intros H. unfold init_removal, bind, get. rewrite H. reflexivity.
Qed.

(** On an absolute [datetime] the block stores the current time, not
    the datetime it was given. *)
Lemma init_removal_datetime (env : Env) (c : CtrlRef) (s : Sys) (t : Z) :
  _remove_after (self s) = Some (RA_datetime t) ->
  exists s',
    init_removal env (Some c) s = (s', Ok tt) /\
    _remove_after (self s') = Some (RA_datetime (now env)) /\
    timers s' = timers s ++
      [ {| t_when := AtTime (now env); t_event := server_removed;
           t_state := Pending |} ].
Proof.
  intros H. unfold init_removal, bind, get. rewrite H. cbn.
  eexists. split; [reflexivity|]. cbn. auto.
Qed.

(** C6. An object built with [remove_after = datetime 5000] and
    initialized at time 1000: the claim asks for a stored deadline of
    5000 and a removal timer at 5000; the code stores 1000 and arms the
    timer for 1000. *)
Theorem initialize_datetime_deadline_is_now :
  let s := boot (quiet_env 1000)
             (with_remove_after (Some (RA_datetime 5000)) (plain_args "shill")) [] in
  _remove_after (self s) = Some (RA_datetime 1000) /\
  timers s =
    [ {| t_when := AtTime 1000; t_event := server_removed; t_state := Pending |} ].
Proof. vm_compute. split; reflexivity. Qed.

Example initialize_timedelta_deadline :
  let s := boot (quiet_env 1000)
             (with_remove_after (Some (RA_timedelta 3600)) (plain_args "shill")) [] in
  _remove_after (self s) = Some (RA_datetime 4600) /\
  timers s =
    [ {| t_when := AtTime 4600; t_event := server_removed; t_state := Pending |} ].
Proof. vm_compute. split; reflexivity. Qed.

(** * Reasoning about the state monad *)

Lemma bind_run {A B} (m : M A) (k : A -> M B) (s : Sys) :
  bind m k s =
  match m s with
  | (s', Ok a) => k a s'
  | (s', Raise e) => (s', Raise e)
  end.
Proof. reflexivity. Qed.

Lemma bind_ok_inv {A B} (m : M A) (k : A -> M B) (s s' : Sys) (b : B) :
  bind m k s = (s', Ok b) ->
  exists s1 a, m s = (s1, Ok a) /\ k a s1 = (s', Ok b).
Proof.
  unfold bind. destruct (m s) as [s1 [a|e]]; [eauto | discriminate].
Qed.

Section Frames.
Context {B : Type} (proj : Sys -> B).

Lemma keeps_ret {A} (a : A) : keeps proj (ret a).
Proof. intros s. reflexivity. Qed.

Lemma keeps_raise {A} (e : Exn) : keeps proj (@raise A e).
Proof. intros s. reflexivity. Qed.

Lemma keeps_lift {A} (r : result A) : keeps proj (lift r).
Proof. intros s. reflexivity. Qed.

Lemma keeps_get : keeps proj get.
Proof. intros s. reflexivity. Qed.

Lemma keeps_modify (f : Sys -> Sys) :
  (forall s, proj (f s) = proj s) -> keeps proj (modify f).
Proof. intros H s. apply H. Qed.

Lemma keeps_bind {A C} (m : M A) (k : A -> M C) :
  keeps proj m -> (forall a, keeps proj (k a)) -> keeps proj (bind m k).
Proof.
  intros Hm Hk s. unfold bind. specialize (Hm s).
  destruct (m s) as [s1 [a|e]]; cbn in *; [|assumption].
  rewrite (Hk a s1). assumption.
Qed.

Lemma keeps_try_except {A} (m : M A) (h : Exn -> M A) :
  keeps proj m -> (forall e, keeps proj (h e)) -> keeps proj (try_except m h).
Proof.
  intros Hm Hh s. unfold try_except. specialize (Hm s).
  destruct (m s) as [s1 [a|e]]; cbn in *; [assumption|].
  rewrite (Hh e s1). assumption.
Qed.

Lemma keeps_when (b : bool) (m : M unit) : keeps proj m -> keeps proj (when b m).
Proof. destruct b; [auto | intros _; apply keeps_ret]. Qed.

Lemma keeps_for_each {A} (l : list A) (body : A -> M unit) :
  (forall a, keeps proj (body a)) -> keeps proj (for_each l body).
Proof.
  intros H. induction l as [|x l IH]; cbn.
  - apply keeps_ret.
  - apply keeps_bind; auto.
Qed.

Lemma keeps_except_return (m : M unit) : keeps proj m -> keeps proj (except_return m).
Proof.
  intros Hm s. unfold except_return. specialize (Hm s).
  destruct (m s) as [s1 [a|e]]; assumption.
Qed.
End Frames.

Lemma succeeds_ret {A} (a : A) : succeeds (ret a).
Proof. intros s. eexists. reflexivity. Qed.

Lemma succeeds_get : succeeds get.
Proof. intros s. eexists. reflexivity. Qed.

Lemma succeeds_modify (f : Sys -> Sys) : succeeds (modify f).
Proof. intros s. eexists. reflexivity. Qed.

Lemma succeeds_bind {A C} (m : M A) (k : A -> M C) :
  succeeds m -> (forall a, succeeds (k a)) -> succeeds (bind m k).
Proof.
  intros Hm Hk s. unfold bind. destruct (Hm s) as [a Ha].
  destruct (m s) as [s1 r]. cbn in Ha. subst r. apply Hk.
Qed.

Lemma succeeds_for_each {A} (l : list A) (body : A -> M unit) :
  (forall a, succeeds (body a)) -> succeeds (for_each l body).
Proof.
  intros H. induction l as [|x l IH]; cbn.
  - apply succeeds_ret.
  - apply succeeds_bind; auto.
Qed.

Lemma succeeds_except_return (m : M unit) : succeeds (except_return m).
Proof.
  intros s. unfold except_return. destruct (m s) as [s1 [a|e]]; eexists; reflexivity.
Qed.

Ltac keeps_step :=
  first
    [ apply keeps_ret | apply keeps_raise | apply keeps_lift | apply keeps_get
    | apply keeps_bind; [|intros ?]
    | apply keeps_try_except; [|intros ?]
    | apply keeps_when
    | apply keeps_except_return
    | apply keeps_for_each; intros ?
    | apply keeps_modify; intros ?; reflexivity
    | match goal with
      | |- keeps _ (match ?x with _ => _ end) => destruct x
      | |- keeps _ (if ?x then _ else _) => destruct x
      | |- keeps _ (let '(_, _) := ?x in _) => destruct x
      end ].

Ltac keeps_auto := repeat keeps_step.

(** * Closing *)

Lemma cancel_handle_succeeds (h : option nat) : succeeds (cancel_handle h).
Proof. destruct h; [apply succeeds_modify | apply succeeds_ret]. Qed.

Lemma remove_listener_succeeds (c : CtrlRef) (ev : EventID) (cb : Callback) :
  succeeds (remove_listener (Some c) ev cb).
Proof.
  unfold remove_listener, the_ctrl.
  apply succeeds_bind; [apply succeeds_ret | intros _; apply succeeds_modify].
Qed.

(** [_close] always returns. *)
Lemma _close_succeeds : succeeds _close.
Proof.
  unfold _close. apply succeeds_bind; [apply succeeds_get|]. intros s.
  destruct (_event_ctrl (self s)) as [c|]; [|apply succeeds_ret].
  repeat (apply succeeds_bind;
          [first [apply remove_listener_succeeds | apply cancel_handle_succeeds]
          | intros _]).
  apply succeeds_bind.
  - destruct (auto_join (self s)); [apply succeeds_modify | apply succeeds_ret].
  - intros _. apply succeeds_for_each. intros g. apply succeeds_modify.
Qed.

(** [_close] assigns no attribute of the object: in particular the
    controller reference and the list of generated guilds stay. *)
Lemma _close_keeps_self : keeps self _close.
Proof.
  unfold _close, remove_listener, the_ctrl, cancel_handle, log_call.
  keeps_auto.
Qed.

Lemma _close_keeps_event_ctrl (s : Sys) :
  _event_ctrl (self (fst (_close s))) = _event_ctrl (self s).
Proof. rewrite _close_keeps_self. reflexivity. Qed.

(** C8. An initialized object with one generated guild, closed twice:
    the claim has the controller reference null after the first
    [_close] and the second call a no-op; the reference is still the
    controller and the second call closes the generated guild again. *)
Theorem close_twice_is_not_a_noop :
  let s0 := boot (quiet_env 1000) (plain_args "shill") [guild_named 1 "shill-chat"] in
  let s1 := fst (_close s0) in
  let s2 := fst (_close s1) in
  _event_ctrl (self s1) = Some the_controller /\
  ext_calls s1 = [call_guild_close 1] /\
  ext_calls s2 = [call_guild_close 1; call_guild_close 1].
Proof. vm_compute. repeat split; reflexivity. Qed.

(** * Update *)

(** Whenever [update] is called without an [invite_track] keyword, the
    lookup of [self.invite_track] fails inside the [try] block, the
    handler re-initializes the closed object, and the [AttributeError]
    reaches the caller: [update_obj_param] is never called. *)
Lemma on_update_needs_invite_track (env : Env)
    (upd : InitOptions -> Kwargs -> M unit)
    (io : option InitOptions) (kw : Kwargs) (s : Sys) :
  k_invite_track kw = None ->
  _on_update env upd io kw s =
    (fst (initialize env (parent (self s)) (_event_ctrl (self s)) (fst (_close s))),
     Raise (AttributeError "invite_track")).
Proof.
  intros Hkw. unfold _on_update.
  rewrite bind_run.
  pose proof (_close_keeps_self s) as Hself.
  destruct (_close_succeeds s) as [[] Hok].
  destruct (_close s) as [s1 r]. cbn in Hok, Hself. subst r.
  unfold try_except. rewrite Hkw.
  cbn. rewrite Hself.
  destruct (succeeds_except_return
              (initialize_body env (parent (self s)) (_event_ctrl (self s))) s1)
    as [o Ho].
  unfold initialize. unfold bind at 1.
  destruct (except_return _ s1) as [s2 r2]. cbn in Ho. subst r2.
  reflexivity.
Qed.

(** When [update_obj_param] raises, the handler runs [initialize] on the
    state the failure left, with the [parent] and controller found
    there, and the exception reaches the caller. *)
Lemma on_update_handler (env : Env) (upd : InitOptions -> Kwargs -> M unit)
    (io : option InitOptions) (kw : Kwargs) (track : list string)
    (s s2 : Sys) (e : Exn) :
  k_invite_track kw = Some track ->
  let s1 := fst (_close s) in
  let kw' :=
    set_k_messages (Some (default (_messages (self s1)) (k_messages kw))) kw in
  let io' :=
    match io with
    | Some o => o
    | None => {| io_parent := parent (self s1);
                 io_event_ctrl := _event_ctrl (self s1) |}
    end in
  upd io' kw' s1 = (s2, Raise e) ->
  _on_update env upd io kw s =
    (fst (initialize env (parent (self s2)) (_event_ctrl (self s2)) s2), Raise e).
Proof.
  intros Hkw s1 kw' io' Hupd. unfold _on_update.
  rewrite bind_run.
  destruct (_close_succeeds s) as [[] Hok].
  subst s1. destruct (_close s) as [s1 r]. cbn in Hok. subst r. cbn in *.
  unfold try_except. rewrite Hkw. cbn.
  subst kw' io'. rewrite Hupd. cbn.
  destruct (succeeds_except_return
              (initialize_body env (parent (self s2)) (_event_ctrl (self s2))) s2)
    as [o Ho].
  unfold initialize. unfold bind at 1.
  destruct (except_return _ s2) as [s3 r3]. cbn in Ho. subst r3.
  reflexivity.
Qed.

(** C1. An initialized object with include pattern "shill", updated
    with [include_pattern="promo"]: the claim has it end like an object
    built with the merged parameters; the update raises and the pattern
    is still "shill", while direct construction gives "promo". *)
Theorem update_include_pattern_fails (upd : InitOptions -> Kwargs -> M unit) :
  let s0 := boot (quiet_env 1000) (plain_args "shill")
              [guild_named 1 "shill-chat"; guild_named 2 "promo-hub"] in
  let out := _on_update (quiet_env 2000) upd None (include_kwargs "promo") s0 in
  snd out = Raise (AttributeError "invite_track") /\
  include_pattern (self (fst out)) = Some "shill" /\
  include_pattern
    (__init__ (quiet_env 2000) (with_include "promo" (plain_args "shill")))
  = Some "promo".
Proof.
  cbv zeta. rewrite on_update_needs_invite_track by reflexivity.
  vm_compute. repeat split; reflexivity.
Qed.

(** C2. An object built with [remove_after = timedelta 3600] and
    initialized at time 1000 has deadline 4600.  An update at time 2000
    fails; the claim has the object re-initialized with its pre-update
    parameters and left running.  The handler's [initialize] replaces
    the deadline by 2000 and arms the removal timer for 2000, the very
    moment of the failed update. *)
Theorem failed_update_resets_deadline (upd : InitOptions -> Kwargs -> M unit) :
  let s0 := boot (quiet_env 1000)
              (with_remove_after (Some (RA_timedelta 3600)) (plain_args "shill"))
              [guild_named 1 "shill-chat"] in
  let out := _on_update (quiet_env 2000) upd None no_kwargs s0 in
  _remove_after (self s0) = Some (RA_datetime 4600) /\
  snd out = Raise (AttributeError "invite_track") /\
  _remove_after (self (fst out)) = Some (RA_datetime 2000) /\
  timers (fst out) =
    [ {| t_when := AtTime 4600; t_event := server_removed; t_state := Cancelled |};
      {| t_when := AtTime 2000; t_event := server_removed; t_state := Pending |} ].
Proof.
  cbv zeta. rewrite on_update_needs_invite_track by reflexivity.
  vm_compute. repeat split; reflexivity.
Qed.

(** The same loss of the deadline when [invite_track] is given and the
    failure comes from [update_obj_param] (here a [TypeError], as the
    type-checked [__init__] raises before assigning anything). *)
Example failed_update_resets_deadline_again :
  let s0 := boot (quiet_env 1000)
              (with_remove_after (Some (RA_timedelta 3600)) (plain_args "shill"))
              [guild_named 1 "shill-chat"] in
  let out := _on_update (quiet_env 2000) (fun _ _ => raise TypeError) None
               (set_k_invite_track (Some []) no_kwargs) s0 in
  snd out = Raise TypeError /\
  _remove_after (self (fst out)) = Some (RA_datetime 2000).
Proof. vm_compute. split; reflexivity. Qed.

(** Without a deadline the handler brings the object back: the update
    listener is registered again and the pattern is unchanged. *)
Example failed_update_without_deadline (upd : InitOptions -> Kwargs -> M unit) :
  let s0 := boot (quiet_env 1000) (plain_args "shill") [guild_named 1 "shill-chat"] in
  let out := _on_update (quiet_env 2000) upd None no_kwargs s0 in
  snd out = Raise (AttributeError "invite_track") /\
  EventController.count server_update cb_on_update (ctrl (fst out)) = 1%nat /\
  include_pattern (self (fst out)) = include_pattern (self s0) /\
  _remove_after (self (fst out)) = None.
Proof.
  cbv zeta. rewrite on_update_needs_invite_track by reflexivity.
  vm_compute. repeat split; reflexivity.
Qed.

(** * The auto-join loop *)

(** C5. Include pattern "shill", join budget 5, no guild joined yet,
    and a feed whose next candidate is "general", followed by
    "shill-hub".  The claim has every firing re-arm the timer and the
    loop stop only on an exhausted feed, a spent budget or 100 guilds.
    The firing returns on the filtered candidate without re-arming: no
    join timer is pending afterwards although the feed still holds
    "shill-hub", the count is 0 of 5, and the listener is still
    registered. *)
Theorem join_loop_dies_on_filtered_candidate :
  let s0 := boot (quiet_env 1000)
              (with_auto_join
                 (discovery 5 [candidate 7 "general"; candidate 8 "shill-hub"])
                 (plain_args "shill")) [] in
  let out := _join_guilds (quiet_env 1045) (timer_fired 0 s0) in
  pending auto_guild_start_join s0 =
    [ {| t_when := AfterDelay 45; t_event := auto_guild_start_join;
         t_state := Pending |} ] /\
  snd out = Ok tt /\
  pending auto_guild_start_join (fst out) = [] /\
  guild_query_iter (self (fst out)) = Some [candidate 8 "shill-hub"] /\
  guild_join_count (self (fst out)) = 0 /\
  length (client_guilds (fst out)) = 0%nat /\
  EventController.count auto_guild_start_join cb_join_guilds (ctrl (fst out)) = 1%nat.
Proof. vm_compute. repeat split; reflexivity. Qed.

(** When the candidate passes the patterns the same firing does re-arm
    the timer, whatever the join attempt gives. *)
Example join_loop_rearms_after_attempt :
  let s0 := boot (quiet_env 1000)
              (with_auto_join
                 (discovery 5 [candidate 8 "shill-hub"; candidate 7 "general"])
                 (plain_args "shill")) [] in
  let out := _join_guilds (quiet_env 1045) (timer_fired 0 s0) in
  snd out = Ok tt /\
  pending auto_guild_start_join (fst out) =
    [ {| t_when := AfterDelay 45; t_event := auto_guild_start_join;
         t_state := Pending |} ] /\
  guild_join_count (self (fst out)) = 0.
Proof. vm_compute. repeat split; reflexivity. Qed.

(** On an exhausted feed the firing drops the iterator and returns; the
    listener stays registered and no timer is pending. *)
Example join_loop_exhausted_feed :
  let s0 := boot (quiet_env 1000)
              (with_auto_join (discovery 5 []) (plain_args "shill")) [] in
  let out := _join_guilds (quiet_env 1045) (timer_fired 0 s0) in
  snd out = Ok tt /\
  guild_query_iter (self (fst out)) = None /\
  pending auto_guild_start_join (fst out) = [] /\
  EventController.count auto_guild_start_join cb_join_guilds (ctrl (fst out)) = 1%nat.
Proof. vm_compute. repeat split; reflexivity. Qed.

(** * Listener registration in [initialize] *)

Lemma under_add_same (ev : EventID) (cb : Callback) (p : option Predicate)
    (c : EventController.t) :
  under ev (EventController.add_listener ev cb p c) =
  under ev c ++ [ {| l_event := ev; l_callback := cb; l_predicate := p |} ].
Proof.
  unfold under, EventController.add_listener. rewrite List.filter_app. cbn.
  rewrite bool_decide_eq_true_2 by reflexivity. reflexivity.
Qed.

Lemma under_add_other (ev ev' : EventID) (cb : Callback) (p : option Predicate)
    (c : EventController.t) :
  ev' <> ev ->
  under ev (EventController.add_listener ev' cb p c) = under ev c.
Proof.
  intros Hne. unfold under, EventController.add_listener.
  rewrite List.filter_app. cbn.
  rewrite bool_decide_eq_false_2 by assumption. apply app_nil_r.
Qed.

Lemma count_under (ev : EventID) (cb : Callback) (c : EventController.t) :
  EventController.count ev cb c =
  length (List.filter (fun l => bool_decide (l_callback l = cb)) (under ev c)).
Proof.
  unfold EventController.count, EventController.registered, under.
  induction c as [|l c IH]; [reflexivity|]. cbn.
  destruct (bool_decide (l_event l = ev)); cbn.
  - destruct (bool_decide (l_callback l = cb)); cbn; rewrite IH; reflexivity.
  - apply IH.
Qed.

Lemma dispatch_under (accepts : Predicate -> bool) (ev : EventID)
    (c : EventController.t) :
  EventController.dispatch accepts ev c =
  map l_callback
    (List.filter
       (fun l => match l_predicate l with None => true | Some p => accepts p end)
       (under ev c)).
Proof.
  unfold EventController.dispatch, under. f_equal.
  induction c as [|l c IH]; [reflexivity|]. cbn.
  destruct (bool_decide (l_event l = ev)); cbn; [|apply IH].
  destruct (match l_predicate l with None => true | Some p => accepts p end);
    rewrite IH; reflexivity.
Qed.

Lemma filter_repeat_true {A} (f : A -> bool) (x : A) (k : nat) :
  f x = true -> List.filter f (repeat x k) = repeat x k.
Proof.
  intros H. induction k as [|k IH]; [reflexivity|]. cbn. rewrite H, IH. reflexivity.
Qed.

Lemma matching_guilds_not_http (env : Env) (a : AutoGUILD)
    (gs : list DiscordGuild) (e : Exn) :
  matching_guilds env a gs = Raise e -> e <> HTTPException.
Proof.
  induction gs as [|g gs IH]; cbn; [discriminate|].
  unfold _check_name_match, search_pattern, search.
  destruct (dg_name g) as [n|]; cbn.
  - destruct (include_pattern a) as [p|]; cbn; [|congruence].
    destruct (re_search env p n) as [[|]|]; cbn; [| |congruence].
    + destruct (exclude_pattern a) as [ex|]; cbn.
      * destruct (re_search env ex n) as [b|]; cbn; [|congruence].
        destruct (matching_guilds env a gs); cbn; [discriminate|].
        intros [= <-]. apply IH. reflexivity.
      * destruct (matching_guilds env a gs); cbn; [discriminate|].
        intros [= <-]. apply IH. reflexivity.
    + destruct (matching_guilds env a gs); cbn; [discriminate|].
      intros [= <-]. apply IH. reflexivity.
  - destruct (matching_guilds env a gs); cbn; [discriminate|].
    intros [= <-]. apply IH. reflexivity.
Qed.

Lemma collect_invites_not_http (gs : list DiscordGuild) (e : Exn) :
  collect_invites gs = Raise e -> e <> HTTPException.
Proof.
  induction gs as [|g gs IH]; cbn; [discriminate|].
  destruct (dg_manage_guild g) as [[|]|]; cbn; [| |congruence].
  - destruct (dg_invites g) as [l|x]; cbn.
    + destruct (collect_invites gs); cbn; [discriminate|].
      intros [= <-]. apply IH. reflexivity.
    + destruct x; cbn;
        try (intros [= <-]; discriminate).
      destruct (collect_invites gs); cbn; [discriminate|].
      intros [= <-]. apply IH. reflexivity.
  - destruct (collect_invites gs); cbn; [discriminate|].
    intros [= <-]. apply IH. reflexivity.
Qed.

(** [_get_invites] lets no [HTTPException] out. *)
Lemma _get_invites_not_http (env : Env) (s s1 : Sys) (e : Exn) :
  _get_invites env s = (s1, Raise e) -> e <> HTTPException.
Proof.
  unfold _get_invites, _get_guilds, the_parent, bind, get, lift, modify_self,
    modify, ret, raise.
  destruct (parent (self s)) eqn:Hp; cbn; rewrite ?Hp; cbn;
    [|intros [= _ <-]; discriminate].
  destruct (matching_guilds env (self s) (client_guilds s)) as [gs|x] eqn:Hm; cbn.
  - destruct (collect_invites gs) as [l|x] eqn:Hc; cbn; intros H; inversion H; subst.
    eapply collect_invites_not_http; eassumption.
  - intros [= _ <-]. eapply matching_guilds_not_http; eassumption.
Qed.

(** [_get_invites] only refreshes the cache. *)
Lemma _get_invites_keeps_ctrl (env : Env) : keeps ctrl (_get_invites env).
Proof. unfold _get_invites, _get_guilds, the_parent, modify_self. keeps_auto. Qed.

Lemma _get_invites_keeps_counts (env : Env) :
  keeps (fun s => _invite_join_count (self s)) (_get_invites env).
Proof. unfold _get_invites, _get_guilds, the_parent, modify_self. keeps_auto. Qed.

Lemma _get_invites_keeps_event_ctrl (env : Env) :
  keeps (fun s => _event_ctrl (self s)) (_get_invites env).
Proof. unfold _get_invites, _get_guilds, the_parent, modify_self. keeps_auto. Qed.

Lemma _get_invites_keeps_logs (env : Env) : keeps saved_logs (_get_invites env).
Proof. unfold _get_invites, _get_guilds, the_parent, modify_self. keeps_auto. Qed.

Lemma keeps_run {B A} (proj : Sys -> B) (m : M A) (s s' : Sys) (r : result A) :
  keeps proj m -> m s = (s', r) -> proj s' = proj s.
Proof. intros Hk Hm. specialize (Hk s). rewrite Hm in Hk. exact Hk. Qed.

Lemma the_parent_ok_inv (p : option ParentRef) (attr : string) (s s' : Sys) :
  the_parent p attr s = (s', Ok tt) -> s' = s.
Proof. destruct p; cbn; intros H; inversion H; reflexivity. Qed.

Lemma keeps_add_listener_other (ev ev' : EventID) (c : option CtrlRef)
    (cb : Callback) (p : option Predicate) :
  ev' <> ev ->
  keeps (fun s => under ev (ctrl s)) (add_listener c ev' cb p).
Proof.
  intros Hne. unfold add_listener, the_ctrl.
  apply keeps_bind; [destruct c; keeps_auto|]. intros _.
  apply keeps_modify. intros s. cbn. apply under_add_other. assumption.
Qed.

Lemma under_track (ev : EventID) (c : EventController.t) :
  tracking ev ->
  under ev
    (EventController.add_listener discord_invite_delete cb_on_invite_delete
       (Some pred_name_match)
       (EventController.add_listener discord_member_join cb_on_member_join
          (Some pred_name_match) c)) =
  under ev c ++ [tracking_listener ev].
Proof.
  intros [-> | ->].
  - rewrite under_add_other by discriminate. apply under_add_same.
  - rewrite under_add_same. rewrite under_add_other by discriminate. reflexivity.
Qed.

(** One iteration of the per-invite loop registers both listeners. *)
Lemma track_invite_run (d : list (string * Z)) (invite : string) (c : CtrlRef)
    (s : Sys) :
  _event_ctrl (self s) = Some c ->
  exists s',
    track_invite d invite s = (s', Ok tt) /\
    _event_ctrl (self s') = Some c /\
    forall ev, tracking ev ->
      under ev (ctrl s') = under ev (ctrl s) ++ [tracking_listener ev].
Proof.
  intros Hc. unfold track_invite, bind, modify_self, modify, get. cbn.
  rewrite Hc. cbn. eexists. split; [reflexivity|]. cbn.
  split; [assumption|]. intros ev Hev. apply under_track. assumption.
Qed.

(** The loop registers them once per key. *)
Lemma for_each_track_run (d : list (string * Z)) (c : CtrlRef)
    (l : list string) (s : Sys) :
  _event_ctrl (self s) = Some c ->
  exists s',
    for_each l (track_invite d) s = (s', Ok tt) /\
    _event_ctrl (self s') = Some c /\
    forall ev, tracking ev ->
      under ev (ctrl s') =
      under ev (ctrl s) ++ repeat (tracking_listener ev) (length l).
Proof.
  revert s. induction l as [|x l IH]; intros s Hc.
  - exists s. cbn. split; [reflexivity|]. split; [assumption|].
    intros ev _. symmetry. apply app_nil_r.
  - destruct (track_invite_run d x c s Hc) as (s1 & H1 & Hc1 & Hu1).
    destruct (IH s1 Hc1) as (s2 & H2 & Hc2 & Hu2).
    exists s2. cbn [for_each]. rewrite bind_run, H1.
    split; [assumption|]. split; [assumption|].
    intros ev Hev. rewrite (Hu2 ev Hev), (Hu1 ev Hev).
    rewrite <- app_assoc. reflexivity.
Qed.

(** The invite block of [initialize]: when it completes, each tracking
    event has gained one registration per tracked invite. *)
Lemma init_invites_run (env : Env) (c : CtrlRef) (s s' : Sys) :
  _event_ctrl (self s) = Some c ->
  init_invites env s = (s', Ok tt) ->
  forall ev, tracking ev ->
    under ev (ctrl s') =
    under ev (ctrl s) ++
      repeat (tracking_listener ev) (length (_invite_join_count (self s))).
Proof.
  intros Hc H ev Hev. unfold init_invites in H.
  rewrite bind_run in H. cbn in H.
  destruct (length (_invite_join_count (self s))) as [|k] eqn:Hlen; cbn in H.
  - inversion H. subst. symmetry. apply app_nil_r.
  - unfold except_http, try_except in H. rewrite bind_run in H.
    destruct (_get_invites env s) as [s1 [invites|e]] eqn:Hget.
    + pose proof (keeps_run _ _ _ _ _ (_get_invites_keeps_ctrl env) Hget) as Hk1.
      pose proof (keeps_run _ _ _ _ _ (_get_invites_keeps_counts env) Hget) as Hk2.
      pose proof (keeps_run _ _ _ _ _ (_get_invites_keeps_event_ctrl env) Hget) as Hk3.
      cbn in Hk2, Hk3. rewrite Hc in Hk3.
      rewrite bind_run in H. cbn in H.
      destruct (for_each_track_run (uses_by_id invites) c
                  (PyDict.keys (_invite_join_count (self s1))) s1 Hk3)
        as (s2 & H2 & _ & Hu2).
      rewrite H2 in H. inversion H. subst s2.
      rewrite (Hu2 ev Hev), Hk1.
      unfold PyDict.keys. rewrite length_map, Hk2, Hlen. reflexivity.
    + apply _get_invites_not_http in Hget.
      destruct e; cbn in H; try discriminate. congruence.
Qed.

Lemma init_auto_join_keeps_ctrl : keeps ctrl init_auto_join.
Proof. unfold init_auto_join, log_call, modify_self. keeps_auto. Qed.

Lemma init_auto_join_keeps_counts :
  keeps (fun s => _invite_join_count (self s)) init_auto_join.
Proof. unfold init_auto_join, log_call, modify_self. keeps_auto. Qed.

Lemma init_auto_join_keeps_event_ctrl :
  keeps (fun s => _event_ctrl (self s)) init_auto_join.
Proof. unfold init_auto_join, log_call, modify_self. keeps_auto. Qed.

Lemma init_removal_keeps_ctrl (env : Env) (c : option CtrlRef) :
  keeps ctrl (init_removal env c).
Proof. unfold init_removal, call_at, the_ctrl, modify_self. keeps_auto. Qed.

Lemma init_removal_keeps_counts (env : Env) (c : option CtrlRef) :
  keeps (fun s => _invite_join_count (self s)) (init_removal env c).
Proof. unfold init_removal, call_at, the_ctrl, modify_self. keeps_auto. Qed.

Lemma init_removal_keeps_event_ctrl (env : Env) (c : option CtrlRef) :
  keeps (fun s => _event_ctrl (self s)) (init_removal env c).
Proof. unfold init_removal, call_at, the_ctrl, modify_self. keeps_auto. Qed.

Lemma init_join_timer_keeps_under (ev : EventID) (c : option CtrlRef) :
  tracking ev ->
  keeps (fun s => under ev (ctrl s)) (init_join_timer c).
Proof.
  intros Hev. unfold init_join_timer.
  apply keeps_bind; [apply keeps_get|]. intros s.
  destruct (auto_join (self s)); [|apply keeps_ret].
  apply keeps_bind.
  - unfold _reset_auto_join_timer, call_at, the_ctrl, modify_self. keeps_auto.
  - intros _. apply keeps_add_listener_other. destruct Hev; subst; discriminate.
Qed.

Lemma init_listeners_keeps_under (ev : EventID) (c : option CtrlRef) :
  tracking ev ->
  keeps (fun s => under ev (ctrl s)) (init_listeners c).
Proof.
  intros Hev. unfold init_listeners.
  apply keeps_bind; [apply keeps_get|]. intros s.
  assert (Hother : forall c' ev' cb p,
            ev' <> discord_member_join -> ev' <> discord_invite_delete ->
            keeps (fun s => under ev (ctrl s)) (add_listener c' ev' cb p)).
  { intros c' ev' cb p H1 H2. apply keeps_add_listener_other.
    destruct Hev; subst; assumption. }
  apply keeps_bind; [apply Hother; discriminate | intros _].
  apply keeps_bind; [apply Hother; discriminate | intros _].
  apply Hother; discriminate.
Qed.

Lemma init_guilds_keeps_ctrl (env : Env) : keeps ctrl (init_guilds env).
Proof.
  unfold init_guilds, _get_guilds, _make_new_guild, the_parent, modify_self.
  keeps_auto.
Qed.

Lemma initialize_ok_inv (env : Env) (p : option ParentRef) (c : option CtrlRef)
    (s s' : Sys) :
  initialize env p c s = (s', Ok None) ->
  initialize_body env p c s = (s', Ok tt).
Proof.
  unfold initialize, except_return.
  destruct (initialize_body env p c s) as [s1 [[]|e]]; intros H; inversion H.
  reflexivity.
Qed.

(** A completed [initialize] adds, under each tracking event, one
    registration per tracked invite and nothing else. *)
Lemma initialize_body_under (env : Env) (p : option ParentRef) (c : CtrlRef)
    (s s' : Sys) (ev : EventID) :
  tracking ev ->
  initialize_body env p (Some c) s = (s', Ok tt) ->
  under ev (ctrl s') =
  under ev (ctrl s) ++
    repeat (tracking_listener ev) (length (_invite_join_count (self s))).
Proof.
  intros Hev H. unfold initialize_body in H.
  apply bind_ok_inv in H as (s1 & [] & H1 & H).
  apply the_parent_ok_inv in H1. subst s1.
  apply bind_ok_inv in H as (s2 & [] & H2 & H). inversion H2. subst s2. clear H2.
  apply bind_ok_inv in H as (s3 & [] & H3 & H). inversion H3. subst s3. clear H3.
  apply bind_ok_inv in H as (s4 & [] & H4 & H).
  apply bind_ok_inv in H as (s5 & [] & H5 & H).
  apply bind_ok_inv in H as (s6 & [] & H6 & H).
  apply bind_ok_inv in H as (s7 & [] & H7 & H).
  apply bind_ok_inv in H as (s8 & [] & H8 & H).
  pose proof (keeps_run _ _ _ _ _ init_auto_join_keeps_ctrl H4) as Hc4.
  pose proof (keeps_run _ _ _ _ _ init_auto_join_keeps_counts H4) as Hn4.
  pose proof (keeps_run _ _ _ _ _ init_auto_join_keeps_event_ctrl H4) as He4.
  pose proof (keeps_run _ _ _ _ _ (init_removal_keeps_ctrl env (Some c)) H5) as Hc5.
  pose proof (keeps_run _ _ _ _ _ (init_removal_keeps_counts env (Some c)) H5) as Hn5.
  pose proof (keeps_run _ _ _ _ _ (init_removal_keeps_event_ctrl env (Some c)) H5)
    as He5.
  cbn in Hc4, Hn4, He4, Hc5, Hn5, He5.
  assert (Hc6 : _event_ctrl (self s5) = Some c) by congruence.
  pose proof (init_invites_run env c s5 s6 Hc6 H6 ev Hev) as Hu6.
  pose proof (keeps_run _ _ _ _ _ (init_join_timer_keeps_under ev (Some c) Hev) H7)
    as Hu7.
  pose proof (keeps_run _ _ _ _ _ (init_listeners_keeps_under ev (Some c) Hev) H8)
    as Hu8.
  pose proof (keeps_run _ _ _ _ _ (init_guilds_keeps_ctrl env) H) as Hc9.
  cbn in Hu7, Hu8.
  rewrite Hc9, Hu8, Hu7, Hu6, Hc5, Hc4, Hn5, Hn4. reflexivity.
Qed.

Lemma count_app_repeat (ev : EventID) (c c' : EventController.t) (k : nat) :
  under ev c' = under ev c ++ repeat (tracking_listener ev) k ->
  EventController.count ev (tracking_callback ev) c' =
  (EventController.count ev (tracking_callback ev) c + k)%nat.
Proof.
  intros H. rewrite !count_under, H, List.filter_app, length_app.
  rewrite filter_repeat_true, repeat_length; [reflexivity|].
  apply bool_decide_eq_true_2. reflexivity.
Qed.

Lemma invocations_under (accepts : Predicate -> bool) (ev : EventID)
    (cb : Callback) (c : EventController.t) :
  invocations accepts ev cb c =
  length (List.filter
            (fun l => bool_decide (l_callback l = cb) &&
                      match l_predicate l with
                      | None => true
                      | Some p => accepts p
                      end) (under ev c)).
Proof.
  unfold invocations. rewrite dispatch_under.
  induction (under ev c) as [|l ls IH]; [reflexivity|]. cbn.
  destruct (match l_predicate l with None => true | Some p => accepts p end);
    cbn; rewrite ?andb_false_r, ?andb_true_r.
  - destruct (bool_decide (l_callback l = cb)); cbn; rewrite IH; reflexivity.
  - apply IH.
Qed.

Lemma invocations_app_repeat (accepts : Predicate -> bool) (ev : EventID)
    (c c' : EventController.t) (k : nat) :
  accepts pred_name_match = true ->
  under ev c' = under ev c ++ repeat (tracking_listener ev) k ->
  invocations accepts ev (tracking_callback ev) c' =
  (invocations accepts ev (tracking_callback ev) c + k)%nat.
Proof.
  intros Hacc H. rewrite !invocations_under, H, List.filter_app, length_app.
  rewrite filter_repeat_true, repeat_length; [reflexivity|].
  cbn. rewrite Hacc, bool_decide_eq_true_2 by reflexivity. reflexivity.
Qed.

(** C10. When [initialize] completes, the controller holds one more
    registration of [_on_member_join] and one more of
    [_on_invite_delete] per key of the tracked-invite dictionary, that
    is per iteration of the loop, and none more when nothing is tracked;
    an emitted member-join event that passes the name predicate then
    invokes [_on_member_join] once more per key. *)
Theorem initialize_registers_per_invite (env : Env) (p : option ParentRef)
    (c : CtrlRef) (s s' : Sys) :
  initialize env p (Some c) s = (s', Ok None) ->
  let k := length (_invite_join_count (self s)) in
  EventController.count discord_member_join cb_on_member_join (ctrl s') =
    (EventController.count discord_member_join cb_on_member_join (ctrl s) + k)%nat /\
  EventController.count discord_invite_delete cb_on_invite_delete (ctrl s') =
    (EventController.count discord_invite_delete cb_on_invite_delete (ctrl s) + k)%nat /\
  forall accepts, accepts pred_name_match = true ->
    invocations accepts discord_member_join cb_on_member_join (ctrl s') =
    (invocations accepts discord_member_join cb_on_member_join (ctrl s) + k)%nat.
Proof.
  intros H k. apply initialize_ok_inv in H.
  pose proof (initialize_body_under env p c s s' discord_member_join
                (or_introl eq_refl) H) as Hmj.
  pose proof (initialize_body_under env p c s s' discord_invite_delete
                (or_intror eq_refl) H) as Hid.
  split; [exact (count_app_repeat _ _ _ _ Hmj)|].
  split; [exact (count_app_repeat _ _ _ _ Hid)|].
  intros accepts Hacc. exact (invocations_app_repeat _ _ _ _ _ Hacc Hmj).
Qed.

Lemma initialize_registers_per_invite_witness :
  initialize (quiet_env 1000) (Some the_account) (Some the_controller) tracked_start
    = (tracked_sys, Ok None) /\
  EventController.count discord_member_join cb_on_member_join (ctrl tracked_sys)
    = 2%nat /\
  EventController.count discord_invite_delete cb_on_invite_delete (ctrl tracked_sys)
    = 2%nat /\
  invocations (fun _ => true) discord_member_join cb_on_member_join
    (ctrl tracked_sys) = 2%nat.
Proof.
  assert (H : initialize (quiet_env 1000) (Some the_account) (Some the_controller)
                tracked_start = (tracked_sys, Ok None)) by (vm_compute; reflexivity).
  split; [exact H|].
  destruct (initialize_registers_per_invite _ _ _ _ _ H) as (H1 & H2 & H3).
  split; [exact H1|]. split; [exact H2|]. exact (H3 (fun _ => true) eq_refl).
Defined.

(** * Invite attribution *)

Lemma pydict_get_set_eq {V} (d : list (string * V)) (k : string) (v : V) :
  PyDict.get (PyDict.set d k v) k = Some v.
Proof.
  induction d as [|[k' v'] d IH]; cbn.
  - rewrite decide_True by reflexivity. reflexivity.
  - destruct (decide (k' = k)) as [->|Hne]; cbn.
    + rewrite decide_True by reflexivity. reflexivity.
    + rewrite decide_False by assumption. apply IH.
Qed.

Lemma pydict_get_set_ne {V} (d : list (string * V)) (k k' : string) (v : V) :
  k' <> k -> PyDict.get (PyDict.set d k v) k' = PyDict.get d k'.
Proof.
  intros Hne. induction d as [|[k0 v0] d IH]; cbn.
  - rewrite decide_False by congruence. reflexivity.
  - destruct (decide (k0 = k)) as [->|Hk]; cbn.
    + rewrite !decide_False by congruence. reflexivity.
    + destruct (decide (k0 = k')); [reflexivity | apply IH].
Qed.

Lemma first_changed_attributed (fetched counts : list (string * Z))
    (id : string) (uses : Z) :
  attributed fetched counts id uses ->
  first_changed fetched counts = Ok (Some (id, uses)).
Proof.
  intros (pre & last & post & -> & Hpre & Hid & Hne).
  induction pre as [|[k v] pre IH]; cbn.
  - rewrite Hid. rewrite bool_decide_eq_true_2 by congruence. reflexivity.
  - rewrite (Hpre k v) by (left; reflexivity).
    rewrite bool_decide_eq_false_2 by (intros H; apply H; reflexivity).
    apply IH. intros k' v' Hin. apply Hpre. right. assumption.
Qed.

Lemma first_changed_unchanged (fetched counts : list (string * Z)) :
  unchanged fetched counts -> first_changed fetched counts = Ok None.
Proof.
  induction counts as [|[k v] counts IH]; intros H; cbn; [reflexivity|].
  rewrite (H k v) by (left; reflexivity).
  rewrite bool_decide_eq_false_2 by (intros Hn; apply Hn; reflexivity).
  apply IH. intros k' v' Hin. apply H. right. assumption.
Qed.

(** One call of the handler, with the invites re-fetched: when the scan
    reaches a tracked invite whose fetched count differs from the stored one
    (every earlier one being fetched with its stored count), the join
    is attributed to it, its stored count alone is replaced, and one
    invite context is logged; when every tracked invite is fetched with
    its stored count, no count changes and nothing is logged. *)
Theorem member_join_attribution (env : Env) (member : Member) (s s1 : Sys)
    (invites : list Invite) :
  _get_invites env s = (s1, Ok invites) ->
  let counts := _invite_join_count (self s) in
  let fetched := uses_by_id invites in
  (forall id uses, attributed fetched counts id uses ->
     exists s2,
       _on_member_join env member s = (s2, Ok tt) /\
       _invite_join_count (self s2) = PyDict.set counts id uses /\
       PyDict.get (_invite_join_count (self s2)) id = Some uses /\
       (forall k, k <> id ->
          PyDict.get (_invite_join_count (self s2)) k = PyDict.get counts k) /\
       saved_logs s2 = saved_logs s ++ [invite_log member id]) /\
  (unchanged fetched counts ->
     exists s2,
       _on_member_join env member s = (s2, Ok tt) /\
       _invite_join_count (self s2) = counts /\
       saved_logs s2 = saved_logs s).
Proof.
  intros Hget counts fetched.
  pose proof (keeps_run _ _ _ _ _ (_get_invites_keeps_counts env) Hget) as Hk.
  pose proof (keeps_run _ _ _ _ _ (_get_invites_keeps_logs env) Hget) as Hl.
  cbn in Hk. split.
  - intros id uses Hat. apply first_changed_attributed in Hat.
    unfold _on_member_join. rewrite bind_run, Hget. cbn.
    rewrite Hk. fold counts. fold fetched. rewrite Hat. cbn.
    eexists. split; [reflexivity|]. cbn. rewrite Hk. fold counts.
    split; [reflexivity|]. split; [apply pydict_get_set_eq|].
    split; [intros k Hne; apply pydict_get_set_ne; assumption|].
    rewrite Hl. reflexivity.
  - intros Hun. apply first_changed_unchanged in Hun.
    unfold _on_member_join. rewrite bind_run, Hget. cbn.
    rewrite Hk. fold counts. fold fetched. rewrite Hun. cbn.
    exists s1. split; [reflexivity|]. split; assumption.
Qed.

Lemma member_join_attribution_witness :
  exists s2,
    _on_member_join (quiet_env 2000) newcomer (tracking_sys 5 3 5 4) = (s2, Ok tt) /\
    PyDict.get (_invite_join_count (self s2)) "a" = Some 5 /\
    PyDict.get (_invite_join_count (self s2)) "b" = Some 4 /\
    saved_logs s2 = [invite_log newcomer "b"].
Proof.
  assert (Hget : _get_invites (quiet_env 2000) (tracking_sys 5 3 5 4) =
                 (fst (_get_invites (quiet_env 2000) (tracking_sys 5 3 5 4)),
                  Ok [ {| inv_id := "a"; inv_uses := 5 |};
                       {| inv_id := "b"; inv_uses := 4 |} ]))
    by (vm_compute; reflexivity).
  destruct (member_join_attribution _ newcomer _ _ _ Hget) as [Hatt _].
  destruct (Hatt "b" 4) as (s2 & H1 & _ & H3 & H4 & H5).
  { exists [("a", 5)], 3, []. split; [vm_compute; reflexivity|].
    split; [|split; [vm_compute; reflexivity | lia]].
    intros k v [H|[]]. inversion H. subst. vm_compute. reflexivity. }
  exists s2. split; [exact H1|]. split.
  - rewrite H4 by discriminate. vm_compute. reflexivity.
  - split; [exact H3 | exact H5].
Defined.

(** C7.  The object tracks "a" (5 uses) and "b" (3 uses); a member
    joins "shill-hub" with "b", whose count becomes 4, while the invites
    of "shill-chat" cannot be read, so that [_get_invites] returns
    without "a".  The claim attributes the join to "b", the first
    tracked invite whose count increased, replaces its count and logs
    one invite context.  The handler raises [KeyError] on "a" each time
    the event invokes it: no count is replaced and nothing is logged. *)
Theorem member_join_lost_on_missing_invite :
  let env := quiet_env 2000 in
  let s := outage_sys in
  let out := emit_member_join env hub_newcomer s in
  _invite_join_count (self s) = [("a", 5); ("b", 3)] /\
  snd (_get_invites env s) = Ok [ {| inv_id := "b"; inv_uses := 4 |} ] /\
  first_increased (uses_by_id [ {| inv_id := "b"; inv_uses := 4 |} ])
    (_invite_join_count (self s)) "b" 4 /\
  snd (_on_member_join env hub_newcomer s) = Raise (KeyError "a") /\
  EventController.dispatch (accepts_member env (self s) hub_newcomer)
    discord_member_join (ctrl s) = [cb_on_member_join; cb_on_member_join] /\
  snd out = Ok tt /\
  _invite_join_count (self (fst out)) = [("a", 5); ("b", 3)] /\
  saved_logs (fst out) = [].
Proof.
  cbv zeta. split; [vm_compute; reflexivity|]. split; [vm_compute; reflexivity|].
  split.
  - exists [("a", 5)], 3, []. split; [vm_compute; reflexivity|].
    split; [|split; [vm_compute; reflexivity | lia]].
    intros k v u [H|[]] Hu. inversion H. subst.
    vm_compute in Hu. discriminate.
  - vm_compute. repeat split; reflexivity.
Qed.

(** A tracked invite missing from the fetched ones stops the scan with
    a [KeyError], also when a later invite gained a use. *)
Example member_join_missing_invite :
  let s := set_client_guilds
             [guild_with_invites 1 "shill-chat" [ {| inv_id := "b"; inv_uses := 4 |} ]]
             (tracking_sys 5 3 5 3) in
  let out := _on_member_join (quiet_env 2000) newcomer s in
  snd out = Raise (KeyError "a") /\
  saved_logs (fst out) = [] /\
  _invite_join_count (self (fst out)) = [("a", 5); ("b", 3)].
Proof. vm_compute. repeat split; reflexivity. Qed.

(** One member-join event when one tracked invite gained a use: the
    handler is invoked once per tracked invite; the first invocation
    attributes the join and the second finds nothing changed. *)
Example member_join_event_attributes_once :
  let out := emit_member_join (quiet_env 2000) newcomer (tracking_sys 5 3 5 4) in
  snd out = Ok tt /\
  _invite_join_count (self (fst out)) = [("a", 5); ("b", 4)] /\
  saved_logs (fst out) = [invite_log newcomer "b"].
Proof. vm_compute. repeat split; reflexivity. Qed.

(** One member-join event when both tracked invites gained a use since
    the last scan: the two invocations of the handler attribute both
    invites to the one member. *)
Example member_join_event_attributes_twice :
  let out := emit_member_join (quiet_env 2000) newcomer (tracking_sys 5 3 6 4) in
  snd out = Ok tt /\
  _invite_join_count (self (fst out)) = [("a", 6); ("b", 4)] /\
  saved_logs (fst out) = [invite_log newcomer "a"; invite_log newcomer "b"].
Proof. vm_compute. repeat split; reflexivity. Qed.

(** * Template messages and their copies *)

Lemma msg_eqb_refl (m : Message) : msg_eqb m m = true.
Proof. unfold msg_eqb. apply Z.eqb_refl. Qed.

Lemma msg_eqb_equal (m c y : Message) :
  msg_eqb m c = true -> msg_eqb c y = msg_eqb m y.
Proof.
  unfold msg_eqb. intros H. apply Z.eqb_eq in H. rewrite H. reflexivity.
Qed.

Lemma list_remove_copies (m : Message) (l l' : list Message) :
  list_remove m l = Some l' -> (copies m l' + 1 = copies m l)%nat.
Proof.
  unfold copies. revert l'. induction l as [|y l IH]; intros l'; cbn; [discriminate|].
  destruct (msg_eqb m y) eqn:Hy.
  - intros [= <-]. cbn. lia.
  - destruct (list_remove m l) as [l0|]; cbn; [|discriminate].
    intros [= <-]. cbn. rewrite Hy. apply IH. reflexivity.
Qed.

Lemma list_remove_equal (m c : Message) (l : list Message) :
  msg_eqb m c = true -> list_remove c l = list_remove m l.
Proof.
  intros H. induction l as [|y l IH]; cbn; [reflexivity|].
  rewrite (msg_eqb_equal m c y H), IH. reflexivity.
Qed.

Lemma list_index_lookup (m : Message) (l : list Message) (i : nat) :
  list_index m l = Some i ->
  exists c, l !! i = Some c /\ msg_eqb m c = true.
Proof.
  revert i. induction l as [|y l IH]; intros i; cbn; [discriminate|].
  destruct (msg_eqb m y) eqn:Hy.
  - intros [= <-]. exists y. split; [reflexivity | assumption].
  - destruct (list_index m l) as [j|]; cbn; [|discriminate].
    intros [= <-]. apply IH. reflexivity.
Qed.

Lemma list_index_remove (m : Message) (l : list Message) (i : nat) :
  list_index m l = Some i -> exists l', list_remove m l = Some l'.
Proof.
  revert i. induction l as [|y l IH]; intros i; cbn; [discriminate|].
  destruct (msg_eqb m y); [eauto|].
  destruct (list_index m l) as [j|]; cbn; [|discriminate].
  intros _. destruct (IH j eq_refl) as [l' ->]. cbn. eauto.
Qed.

(** [list.remove] drops the first element that compares equal and
    nothing else. *)
Lemma list_remove_first (m : Message) (l l' : list Message) :
  list_remove m l = Some l' -> first_removed m l l'.
Proof.
  revert l'. induction l as [|y l IH]; intros l'; cbn; [discriminate|].
  destruct (msg_eqb m y) eqn:Hy.
  - intros [= <-]. exists [], y, l. repeat split; [assumption | constructor].
  - destruct (list_remove m l) as [l0|]; cbn; [|discriminate].
    intros [= <-]. destruct (IH l0 eq_refl) as (pre & x & post & -> & -> & Hx & Hpre).
    exists (y :: pre), x, post. repeat split; [assumption|].
    constructor; assumption.
Qed.

(** A completed fan-out of [remove_message] has taken the first copy,
    and nothing else, out of every generated guild. *)
Lemma fan_out_remove_ok (m : Message) (gs gs' : list GUILD) :
  fan_out_remove m gs = (gs', Ok tt) ->
  Forall2 (fun g g' =>
             apiobject g' = apiobject g /\
             g_logging g' = g_logging g /\
             first_removed m (g_messages g) (g_messages g') /\
             (copies m (g_messages g') + 1 = copies m (g_messages g))%nat)
    gs gs'.
Proof.
  revert gs'. induction gs as [|g gs IH]; intros gs'; cbn.
  - intros [= <-]. constructor.
  - destruct (list_index m (g_messages g)) as [i|] eqn:Hi; [|discriminate].
    destruct (list_index_lookup _ _ _ Hi) as (c & Hc & Heq).
    destruct (list_index_remove _ _ _ Hi) as (l' & Hl').
    rewrite Hc.
    destruct (fan_out_remove m gs) as [gs0 r] eqn:Hrec.
    intros [= <- ->]. constructor; [|apply IH; reflexivity].
    unfold guild_remove_message.
    rewrite (list_remove_equal m c _ Heq), Hl'. cbn.
    split; [reflexivity|]. split; [reflexivity|].
    split; [apply list_remove_first | apply list_remove_copies]; assumption.
Qed.

(** A completed fan-out of [add_message] has put one new object at the
    end of every generated guild's list, with the contents of [m]. *)
Lemma fan_out_add_ok (env : Env) (m : Message) (fresh : nat) (gs gs' : list GUILD) :
  fan_out_add env m fresh gs = (gs', None) ->
  Forall2 (fun g g' =>
             apiobject g' = apiobject g /\
             exists c,
               g_messages g' = g_messages g ++ [c] /\
               msg_uid c = msg_uid m /\ msg_data c = msg_data m /\
               msg_remote c = msg_remote m /\ (fresh <= msg_obj c)%nat)
    gs gs'.
Proof.
  revert fresh gs'. induction gs as [|g gs IH]; intros fresh gs'; cbn.
  - intros [= <-]. constructor.
  - unfold guild_add_message.
    destruct (message_init_error env (apiobject g) (deepcopy_message fresh m)).
    + destruct (fan_out_add env m (S fresh) gs). discriminate.
    + destruct (fan_out_add env m (S fresh) gs) as [gs0 e] eqn:Hrec.
      intros [= <- ->]. constructor.
      * split; [reflexivity|]. exists (deepcopy_message fresh m).
        cbn. repeat split; reflexivity || lia.
      * eapply List.Forall2_impl; [|exact (IH (S fresh) gs0 Hrec)].
        cbn. intros g0 g1 (Ha & c & H1 & H2 & H3 & H4 & H5).
        split; [assumption|]. exists c. repeat split; assumption || lia.
Qed.

Lemma deepcopy_memo_spec (fresh0 : nat) (ms : list Message) :
  forall (memo : list (nat * nat)) (fresh : nat),
    (fresh0 <= fresh)%nat ->
    (forall o c, memo_lookup memo o = Some c -> (fresh0 <= c)%nat) ->
    Forall2 (fun c t =>
               msg_uid c = msg_uid t /\ msg_data c = msg_data t /\
               msg_remote c = msg_remote t /\ (fresh0 <= msg_obj c)%nat)
      (deepcopy_memo memo fresh ms) ms.
Proof.
  induction ms as [|m ms IH]; intros memo fresh Hle Hmemo; cbn; [constructor|].
  destruct (memo_lookup memo (msg_obj m)) as [c|] eqn:Hlook.
  - constructor; [cbn; repeat split; eauto | apply IH; assumption].
  - constructor; [cbn; repeat split; assumption|].
    apply IH; [lia|]. intros o c. cbn.
    destruct (Nat.eqb (msg_obj m) o); [intros [= <-]; assumption | apply Hmemo].
Qed.

(** C4, as amended.  A completed [add_message(m)] appends [m] to the
    templates and a deep copy of it to every generated guild; a
    completed [remove_message(m)] takes the first element equal to [m],
    and nothing else, out of the templates and out of every generated
    guild, which stay the same guilds in the same order, so that each
    list holds one element equal to [m] less and none where there was
    one; a guild generated later starts with deep copies of the
    templates. *)
Theorem template_fan_out (env : Env) (m : Message) (s : Sys) :
  (forall s',
     add_message env m s = (s', Ok tt) ->
     (msg_obj m < next_obj s)%nat ->
     _messages (self s') = _messages (self s) ++ [_update_tracked_id false m] /\
     Forall2 (fun g g' =>
                apiobject g' = apiobject g /\
                exists c,
                  g_messages g' = g_messages g ++ [c] /\
                  deep_copy_of c (_update_tracked_id false m) /\
                  msg_eqb m c = true)
       (_gen_guilds (self s)) (_gen_guilds (self s'))) /\
  (forall s',
     remove_message m s = (s', Ok tt) ->
     first_removed m (_messages (self s)) (_messages (self s')) /\
     (copies m (_messages (self s')) + 1 = copies m (_messages (self s)))%nat /\
     Forall2 (fun g g' =>
                apiobject g' = apiobject g /\
                g_logging g' = g_logging g /\
                first_removed m (g_messages g) (g_messages g') /\
                (copies m (g_messages g') + 1 = copies m (g_messages g))%nat)
       (_gen_guilds (self s)) (_gen_guilds (self s'))) /\
  (forall guild,
     guild_init_error env guild = None ->
     Forall (fun t => (msg_obj t < next_obj s)%nat) (_messages (self s)) ->
     exists g s',
       _make_new_guild env guild s = (s', Ok tt) /\
       _gen_guilds (self s') = _gen_guilds (self s) ++ [g] /\
       apiobject g = guild /\
       Forall2 deep_copy_of (g_messages g) (_messages (self s))).
Proof.
  split; [|split].
  - intros s' H Hobj.
    unfold add_message, bind, modify_self, modify, get in H. cbn in H.
    destruct (fan_out_add env (_update_tracked_id false m) (next_obj s)
                (_gen_guilds (self s))) as [gs e] eqn:Hfan.
    destruct e as [x|]; cbn in H; [discriminate|].
    inversion H. subst s'. clear H. cbn. split; [reflexivity|].
    eapply List.Forall2_impl; [|exact (fan_out_add_ok _ _ _ _ _ Hfan)].
    cbn. intros g g' (Ha & c & H1 & H2 & H3 & H4 & H5).
    split; [assumption|]. exists c. split; [assumption|]. split.
    + unfold deep_copy_of. cbn. repeat split; try assumption. lia.
    + unfold msg_eqb. rewrite H2. apply Z.eqb_refl.
  - intros s' H.
    unfold remove_message, bind, modify_self, modify, get, lift in H. cbn in H.
    destruct (list_remove m (_messages (self s))) as [ms|] eqn:Hrm;
      [|discriminate].
    cbn in H.
    destruct (fan_out_remove m (_gen_guilds (self s))) as [gs r] eqn:Hfan.
    cbn in H. destruct r as [[]|x]; inversion H. subst s'. clear H. cbn.
    split; [apply list_remove_first; assumption|].
    split; [apply list_remove_copies; assumption|].
    apply fan_out_remove_ok. assumption.
  - intros guild Hinit Hfresh.
    unfold _make_new_guild, bind, modify_self, modify, get. cbn.
    rewrite Hinit. cbn. eexists. eexists. split; [reflexivity|]. cbn.
    split; [reflexivity|]. split; [reflexivity|]. cbn.
    pose proof (deepcopy_memo_spec (next_obj s) (_messages (self s)) []
                  (next_obj s) (le_n _)) as Hcopy.
    assert (Hmemo : forall o c, memo_lookup [] o = Some c -> (next_obj s <= c)%nat)
      by (intros o c; discriminate).
    specialize (Hcopy Hmemo). unfold deepcopy_messages.
    revert Hfresh Hcopy.
    generalize (deepcopy_memo [] (next_obj s) (_messages (self s))).
    induction (_messages (self s)) as [|t ts IH]; intros cs Hfresh Hcopy.
    + inversion Hcopy. constructor.
    + inversion Hcopy as [|c t' cs' ts' (H1 & H2 & H3 & H4) Hrest]. subst.
      inversion Hfresh as [|t' ts' Ht Hts]. subst.
      constructor; [|apply IH; assumption].
      unfold deep_copy_of. repeat split; try assumption. lia.
Qed.

Lemma template_fan_out_witness :
  let s1 := fst (add_message (quiet_env 2000) hello fan_sys) in
  let s2 := fst (remove_message hello s1) in
  (_messages (self s1) =
     _messages (self fan_sys) ++ [_update_tracked_id false hello] /\
   map (fun g => copies hello (g_messages g)) (_gen_guilds (self s1)) = [1; 1]%nat) /\
  (first_removed hello (_messages (self s1)) (_messages (self s2)) /\
   _messages (self s2) = _messages (self fan_sys) /\
   copies hello (_messages (self s2)) = 0%nat /\
   map g_messages (_gen_guilds (self s2)) =
     map g_messages (_gen_guilds (self fan_sys))) /\
  exists g s',
    _make_new_guild (quiet_env 2000) (guild_named 3 "shill-new") s1 = (s', Ok tt) /\
    _gen_guilds (self s') = _gen_guilds (self s1) ++ [g] /\
    Forall2 deep_copy_of (g_messages g) (_messages (self s1)).
Proof.
  cbv zeta.
  set (s1 := fst (add_message (quiet_env 2000) hello fan_sys)).
  set (s2 := fst (remove_message hello s1)).
  assert (Hadd : add_message (quiet_env 2000) hello fan_sys = (s1, Ok tt))
    by (vm_compute; reflexivity).
  assert (Hrm : remove_message hello s1 = (s2, Ok tt))
    by (vm_compute; reflexivity).
  destruct (template_fan_out (quiet_env 2000) hello fan_sys) as (Ha & _ & _).
  destruct (template_fan_out (quiet_env 2000) hello s1) as (_ & Hr & Hn).
  split; [|split].
  - destruct (Ha s1 Hadd) as [Ht _]; [vm_compute; lia|].
    split; [exact Ht | vm_compute; reflexivity].
  - destruct (Hr s2 Hrm) as (Hfirst & Ht & _).
    split; [exact Hfirst|]. split; [vm_compute; reflexivity|].
    split; [vm_compute in Ht |- *; lia | vm_compute; reflexivity].
  - destruct (Hn (guild_named 3 "shill-new")) as (g & s' & H1 & H2 & _ & H4).
    + reflexivity.
    + vm_compute. repeat constructor.
    + exists g, s'. split; [exact H1|]. split; [exact H2 | exact H4].
Defined.

(** Two templates that compare equal (the second a deep copy of the
    first) and one generated guild: [remove_message] completes, yet the
    templates still hold the message and the guild keeps a copy. *)
Lemma remove_message_leaves_a_copy :
  let s := boot (quiet_env 1000)
             (with_messages [text_message 0 7 "hello"; text_message 1 7 "hello"]
                (plain_args "shill"))
             [guild_named 1 "shill-chat"] in
  let out := remove_message hello s in
  snd out = Ok tt /\
  copies hello (_messages (self (fst out))) = 1%nat /\
  map (fun g => copies hello (g_messages g)) (_gen_guilds (self (fst out))) = [1%nat].
Proof. vm_compute. repeat split; reflexivity. Qed.

(** A generated guild without a copy makes [remove_message] raise after
    the template is already gone. *)
Example remove_message_missing_copy :
  let s := boot (quiet_env 1000)
             (with_messages [text_message 0 7 "hello"] (plain_args "shill"))
             [guild_named 1 "shill-chat"] in
  let s := set_self (set_gen_guilds
                       (map (set_g_messages []) (_gen_guilds (self s))) (self s)) s in
  let out := remove_message hello s in
  snd out = Raise ValueError /\ _messages (self (fst out)) = [].
Proof. vm_compute. split; reflexivity. Qed.

(** * The per-guild filter of message contexts *)

Lemma in_guild_channels_In (gc : list Z) (x : ChannelCtx) :
  in_guild_channels gc x = true <-> In (ch_id x) gc.
Proof.
  unfold in_guild_channels. rewrite existsb_exists. split.
  - intros (z & Hin & Hz). apply Z.eqb_eq in Hz. subst z. assumption.
  - intros Hin. exists (ch_id x). split; [assumption | apply Z.eqb_refl].
Qed.

Lemma filter_nil_none {A} (f : A -> bool) (l : list A) :
  List.filter f l = [] -> forall x, In x l -> f x = false.
Proof.
  induction l as [|y l IH]; cbn; [intros _ x []|].
  destruct (f y) eqn:Hy; [discriminate|].
  intros Hnil x [<- | Hin]; [assumption | apply IH; assumption].
Qed.

Lemma filter_guild_In (gc : list Z) (l l' : list ChannelCtx) (x : ChannelCtx) :
  List.filter (in_guild_channels gc) l = l' ->
  (In x l' <-> In x l /\ In (ch_id x) gc).
Proof.
  intros <-. rewrite filter_In, in_guild_channels_In. reflexivity.
Qed.

Lemma filter_guild_head (gc : list Z) (l rest : list ChannelCtx) (a : ChannelCtx) :
  List.filter (in_guild_channels gc) l = a :: rest ->
  In a l /\ In (ch_id a) gc.
Proof.
  intros H. apply (filter_guild_In gc l (a :: rest) a H). left. reflexivity.
Qed.

(** X1. [_filter_message_context] keeps, in both lists, exactly the
    entries whose channel belongs to the guild and leaves the other
    keys alone; it returns [None] exactly when no entry of either list
    belongs to the guild. *)
Theorem filter_message_context_keeps_guild_channels (gc : list Z)
    (ctx : MessageCtx) :
  match _filter_message_context gc ctx with
  | Some out =>
      mc_type out = mc_type ctx /\
      mc_sent_data out = mc_sent_data ctx /\
      (forall x, In x (mc_successful out) <->
                 In x (mc_successful ctx) /\ In (ch_id x) gc) /\
      (forall x, In x (mc_failed out) <->
                 In x (mc_failed ctx) /\ In (ch_id x) gc) /\
      (exists x, In x (mc_successful ctx ++ mc_failed ctx) /\ In (ch_id x) gc)
  | None =>
      forall x, In x (mc_successful ctx ++ mc_failed ctx) -> ~ In (ch_id x) gc
  end.
Proof.
  unfold _filter_message_context.
  destruct (List.filter (in_guild_channels gc) (mc_successful ctx))
    as [|a sl] eqn:Hs;
    destruct (List.filter (in_guild_channels gc) (mc_failed ctx))
      as [|b fl] eqn:Hf.
  - intros x Hin Hgc. apply in_guild_channels_In in Hgc.
    apply in_app_or in Hin as [Hin | Hin].
    + rewrite (filter_nil_none _ _ Hs x Hin) in Hgc. discriminate.
    + rewrite (filter_nil_none _ _ Hf x Hin) in Hgc. discriminate.
  - cbn [mc_type mc_sent_data mc_successful mc_failed].
    split; [reflexivity|]. split; [reflexivity|].
    split; [intros x; exact (filter_guild_In _ _ _ x Hs)|].
    split; [intros x; exact (filter_guild_In _ _ _ x Hf)|].
    destruct (filter_guild_head _ _ _ _ Hf) as [H1 H2].
    exists b. split; [apply in_or_app; right; assumption | assumption].
  - cbn [mc_type mc_sent_data mc_successful mc_failed].
    split; [reflexivity|]. split; [reflexivity|].
    split; [intros x; exact (filter_guild_In _ _ _ x Hs)|].
    split; [intros x; exact (filter_guild_In _ _ _ x Hf)|].
    destruct (filter_guild_head _ _ _ _ Hs) as [H1 H2].
    exists a. split; [apply in_or_app; left; assumption | assumption].
  - cbn [mc_type mc_sent_data mc_successful mc_failed].
    split; [reflexivity|]. split; [reflexivity|].
    split; [intros x; exact (filter_guild_In _ _ _ x Hs)|].
    split; [intros x; exact (filter_guild_In _ _ _ x Hf)|].
    destruct (filter_guild_head _ _ _ _ Hs) as [H1 H2].
    exists a. split; [apply in_or_app; left; assumption | assumption].
Qed.

Lemma filter_filter_same {A} (f : A -> bool) (l : list A) :
  List.filter f (List.filter f l) = List.filter f l.
Proof.
  induction l as [|y l IH]; [reflexivity|]. cbn.
  destruct (f y) eqn:Hy; [cbn; rewrite Hy, IH; reflexivity | exact IH].
Qed.

(** X2. Filtering a context that was already filtered for the same
    guild changes nothing. *)
Theorem filter_message_context_idempotent (gc : list Z) (ctx out : MessageCtx) :
  _filter_message_context gc ctx = Some out ->
  _filter_message_context gc out = Some out.
Proof.
  unfold _filter_message_context.
  pose proof (filter_filter_same (in_guild_channels gc) (mc_successful ctx)) as HS.
  pose proof (filter_filter_same (in_guild_channels gc) (mc_failed ctx)) as HF.
  destruct (List.filter (in_guild_channels gc) (mc_successful ctx)) as [|a sl];
    destruct (List.filter (in_guild_channels gc) (mc_failed ctx)) as [|b fl];
    [discriminate| | |];
    intros [= <-]; cbn [mc_successful mc_failed mc_type mc_sent_data];
    rewrite HS, HF; reflexivity.
Qed.

Lemma filter_message_context_idempotent_witness :
  let ctx := {| mc_type := "TextMESSAGE"; mc_sent_data := "hello";
                mc_successful := [ {| ch_id := 1; ch_name := "a"; ch_reason := None |};
                                   {| ch_id := 5; ch_name := "e"; ch_reason := None |} ];
                mc_failed := [ {| ch_id := 2; ch_name := "b";
                                  ch_reason := Some "forbidden" |} ] |} in
  let out := {| mc_type := "TextMESSAGE"; mc_sent_data := "hello";
                mc_successful := [ {| ch_id := 1; ch_name := "a"; ch_reason := None |} ];
                mc_failed := [ {| ch_id := 2; ch_name := "b";
                                  ch_reason := Some "forbidden" |} ] |} in
  _filter_message_context [1; 2; 3] ctx = Some out /\
  _filter_message_context [1; 2; 3] out = Some out.
Proof.
  cbv zeta.
  assert (H : _filter_message_context [1; 2; 3]
                {| mc_type := "TextMESSAGE"; mc_sent_data := "hello";
                   mc_successful := [ {| ch_id := 1; ch_name := "a"; ch_reason := None |};
                                      {| ch_id := 5; ch_name := "e"; ch_reason := None |} ];
                   mc_failed := [ {| ch_id := 2; ch_name := "b";
                                     ch_reason := Some "forbidden" |} ] |} =
              Some {| mc_type := "TextMESSAGE"; mc_sent_data := "hello";
                      mc_successful := [ {| ch_id := 1; ch_name := "a"; ch_reason := None |} ];
                      mc_failed := [ {| ch_id := 2; ch_name := "b";
                                        ch_reason := Some "forbidden" |} ] |})
    by reflexivity.
  split; [exact H | exact (filter_message_context_idempotent _ _ _ H)].
Defined.

(** * The remote connection client and the server's JSON answers *)

Lemma rstrip_slash_no_trailing (s : string) :
  ends_with_slash (rstrip_slash s) = false.
Proof.
  induction s as [|c s IH]; [reflexivity|]. cbn.
  destruct (rstrip_slash s) as [|d r] eqn:Hr.
  - destruct (Ascii.eqb c "/"%char) eqn:Hc; [reflexivity|]. cbn. exact Hc.
  - exact IH.
Qed.

Lemma rstrip_slash_decompose (s : string) :
  exists n, s = rstrip_slash s +:+ slashes n.
Proof.
  induction s as [|c s [n IH]]; [exists 0%nat; reflexivity|]. cbn.
  destruct (rstrip_slash s) as [|d r] eqn:Hr.
  - destruct (Ascii.eqb c "/"%char) eqn:Hc.
    + apply Ascii.eqb_eq in Hc. subst c. exists (S n). cbn in *.
      rewrite IH at 1. reflexivity.
    + exists n. cbn in *. rewrite IH at 1. reflexivity.
  - exists n. cbn in *. rewrite IH at 1. reflexivity.
Qed.

(** X3. The constructor of the remote connection client raises
    [ValueError], and builds no client, exactly when a username is
    given with no password or holds a colon.  Otherwise the client it
    builds stores a host that never ends with a slash, the host it was
    given being the stored one followed by slashes only, and the
    credentials exactly when a username was given. *)
Theorem remote_client_host_stripped (host_ : string) (port_ : Z)
    (username password : option string) (verify_ssl_ : option bool) :
  match Connector.__init__ host_ port_ username password verify_ssl_ with
  | Ok c =>
      ends_with_slash (Connector.host c) = false /\
      (exists n, host_ = Connector.host c +:+ slashes n) /\
      match username with
      | Some u =>
          has_colon u = false /\
          exists p, password = Some p /\ Connector.auth c = Some (u, p)
      | None => Connector.auth c = None
      end
  | Raise e =>
      e = ValueError /\
      exists u, username = Some u /\ (password = None \/ has_colon u = true)
  end.
Proof.
  unfold Connector.__init__, Connector.BasicAuth.
  destruct username as [u|]; cbn.
  - destruct password as [p|]; cbn.
    + destruct (has_colon u) eqn:Hu; cbn.
      * split; [reflexivity|]. exists u. split; [reflexivity | right; assumption].
      * split; [apply rstrip_slash_no_trailing|].
        split; [apply rstrip_slash_decompose|].
        split; [reflexivity|]. exists p. split; reflexivity.
    + split; [reflexivity|]. exists u. split; [reflexivity | left; reflexivity].
  - split; [apply rstrip_slash_no_trailing|].
    split; [apply rstrip_slash_decompose | reflexivity].
Qed.

Example remote_client_default_password :
  Connector.__init__ "http://daf.example//" 8080 (Some "admin") None (Some true)
  = Raise ValueError.
Proof. reflexivity. Qed.

Example remote_client_with_credentials :
  Connector.host <$>
    match Connector.__init__ "http://daf.example//" 8080 (Some "admin")
            (Some "secret") None with
    | Ok c => Some c
    | Raise _ => None
    end = Some "http://daf.example".
Proof. reflexivity. Qed.

Lemma pydict_get_absent {V} (d : list (string * V)) (k : string) :
  ~ In k (PyDict.keys d) -> PyDict.get d k = None.
Proof.
  induction d as [|[k' v'] d IH]; cbn; [reflexivity|].
  intros Hnot. destruct (decide (k' = k)) as [->|Hne].
  - exfalso. apply Hnot. left. reflexivity.
  - apply IH. intros Hin. apply Hnot. right. assumption.
Qed.

(** X4. In the result of [create_json_response] an entry of [dict_]
    takes precedence over a keyword argument with the same key, and
    every other keyword argument is kept. *)
Theorem json_response_dict_overrides_kwargs {V} (message_ : string)
    (dict_ kwargs : list (string * V)) (k : string) :
  well_formed_dict dict_ ->
  PyDict.get (Remote.result_ (Remote.create_json_response message_ dict_ kwargs)) k =
  match PyDict.get dict_ k with
  | Some v => Some v
  | None => PyDict.get kwargs k
  end.
Proof.
  unfold Remote.create_json_response, Remote.merge, well_formed_dict. cbn.
  revert kwargs. induction dict_ as [|[k0 v0] rest IH]; intros kwargs Hwf;
    [reflexivity|].
  cbn in Hwf. apply NoDup_cons_iff in Hwf as [Hnot Hwf].
  cbn. rewrite (IH _ Hwf).
  destruct (decide (k0 = k)) as [->|Hne].
  - rewrite (pydict_get_absent rest k Hnot). apply pydict_get_set_eq.
  - rewrite pydict_get_set_ne by congruence. reflexivity.
Qed.

Lemma json_response_dict_overrides_kwargs_witness :
  well_formed_dict [("accounts", "2"); ("status", "ok")] /\
  PyDict.get
    (Remote.result_
       (Remote.create_json_response "pong"
          [("accounts", "2"); ("status", "ok")]
          [("status", "unknown"); ("version", "v2.6.0")])) "status" = Some "ok".
Proof.
  assert (H : well_formed_dict [("accounts", "2"); ("status", "ok")]).
  { unfold well_formed_dict. cbn. repeat constructor; cbn; intuition discriminate. }
  split; [exact H|].
  exact (json_response_dict_overrides_kwargs "pong" _
           [("status", "unknown"); ("version", "v2.6.0")] "status" H).
Defined.

(** * The tracked-invite dictionary *)

Lemma pydict_keys_set_In {V} (d : list (string * V)) (k : string) (v : V) (x : string) :
  In x (PyDict.keys (PyDict.set d k v)) <-> In x (PyDict.keys d) \/ x = k.
Proof.
  induction d as [|[k' v'] d IH]; cbn.
  - intuition congruence.
  - destruct (decide (k' = k)) as [->|Hne]; cbn.
    + intuition congruence.
    + unfold PyDict.keys in IH. rewrite IH. intuition congruence.
Qed.

Lemma pydict_set_well_formed {V} (d : list (string * V)) (k : string) (v : V) :
  well_formed_dict d -> well_formed_dict (PyDict.set d k v).
Proof.
  unfold well_formed_dict.
  induction d as [|[k' v'] d IH]; cbn; intros Hwf.
  - constructor; [intros [] | constructor].
  - apply NoDup_cons_iff in Hwf as [Hnot Hwf].
    destruct (decide (k' = k)) as [->|Hne]; cbn.
    + constructor; assumption.
    + constructor; [|apply IH; assumption].
      intros Hin. apply (pydict_keys_set_In d k v k') in Hin as [Hin | Heq];
        [apply Hnot; assumption | congruence].
Qed.

Lemma pydict_of_list_well_formed_from {V} (kvs d : list (string * V)) :
  well_formed_dict d ->
  well_formed_dict (fold_left (fun d kv => PyDict.set d (fst kv) (snd kv)) kvs d).
Proof.
  revert d. induction kvs as [|kv kvs IH]; intros d Hwf; cbn; [assumption|].
  apply IH. apply pydict_set_well_formed. assumption.
Qed.

Lemma pydict_get_del_ne {V} (d : list (string * V)) (k k' : string) :
  k' <> k -> PyDict.get (PyDict.del d k) k' = PyDict.get d k'.
Proof.
  intros Hne. induction d as [|[k0 v0] d IH]; cbn; [reflexivity|].
  destruct (decide (k0 = k)) as [->|Hk]; cbn.
  - rewrite decide_False by congruence. reflexivity.
  - destruct (decide (k0 = k')); [reflexivity | apply IH].
Qed.

Lemma pydict_get_del_eq {V} (d : list (string * V)) (k : string) :
  well_formed_dict d -> PyDict.get (PyDict.del d k) k = None.
Proof.
  unfold well_formed_dict.
  induction d as [|[k0 v0] d IH]; cbn; intros Hwf; [reflexivity|].
  apply NoDup_cons_iff in Hwf as [Hnot Hwf].
  destruct (decide (k0 = k)) as [->|Hk]; cbn.
  - apply pydict_get_absent. assumption.
  - rewrite decide_False by assumption. apply IH. assumption.
Qed.

Lemma pydict_keys_del_In {V} (d : list (string * V)) (k x : string) :
  In x (PyDict.keys (PyDict.del d k)) -> In x (PyDict.keys d).
Proof.
  induction d as [|[k0 v0] d IH]; cbn; [intros []|].
  destruct (decide (k0 = k)) as [->|Hk]; cbn.
  - intros Hin. right. assumption.
  - intros [Heq | Hin]; [left; assumption | right; apply IH; assumption].
Qed.

Lemma pydict_del_well_formed {V} (d : list (string * V)) (k : string) :
  well_formed_dict d -> well_formed_dict (PyDict.del d k).
Proof.
  unfold well_formed_dict.
  induction d as [|[k0 v0] d IH]; cbn; intros Hwf; [constructor|].
  apply NoDup_cons_iff in Hwf as [Hnot Hwf].
  destruct (decide (k0 = k)) as [->|Hk]; cbn; [assumption|].
  constructor; [|apply IH; assumption].
  intros Hin. apply Hnot. eapply pydict_keys_del_In. eassumption.
Qed.

Lemma zero_counts_get (f : string -> string) (l : list string) :
  forall (d : list (string * Z)) (k : string),
    (In k (map f l) ->
     PyDict.get
       (fold_left (fun d kv => PyDict.set d (fst kv) (snd kv))
          (map (fun i => (f i, 0)) l) d) k = Some 0) /\
    (~ In k (map f l) ->
     PyDict.get
       (fold_left (fun d kv => PyDict.set d (fst kv) (snd kv))
          (map (fun i => (f i, 0)) l) d) k = PyDict.get d k).
Proof.
  induction l as [|i l IH]; intros d k; cbn.
  - split; [intros [] | reflexivity].
  - destruct (IH (PyDict.set d (f i) 0) k) as [IH1 IH2]. split.
    + intros [Heq | Hin].
      * destruct (in_dec string_dec k (map f l)) as [Hin | Hnot];
          [apply IH1; assumption|].
        rewrite (IH2 Hnot). subst k. apply pydict_get_set_eq.
      * apply IH1. assumption.
    + intros Hnot. rewrite IH2 by tauto.
      apply pydict_get_set_ne. intros Heq. apply Hnot. left. congruence.
Qed.

(** X5. The dictionary of tracked invites built by [__init__] holds each
    distinct invite code (the last path segment of a link) exactly once,
    with count 0, and holds nothing else. *)
Theorem init_tracks_each_code_once (env : Env) (args : InitArgs) (code : string) :
  let counts := _invite_join_count (__init__ env args) in
  let codes := map last_segment (default [] (a_invite_track args)) in
  well_formed_dict counts /\
  ((In code codes /\ PyDict.get counts code = Some 0) \/
   (~ In code codes /\ PyDict.get counts code = None)).
Proof.
  cbn. split.
  - unfold PyDict.of_list. apply pydict_of_list_well_formed_from. constructor.
  - unfold PyDict.of_list.
    destruct (zero_counts_get last_segment (default [] (a_invite_track args)) [] code)
      as [H1 H2].
    destruct (in_dec string_dec code
                (map last_segment (default [] (a_invite_track args))))
      as [Hin | Hnot].
    + left. split; [assumption | apply H1; assumption].
    + right. split; [assumption | rewrite (H2 Hnot); reflexivity].
Qed.

Lemma append_cons (x : ascii) (a b : string) :
  String x a +:+ b = String x (a +:+ b).
Proof. reflexivity. Qed.

Lemma append_snoc (a b : string) (c : ascii) :
  (a +:+ String c EmptyString) +:+ b = a +:+ String c b.
Proof.
  induction a as [|x a IH]; [reflexivity|].
  rewrite !append_cons, IH. reflexivity.
Qed.

Lemma append_empty_r (a : string) : a +:+ EmptyString = a.
Proof.
  induction a as [|x a IH]; [reflexivity|].
  rewrite append_cons, IH. reflexivity.
Qed.

Lemma last_segment_from_no_slash (code : string) :
  forall acc, no_slash code = true -> last_segment_from acc code = acc +:+ code.
Proof.
  induction code as [|c code IH]; intros acc Hns; cbn.
  - symmetry. apply append_empty_r.
  - cbn in Hns. destruct (Ascii.eqb c "/"%char); cbn in Hns; [discriminate|].
    rewrite (IH _ Hns). apply append_snoc.
Qed.

Lemma last_segment_from_prefix (p rest : string) :
  forall acc,
    last_segment_from acc (p +:+ String "/"%char rest) =
    last_segment_from EmptyString rest.
Proof.
  induction p as [|c p IH]; intros acc.
  - change (EmptyString +:+ String "/"%char rest) with (String "/"%char rest).
    reflexivity.
  - rewrite append_cons. cbn [last_segment_from].
    destruct (Ascii.eqb c "/"%char); apply IH.
Qed.

(** X6. The code under which an invite link is tracked is what follows
    its last slash: a link without a slash is its own code, and any
    prefix ending in a slash is dropped. *)
Theorem last_segment_of_link (prefix code : string) :
  no_slash code = true ->
  last_segment code = code /\
  last_segment (prefix +:+ String "/"%char code) = code.
Proof.
  intros Hns. unfold last_segment. split.
  - rewrite (last_segment_from_no_slash code EmptyString Hns). reflexivity.
  - rewrite last_segment_from_prefix.
    rewrite (last_segment_from_no_slash code EmptyString Hns). reflexivity.
Qed.

Lemma last_segment_of_link_witness :
  no_slash "aBc123" = true /\
  last_segment "aBc123" = "aBc123" /\
  last_segment ("https://discord.gg" +:+ String "/"%char "aBc123") = "aBc123".
Proof.
  split; [reflexivity|].
  exact (last_segment_of_link "https://discord.gg" "aBc123" eq_refl).
Defined.

(** X7. After [_on_invite_delete] the deleted invite is not tracked any
    more, every other invite keeps its count, no key is duplicated, and
    nothing but the dictionary has changed; the handler never raises,
    also for an invite that was not tracked. *)
Theorem invite_delete_untracks (invite_id : string) (s : Sys) :
  well_formed_dict (_invite_join_count (self s)) ->
  let out := _on_invite_delete invite_id s in
  snd out = Ok tt /\
  PyDict.get (_invite_join_count (self (fst out))) invite_id = None /\
  (forall k, k <> invite_id ->
     PyDict.get (_invite_join_count (self (fst out))) k =
     PyDict.get (_invite_join_count (self s)) k) /\
  well_formed_dict (_invite_join_count (self (fst out))) /\
  ctrl (fst out) = ctrl s /\
  _gen_guilds (self (fst out)) = _gen_guilds (self s).
Proof.
  intros Hwf. unfold _on_invite_delete, bind, get, when, modify_self, modify.
  cbn. unfold PyDict.mem.
  destruct (PyDict.get (_invite_join_count (self s)) invite_id) as [v|] eqn:Hget;
    cbn.
  - split; [reflexivity|].
    split; [apply pydict_get_del_eq; assumption|].
    split; [intros k Hne; apply pydict_get_del_ne; assumption|].
    split; [apply pydict_del_well_formed; assumption|].
    split; reflexivity.
  - split; [reflexivity|]. split; [assumption|].
    split; [reflexivity|]. split; [assumption|]. split; reflexivity.
Qed.

Lemma invite_delete_untracks_witness :
  well_formed_dict (_invite_join_count (self (tracking_sys 5 3 5 3))) /\
  PyDict.get
    (_invite_join_count (self (fst (_on_invite_delete "a" (tracking_sys 5 3 5 3)))))
    "a" = None /\
  PyDict.get
    (_invite_join_count (self (fst (_on_invite_delete "a" (tracking_sys 5 3 5 3)))))
    "b" = Some 3.
Proof.
  assert (H : well_formed_dict (_invite_join_count (self (tracking_sys 5 3 5 3)))).
  { vm_compute. repeat constructor; cbn; intuition discriminate. }
  split; [exact H|].
  destruct (invite_delete_untracks "a" (tracking_sys 5 3 5 3) H)
    as (_ & H2 & H3 & _).
  split; [exact H2|].
  rewrite H3 by discriminate. vm_compute. reflexivity.
Defined.

(** * Removing a guild *)

Lemma find_generated_none (guild : DiscordGuild) (gs : list GUILD) :
  Forall (fun g => dg_id (apiobject g) <> dg_id guild) gs ->
  find_generated guild gs = None.
Proof.
  induction gs as [|g gs IH]; intros H; [reflexivity|].
  inversion H as [|g' gs' Hg Hgs]. subst. cbn.
  destruct (Z.eqb_spec (dg_id (apiobject g)) (dg_id guild)); [contradiction|].
  rewrite (IH Hgs). reflexivity.
Qed.

Lemma find_generated_first (guild : DiscordGuild) (pre post : list GUILD) (g : GUILD) :
  Forall (fun g => dg_id (apiobject g) <> dg_id guild) pre ->
  dg_id (apiobject g) = dg_id guild ->
  find_generated guild (pre ++ g :: post) = Some (length pre).
Proof.
  intros Hpre Hg. induction pre as [|p pre IH]; cbn.
  - rewrite Hg, Z.eqb_refl. reflexivity.
  - inversion Hpre as [|p' pre' Hp Hrest]. subst.
    destruct (Z.eqb_spec (dg_id (apiobject p)) (dg_id guild)); [contradiction|].
    rewrite (IH Hrest). reflexivity.
Qed.

(** X8. A guild-remove event for a guild that has no generated guild
    manager changes nothing and raises nothing. *)
Theorem guild_remove_unknown_is_noop (guild : DiscordGuild) (s : Sys) :
  Forall (fun g => dg_id (apiobject g) <> dg_id guild) (_gen_guilds (self s)) ->
  _on_guild_remove guild s = (s, Ok tt).
Proof.
  intros H. unfold _on_guild_remove, bind, get. cbn.
  rewrite (find_generated_none _ _ H). reflexivity.
Qed.

Lemma guild_remove_unknown_is_noop_witness :
  let s := boot (quiet_env 1000) (plain_args "shill")
             [guild_named 1 "shill-chat"; guild_named 2 "general"] in
  Forall (fun g => dg_id (apiobject g) <> dg_id (guild_named 2 "general"))
    (_gen_guilds (self s)) /\
  _on_guild_remove (guild_named 2 "general") s = (s, Ok tt).
Proof.
  cbv zeta.
  assert (H : Forall (fun g => dg_id (apiobject g) <> dg_id (guild_named 2 "general"))
                (_gen_guilds (self (boot (quiet_env 1000) (plain_args "shill")
                   [guild_named 1 "shill-chat"; guild_named 2 "general"])))).
  { vm_compute. repeat constructor. discriminate. }
  split; [exact H | exact (guild_remove_unknown_is_noop _ _ H)].
Defined.

(** X9. A guild-remove event closes and drops the first generated guild
    manager of that guild and no other: the managers before and after
    it stay, in order, and the templates and listeners are untouched. *)
Theorem guild_remove_drops_first_match (guild : DiscordGuild) (s : Sys)
    (pre post : list GUILD) (g : GUILD) :
  _gen_guilds (self s) = pre ++ g :: post ->
  Forall (fun g => dg_id (apiobject g) <> dg_id guild) pre ->
  dg_id (apiobject g) = dg_id guild ->
  let out := _on_guild_remove guild s in
  snd out = Ok tt /\
  _gen_guilds (self (fst out)) = pre ++ post /\
  ext_calls (fst out) = ext_calls s ++ [call_guild_close (dg_id guild)] /\
  _messages (self (fst out)) = _messages (self s) /\
  ctrl (fst out) = ctrl s.
Proof.
  intros Hgens Hpre Hg. unfold _on_guild_remove, bind, get. cbn.
  rewrite Hgens, (find_generated_first _ _ _ _ Hpre Hg). cbn.
  rewrite Hgens, delete_middle. repeat split; reflexivity.
Qed.

Lemma guild_remove_drops_first_match_witness :
  let s := boot (quiet_env 1000) (plain_args "shill")
             [guild_named 1 "shill-chat"; guild_named 2 "shill-market";
              guild_named 3 "shill-news"] in
  let out := _on_guild_remove (guild_named 2 "shill-market") s in
  map (fun g => dg_id (apiobject g)) (_gen_guilds (self s)) = [1; 2; 3] /\
  map (fun g => dg_id (apiobject g)) (_gen_guilds (self (fst out))) = [1; 3] /\
  ext_calls (fst out) = [call_guild_close 2].
Proof.
  cbv zeta.
  set (s := boot (quiet_env 1000) (plain_args "shill")
              [guild_named 1 "shill-chat"; guild_named 2 "shill-market";
               guild_named 3 "shill-news"]).
  assert (Hgens : exists g1 g2 g3,
             _gen_guilds (self s) = [g1] ++ g2 :: [g3] /\
             dg_id (apiobject g1) = 1 /\ dg_id (apiobject g2) = 2 /\
             dg_id (apiobject g3) = 3).
  { vm_compute. do 3 eexists. repeat split. }
  destruct Hgens as (g1 & g2 & g3 & Hg & H1 & H2 & H3).
  destruct (guild_remove_drops_first_match (guild_named 2 "shill-market") s
              [g1] [g3] g2 Hg) as (_ & Hout & Hcalls & _).
  - constructor; [rewrite H1; discriminate | constructor].
  - exact H2.
  - split; [rewrite Hg; cbn; rewrite H1, H2, H3; reflexivity|].
    split; [rewrite Hout; cbn; rewrite H1, H3; reflexivity|].
    rewrite Hcalls. reflexivity.
Defined.

(** * Failing additions and removals of templates *)

Lemma fan_out_add_any (env : Env) (m : Message) (gs : list GUILD) :
  forall fresh,
    Forall2 (fun g g' =>
               apiobject g' = apiobject g /\
               (g_messages g' = g_messages g \/
                exists c, g_messages g' = g_messages g ++ [c] /\
                          msg_eqb m c = true))
      gs (fst (fan_out_add env m fresh gs)).
Proof.
  induction gs as [|g gs IH]; intros fresh; cbn; [constructor|].
  unfold guild_add_message.
  specialize (IH (S fresh)).
  destruct (fan_out_add env m (S fresh) gs) as [gs' e'].
  destruct (message_init_error env (apiobject g) (deepcopy_message fresh m));
    cbn; constructor; try exact IH.
  - split; [reflexivity | left; reflexivity].
  - split; [reflexivity|]. right. exists (deepcopy_message fresh m).
    split; [reflexivity | unfold msg_eqb; cbn; apply Z.eqb_refl].
Qed.

(** X11. Whatever the outcome of [add_message], the message has joined
    the templates, no generated guild was added or dropped, and each
    generated guild's list is either as before or longer by one copy
    of the message: a failure in one guild undoes nothing. *)
Theorem add_message_keeps_template_on_failure (env : Env) (m : Message) (s : Sys) :
  let out := add_message env m s in
  _messages (self (fst out)) = _messages (self s) ++ [_update_tracked_id false m] /\
  Forall2 (fun g g' =>
             apiobject g' = apiobject g /\
             (g_messages g' = g_messages g \/
              exists c, g_messages g' = g_messages g ++ [c] /\
                        msg_eqb m c = true))
    (_gen_guilds (self s)) (_gen_guilds (self (fst out))).
Proof.
  unfold add_message, bind, modify_self, modify, get. cbn.
  pose proof (fan_out_add_any env (_update_tracked_id false m)
                (_gen_guilds (self s)) (next_obj s)) as Hfan.
  destruct (fan_out_add env (_update_tracked_id false m) (next_obj s)
              (_gen_guilds (self s))) as [gs e].
  cbn in Hfan. destruct e as [x|]; cbn; (split; [reflexivity | exact Hfan]).
Qed.

Lemma list_remove_none (m : Message) (l : list Message) :
  copies m l = 0%nat -> list_remove m l = None.
Proof.
  unfold copies. induction l as [|y l IH]; cbn; [reflexivity|].
  destruct (msg_eqb m y); cbn; [discriminate|].
  intros H. rewrite (IH H). reflexivity.
Qed.

Lemma list_index_none (m : Message) (l : list Message) :
  copies m l = 0%nat -> list_index m l = None.
Proof.
  unfold copies. induction l as [|y l IH]; cbn; [reflexivity|].
  destruct (msg_eqb m y); cbn; [discriminate|].
  intros H. rewrite (IH H). reflexivity.
Qed.

(** X12. Removing a message that is not among the templates raises
    [ValueError] and changes nothing. *)
Theorem remove_message_unknown_template (m : Message) (s : Sys) :
  copies m (_messages (self s)) = 0%nat ->
  remove_message m s = (s, Raise ValueError).
Proof.
  intros H. unfold remove_message, bind, get. cbn.
  rewrite (list_remove_none _ _ H). reflexivity.
Qed.

Lemma remove_message_unknown_template_witness :
  copies hello (_messages (self fan_sys)) = 0%nat /\
  remove_message hello fan_sys = (fan_sys, Raise ValueError).
Proof.
  assert (H : copies hello (_messages (self fan_sys)) = 0%nat) by reflexivity.
  split; [exact H | exact (remove_message_unknown_template _ _ H)].
Defined.

Lemma fan_out_remove_missing (m : Message) (gs : list GUILD) :
  Exists (fun g => copies m (g_messages g) = 0%nat) gs ->
  snd (fan_out_remove m gs) = Raise ValueError.
Proof.
  induction gs as [|g gs IH]; intros H; [inversion H|]. cbn.
  destruct (list_index m (g_messages g)) as [i|] eqn:Hi; [|reflexivity].
  destruct (list_index_lookup _ _ _ Hi) as (c & Hc & Heq). rewrite Hc.
  inversion H as [g' gs' Hg | g' gs' Hrest]; subst.
  - rewrite (list_index_none _ _ Hg) in Hi. discriminate.
  - specialize (IH Hrest). destruct (fan_out_remove m gs) as [gs'' r].
    exact IH.
Qed.

(** X13. When the message is a template but some generated guild holds
    no copy of it, [remove_message] raises [ValueError] after the
    template has already been removed. *)
Theorem remove_message_missing_copy_is_not_atomic (m : Message) (s : Sys)
    (ms : list Message) :
  list_remove m (_messages (self s)) = Some ms ->
  Exists (fun g => copies m (g_messages g) = 0%nat) (_gen_guilds (self s)) ->
  let out := remove_message m s in
  snd out = Raise ValueError /\ _messages (self (fst out)) = ms.
Proof.
  intros Hrm Hex. unfold remove_message, bind, get, modify_self, modify, lift.
  cbn. rewrite Hrm. cbn.
  pose proof (fan_out_remove_missing m _ Hex) as Hfan.
  destruct (fan_out_remove m (_gen_guilds (self s))) as [gs r].
  cbn in Hfan. subst r. cbn. split; reflexivity.
Qed.

Lemma remove_message_missing_copy_is_not_atomic_witness :
  let s := stripped_guilds hello_sys in
  list_remove hello (_messages (self s)) = Some [] /\
  Exists (fun g => copies hello (g_messages g) = 0%nat) (_gen_guilds (self s)) /\
  snd (remove_message hello s) = Raise ValueError /\
  _messages (self (fst (remove_message hello s))) = [].
Proof.
  cbv zeta.
  assert (H1 : list_remove hello (_messages (self (stripped_guilds hello_sys)))
               = Some []) by reflexivity.
  assert (H2 : Exists (fun g => copies hello (g_messages g) = 0%nat)
                 (_gen_guilds (self (stripped_guilds hello_sys)))).
  { vm_compute. constructor. reflexivity. }
  split; [exact H1|]. split; [exact H2|].
  exact (remove_message_missing_copy_is_not_atomic _ _ _ H1 H2).
Defined.

(** * The guild managers [initialize] generates *)

Lemma matching_guilds_patterns (env : Env) (a a' : AutoGUILD)
    (gs : list DiscordGuild) :
  include_pattern a = include_pattern a' ->
  exclude_pattern a = exclude_pattern a' ->
  matching_guilds env a gs = matching_guilds env a' gs.
Proof.
  intros Hi He. induction gs as [|g gs IH]; [reflexivity|]. cbn.
  unfold _check_name_match. rewrite Hi, He, IH. reflexivity.
Qed.

Lemma matching_guilds_In (env : Env) (a : AutoGUILD) (gs l : list DiscordGuild) :
  matching_guilds env a gs = Ok l ->
  forall g, In g l <->
            In g gs /\ _check_name_match env a (dg_name g) = Ok true.
Proof.
  revert l. induction gs as [|g0 gs IH]; intros l; cbn.
  - intros [= <-] g. cbn. tauto.
  - destruct (_check_name_match env a (dg_name g0)) as [b|e] eqn:Hb; cbn;
      [|discriminate].
    destruct (matching_guilds env a gs) as [rest|e]; cbn; [|discriminate].
    intros [= <-] g. specialize (IH rest eq_refl g).
    destruct b; cbn; rewrite IH; split.
    + intros [<- | [H1 H2]]; [split; [left; reflexivity | assumption]|].
      split; [right; assumption | assumption].
    + intros [[<- | H1] H2]; [left; reflexivity | right; split; assumption].
    + intros [H1 H2]. split; [right; assumption | assumption].
    + intros [[<- | H1] H2]; [congruence | split; assumption].
Qed.

Lemma _get_guilds_ok_inv (env : Env) (s s' : Sys) (guilds : list DiscordGuild) :
  _get_guilds env s = (s', Ok guilds) ->
  matching_guilds env (self s) (client_guilds s) = Ok guilds /\
  s' = set_self (set_cache guilds (self s)) s.
Proof.
  unfold _get_guilds, the_parent, bind, get, lift, modify_self, modify, ret, raise.
  destruct (parent (self s)); cbn; [|discriminate].
  destruct (matching_guilds env (self s) (client_guilds s)) as [gs|e]; cbn;
    [|discriminate].
  intros H. inversion H. subst. split; reflexivity.
Qed.

Lemma make_new_guilds_run (env : Env) (guilds : list DiscordGuild) :
  forall s, exists s',
    for_each guilds (_make_new_guild env) s = (s', Ok tt) /\
    map apiobject (_gen_guilds (self s')) =
      map apiobject (_gen_guilds (self s)) ++
      List.filter (manager_starts env) guilds /\
    _cache (self s') = _cache (self s).
Proof.
  induction guilds as [|g guilds IH]; intros s.
  - exists s. cbn. rewrite app_nil_r. repeat split; reflexivity.
  - cbn [for_each]. rewrite bind_run.
    unfold _make_new_guild at 1. unfold bind, get, modify, modify_self. cbn.
    unfold manager_starts at 1.
    destruct (guild_init_error env g) as [e|]; cbn.
    + destruct (IH (set_next_obj (next_obj s + length (_messages (self s)))%nat s))
        as (s' & H1 & H2 & H3).
      exists s'. split; [exact H1|]. split; [exact H2 | exact H3].
    + match goal with
      | |- exists s', for_each _ _ ?s1 = _ /\ _ =>
          destruct (IH s1) as (s' & H1 & H2 & H3)
      end.
      exists s'. split; [exact H1|]. split; [|exact H3].
      rewrite H2. cbn. rewrite map_app, <- app_assoc. reflexivity.
Qed.

Lemma init_auto_join_keeps_inputs : keeps generation_inputs init_auto_join.
Proof. unfold init_auto_join, log_call, modify_self. keeps_auto. Qed.

Lemma init_removal_keeps_inputs (env : Env) (c : option CtrlRef) :
  keeps generation_inputs (init_removal env c).
Proof. unfold init_removal, call_at, the_ctrl, modify_self. keeps_auto. Qed.

Lemma init_invites_keeps_inputs (env : Env) :
  keeps generation_inputs (init_invites env).
Proof.
  unfold init_invites, except_http, _get_invites, _get_guilds, the_parent,
    track_invite, add_listener, the_ctrl, modify_self.
  keeps_auto.
Qed.

Lemma init_join_timer_keeps_inputs (c : option CtrlRef) :
  keeps generation_inputs (init_join_timer c).
Proof.
  unfold init_join_timer, _reset_auto_join_timer, call_at, add_listener, the_ctrl,
    modify_self.
  keeps_auto.
Qed.

Lemma init_listeners_keeps_inputs (c : option CtrlRef) :
  keeps generation_inputs (init_listeners c).
Proof. unfold init_listeners, add_listener, the_ctrl. keeps_auto. Qed.

(** X10. When [initialize] completes, the cache holds exactly the
    client's guilds whose name passes the patterns, in the client's
    order, and one guild manager has been generated, in that order, for
    each of them whose manager initialized; a guild whose manager failed
    to initialize is skipped without failing [initialize]. *)
Theorem initialize_generates_matching (env : Env) (p : option ParentRef)
    (c : option CtrlRef) (s s' : Sys) :
  initialize env p c s = (s', Ok None) ->
  exists guilds,
    matching_guilds env (self s) (client_guilds s) = Ok guilds /\
    _cache (self s') = guilds /\
    map apiobject (_gen_guilds (self s')) =
      map apiobject (_gen_guilds (self s)) ++
      List.filter (manager_starts env) guilds.
Proof.
  intros H. apply initialize_ok_inv in H. unfold initialize_body in H.
  apply bind_ok_inv in H as (s1 & [] & H1 & H).
  apply the_parent_ok_inv in H1. subst s1.
  apply bind_ok_inv in H as (s2 & [] & H2 & H). inversion H2. subst s2. clear H2.
  apply bind_ok_inv in H as (s3 & [] & H3 & H). inversion H3. subst s3. clear H3.
  apply bind_ok_inv in H as (s4 & [] & H4 & H).
  apply bind_ok_inv in H as (s5 & [] & H5 & H).
  apply bind_ok_inv in H as (s6 & [] & H6 & H).
  apply bind_ok_inv in H as (s7 & [] & H7 & H).
  apply bind_ok_inv in H as (s8 & [] & H8 & H).
  pose proof (keeps_run _ _ _ _ _ init_auto_join_keeps_inputs H4) as K4.
  pose proof (keeps_run _ _ _ _ _ (init_removal_keeps_inputs env c) H5) as K5.
  pose proof (keeps_run _ _ _ _ _ (init_invites_keeps_inputs env) H6) as K6.
  pose proof (keeps_run _ _ _ _ _ (init_join_timer_keeps_inputs c) H7) as K7.
  pose proof (keeps_run _ _ _ _ _ (init_listeners_keeps_inputs c) H8) as K8.
  assert (K : generation_inputs s8 = generation_inputs s)
    by (rewrite K8, K7, K6, K5, K4; reflexivity).
  unfold generation_inputs in K. inversion K as [[Kg Kc Ki Ke]].
  unfold init_guilds in H.
  apply bind_ok_inv in H as (s9 & guilds & H9 & H).
  apply _get_guilds_ok_inv in H9 as [Hm Hs9].
  destruct (make_new_guilds_run env guilds s9) as (s10 & Hrun & Hgen & Hcache).
  rewrite Hrun in H. inversion H. subst s10.
  exists guilds. split; [|split].
  - rewrite <- Hm, Kc. apply matching_guilds_patterns; congruence.
  - rewrite Hcache, Hs9. reflexivity.
  - rewrite Hgen, Hs9. cbn. rewrite Kg. reflexivity.
Qed.

Lemma initialize_generates_matching_witness :
  let env := failing_guild_env 1000 3 in
  let s := system_of (__init__ env (plain_args "shill|promo"))
             [guild_named 1 "shill-chat"; guild_named 2 "general";
              guild_named 3 "promo-hub"; guild_named 4 "promo-news"] in
  let s' := fst (initialize env (Some the_account) (Some the_controller) s) in
  initialize env (Some the_account) (Some the_controller) s = (s', Ok None) /\
  _cache (self s') =
    [guild_named 1 "shill-chat"; guild_named 3 "promo-hub";
     guild_named 4 "promo-news"] /\
  map apiobject (_gen_guilds (self s')) =
    [guild_named 1 "shill-chat"; guild_named 4 "promo-news"].
Proof.
  cbv zeta.
  set (env := failing_guild_env 1000 3).
  set (s := system_of (__init__ env (plain_args "shill|promo"))
              [guild_named 1 "shill-chat"; guild_named 2 "general";
               guild_named 3 "promo-hub"; guild_named 4 "promo-news"]).
  assert (H : initialize env (Some the_account) (Some the_controller) s =
              (fst (initialize env (Some the_account) (Some the_controller) s),
               Ok None)) by (vm_compute; reflexivity).
  split; [exact H|].
  destruct (initialize_generates_matching _ _ _ _ _ H) as (guilds & Hm & Hc & Hg).
  assert (Hguilds : guilds = [guild_named 1 "shill-chat"; guild_named 3 "promo-hub";
                              guild_named 4 "promo-news"]).
  { vm_compute in Hm. inversion Hm. reflexivity. }
  split; [rewrite Hc; exact Hguilds|].
  rewrite Hg, Hguilds. vm_compute. reflexivity.
Defined.

(** X14. When [_get_guilds] returns, the cache is the returned list,
    which holds exactly the client's guilds whose name passes the
    patterns, and nothing else has changed; when it raises (no parent,
    or a pattern that cannot be searched), the cache is left as it was. *)
Theorem get_guilds_replaces_cache (env : Env) (s : Sys) :
  match _get_guilds env s with
  | (s', Ok guilds) =>
      s' = set_self (set_cache guilds (self s)) s /\
      forall g, In g guilds <->
                In g (client_guilds s) /\
                _check_name_match env (self s) (dg_name g) = Ok true
  | (s', Raise e) => s' = s
  end.
Proof.
  destruct (_get_guilds env s) as [s' [guilds|e]] eqn:H.
  - apply _get_guilds_ok_inv in H as [Hm Hs]. split; [exact Hs|].
    apply (matching_guilds_In env _ _ _ Hm).
  - revert H.
    unfold _get_guilds, the_parent, bind, get, lift, modify_self, modify, ret, raise.
    destruct (parent (self s)); cbn; [|intros H; inversion H; reflexivity].
    destruct (matching_guilds env (self s) (client_guilds s)); cbn;
      intros H; inversion H; reflexivity.
Qed.

(** * What [_close] undoes and what it leaves *)

Lemma under_remove_other (ev ev' : EventID) (cb : Callback)
    (c : EventController.t) :
  ev' <> ev ->
  under ev (EventController.remove_listener ev' cb c) = under ev c.
Proof.
  intros Hne. unfold under, EventController.remove_listener,
    EventController.registered.
  induction c as [|l c IH]; [reflexivity|]. cbn.
  destruct (bool_decide (l_event l = ev')) eqn:E1; cbn.
  - apply bool_decide_eq_true_1 in E1.
    destruct (bool_decide (l_callback l = cb)); cbn.
    + rewrite bool_decide_eq_false_2 by congruence. exact IH.
    + rewrite IH. reflexivity.
  - rewrite IH. reflexivity.
Qed.

Lemma keeps_remove_listener_other (ev ev' : EventID) (c : option CtrlRef)
    (cb : Callback) :
  ev' <> ev ->
  keeps (fun s => under ev (ctrl s)) (remove_listener c ev' cb).
Proof.
  intros Hne. unfold remove_listener, the_ctrl.
  apply keeps_bind; [destruct c; keeps_auto|]. intros _.
  apply keeps_modify. intros s. cbn. apply under_remove_other. assumption.
Qed.

Lemma _close_keeps_under (ev : EventID) :
  ev <> auto_guild_start_join -> ev <> server_update ->
  ev <> discord_member_join -> ev <> discord_invite_delete ->
  keeps (fun s => under ev (ctrl s)) _close.
Proof.
  intros H1 H2 H3 H4. unfold _close.
  apply keeps_bind; [apply keeps_get|]. intros s.
  destruct (_event_ctrl (self s)) as [c|]; [|apply keeps_ret].
  apply keeps_bind; [apply keeps_remove_listener_other; congruence | intros _].
  apply keeps_bind; [apply keeps_remove_listener_other; congruence | intros _].
  apply keeps_bind; [apply keeps_remove_listener_other; congruence | intros _].
  apply keeps_bind; [apply keeps_remove_listener_other; congruence | intros _].
  unfold cancel_handle, log_call. keeps_auto.
Qed.

(** X15. [_close] unregisters nothing under the guild-join and
    guild-remove events: the listeners [initialize] registered there for
    [_on_guild_join] and [_on_guild_remove] are still registered when
    the object is closed. *)
Theorem close_leaves_guild_listeners (s : Sys) :
  under discord_guild_join (ctrl (fst (_close s))) =
    under discord_guild_join (ctrl s) /\
  under discord_guild_remove (ctrl (fst (_close s))) =
    under discord_guild_remove (ctrl s).
Proof.
  split.
  - apply (_close_keeps_under discord_guild_join); discriminate.
  - apply (_close_keeps_under discord_guild_remove); discriminate.
Qed.

Lemma _close_timers (s : Sys) (c : CtrlRef) :
  _event_ctrl (self s) = Some c ->
  timers (fst (_close s)) =
  timers
    (fst (cancel_handle (_guild_join_timer_handle (self s))
            (fst (cancel_handle (_removal_timer_handle (self s)) s)))).
Proof.
  intros Hc. unfold _close. rewrite bind_run. cbn [get]. rewrite Hc.
  unfold remove_listener, the_ctrl.
  destruct (_removal_timer_handle (self s)) as [i|];
    destruct (_guild_join_timer_handle (self s)) as [j|];
    destruct (auto_join (self s)) as [d|]; cbn;
    match goal with
    | |- timers (fst (for_each ?l ?f ?s0)) = _ =>
        rewrite (keeps_for_each timers l f
                   (fun g => keeps_modify timers _ (fun _ => eq_refl)) s0)
    end; reflexivity.
Qed.

Lemma cancel_timer_idemp (t : Timer) : cancel_timer (cancel_timer t) = cancel_timer t.
Proof. unfold cancel_timer. destruct t as [w e []]; reflexivity. Qed.

(** X16. [_close] on an initialized object cancels the timers whose
    handles the object holds, the removal timer and the auto-join timer,
    and leaves every other timer as it was. *)
Theorem close_cancels_held_timers (s : Sys) (c : CtrlRef) :
  _event_ctrl (self s) = Some c ->
  (forall i, held s i ->
     timers (fst (_close s)) !! i = cancel_timer <$> timers s !! i) /\
  (forall i, ~ held s i -> timers (fst (_close s)) !! i = timers s !! i).
Proof.
  intros Hc. rewrite (_close_timers s c Hc). unfold held, cancel_handle.
  split; intros i Hi.
  - destruct (_removal_timer_handle (self s)) as [a|];
      destruct (_guild_join_timer_handle (self s)) as [b|]; cbn;
      destruct Hi as [Hi | Hi]; try discriminate; inversion Hi; subst.
    + destruct (decide (b = i)) as [->|Hne].
      * rewrite !list_lookup_alter_eq. destruct (timers s !! i) as [t|];
          [|reflexivity].
        unfold fmap, option_fmap, option_map. rewrite cancel_timer_idemp.
        reflexivity.
      * rewrite list_lookup_alter_ne by assumption. apply list_lookup_alter_eq.
    + destruct (decide (a = i)) as [->|Hne].
      * rewrite !list_lookup_alter_eq. destruct (timers s !! i) as [t|];
          [|reflexivity].
        unfold fmap, option_fmap, option_map. rewrite cancel_timer_idemp.
        reflexivity.
      * rewrite list_lookup_alter_eq.
        rewrite list_lookup_alter_ne by assumption. reflexivity.
    + apply list_lookup_alter_eq.
    + apply list_lookup_alter_eq.
  - destruct (_removal_timer_handle (self s)) as [a|];
      destruct (_guild_join_timer_handle (self s)) as [b|]; cbn;
      rewrite ?list_lookup_alter_ne; try reflexivity;
      intros ->; apply Hi; auto.
Qed.

Lemma close_cancels_held_timers_witness :
  let s := boot (quiet_env 1000)
             (with_remove_after (Some (RA_timedelta 3600))
                (with_auto_join (discovery 5 []) (plain_args "shill"))) [] in
  _event_ctrl (self s) = Some the_controller /\
  held s 0 /\ held s 1 /\
  map t_state (timers s) = [Pending; Pending] /\
  timers (fst (_close s)) !! 0%nat = cancel_timer <$> timers s !! 0%nat /\
  timers (fst (_close s)) !! 1%nat = cancel_timer <$> timers s !! 1%nat.
Proof.
  cbv zeta.
  set (s := boot (quiet_env 1000)
              (with_remove_after (Some (RA_timedelta 3600))
                 (with_auto_join (discovery 5 []) (plain_args "shill"))) []).
  assert (Hc : _event_ctrl (self s) = Some the_controller) by reflexivity.
  assert (H0 : held s 0) by (left; reflexivity).
  assert (H1 : held s 1) by (right; reflexivity).
  destruct (close_cancels_held_timers s the_controller Hc) as [Hheld _].
  split; [exact Hc|]. split; [exact H0|]. split; [exact H1|].
  split; [reflexivity|].
  split; [exact (Hheld 0%nat H0) | exact (Hheld 1%nat H1)].
Defined.

(** * The registrations [initialize] makes once per call *)

(** X17. When the discovery object of [auto_join] fails to initialize,
    [initialize] returns that exception instead of raising it; by then
    the controller and the parent are stored on the object, while no
    listener is registered, no timer is armed, the feed is not opened
    and no guild manager is generated. *)
Theorem initialize_returns_discovery_failure (env : Env) (p : ParentRef)
    (c : option CtrlRef) (s : Sys) (d : GuildDISCOVERY) (e : Exn) :
  auto_join (self s) = Some d ->
  dsc_init_error d = Some e ->
  let out := initialize env (Some p) c s in
  snd out = Ok (Some e) /\
  _event_ctrl (self (fst out)) = c /\
  parent (self (fst out)) = Some p /\
  guild_query_iter (self (fst out)) = guild_query_iter (self s) /\
  ctrl (fst out) = ctrl s /\
  timers (fst out) = timers s /\
  _gen_guilds (self (fst out)) = _gen_guilds (self s).
Proof.
  intros Ha He.
  unfold initialize, except_return, initialize_body, init_auto_join, log_call,
    the_parent, bind, get, modify_self, modify, ret, raise.
  cbn. rewrite Ha. cbn. rewrite He. cbn. repeat split; reflexivity.
Qed.

Lemma initialize_returns_discovery_failure_witness :
  let env := quiet_env 1000 in
  let s := system_of
             (__init__ env
                (with_auto_join (failing_discovery (OtherError "top.gg"))
                   (with_remove_after (Some (RA_timedelta 3600))
                      (plain_args "shill"))))
             [guild_named 1 "shill-chat"] in
  let out := initialize env (Some the_account) (Some the_controller) s in
  snd out = Ok (Some (OtherError "top.gg")) /\
  _event_ctrl (self (fst out)) = Some the_controller /\
  ctrl (fst out) = [] /\ timers (fst out) = [] /\
  _gen_guilds (self (fst out)) = [].
Proof.
  cbv zeta.
  set (env := quiet_env 1000).
  set (s := system_of _ _).
  destruct (initialize_returns_discovery_failure env the_account
              (Some the_controller) s
              (failing_discovery (OtherError "top.gg")) (OtherError "top.gg")
              eq_refl eq_refl) as (H1 & H2 & _ & _ & H5 & H6 & H7).
  split; [exact H1|]. split; [exact H2|].
  split; [rewrite H5; reflexivity|]. split; [rewrite H6; reflexivity|].
  rewrite H7. reflexivity.
Defined.

Lemma keeps_under_of_ctrl {A} (ev : EventID) (m : M A) :
  keeps ctrl m -> keeps (fun s => under ev (ctrl s)) m.
Proof. intros H s. cbn. rewrite (H s). reflexivity. Qed.

Lemma init_invites_keeps_under_other (env : Env) (ev : EventID) :
  ev <> discord_member_join -> ev <> discord_invite_delete ->
  keeps (fun s => under ev (ctrl s)) (init_invites env).
Proof.
  intros H1 H2. unfold init_invites, except_http.
  apply keeps_bind; [apply keeps_get|]. intros s.
  apply keeps_when. apply keeps_try_except.
  - apply keeps_bind; [apply keeps_under_of_ctrl, _get_invites_keeps_ctrl|].
    intros invites.
    apply keeps_bind; [apply keeps_get|]. intros s1.
    apply keeps_for_each. intros k. unfold track_invite.
    apply keeps_bind; [unfold modify_self; keeps_auto|]. intros _.
    apply keeps_bind; [apply keeps_get|]. intros s2.
    apply keeps_bind; [apply keeps_add_listener_other; congruence | intros _].
    apply keeps_add_listener_other; congruence.
  - intros e. destruct e; keeps_auto.
Qed.

Lemma init_auto_join_keeps_auto_join :
  keeps (fun s => auto_join (self s)) init_auto_join.
Proof. unfold init_auto_join, log_call, modify_self. keeps_auto. Qed.

Lemma init_removal_keeps_auto_join (env : Env) (c : option CtrlRef) :
  keeps (fun s => auto_join (self s)) (init_removal env c).
Proof. unfold init_removal, call_at, the_ctrl, modify_self. keeps_auto. Qed.

Lemma init_invites_keeps_auto_join (env : Env) :
  keeps (fun s => auto_join (self s)) (init_invites env).
Proof.
  unfold init_invites, except_http, _get_invites, _get_guilds, the_parent,
    track_invite, add_listener, the_ctrl, modify_self.
  keeps_auto.
Qed.

Lemma init_join_timer_run (c : CtrlRef) (s s' : Sys) :
  init_join_timer (Some c) s = (s', Ok tt) ->
  ctrl s' =
  match auto_join (self s) with
  | Some _ =>
      EventController.add_listener auto_guild_start_join cb_join_guilds
        (Some pred_is_self) (ctrl s)
  | None => ctrl s
  end.
Proof.
  unfold init_join_timer, _reset_auto_join_timer, call_at, add_listener, the_ctrl,
    bind, get, modify_self, modify, ret, raise. cbn.
  destruct (auto_join (self s)); cbn.
  - destruct (_event_ctrl (self s)); cbn; intros H; inversion H; reflexivity.
  - intros H; inversion H; reflexivity.
Qed.

Lemma init_listeners_run (c : CtrlRef) (s s' : Sys) :
  init_listeners (Some c) s = (s', Ok tt) ->
  ctrl s' =
  EventController.add_listener server_update cb_on_update (Some pred_is_self)
    (EventController.add_listener discord_guild_remove cb_on_guild_remove None
       (EventController.add_listener discord_guild_join cb_on_guild_join
          (Some pred_name_match) (ctrl s))).
Proof.
  unfold init_listeners, add_listener, the_ctrl, bind, get, modify, ret, raise.
  cbn. destruct (_event_ctrl (self s)); cbn; intros H; inversion H; reflexivity.
Qed.

(** The controller after a completed [initialize]: the per-call
    registrations on top of a controller that differs from the initial
    one only under the two tracking events. *)
Lemma initialize_body_ctrl (env : Env) (p : option ParentRef) (c : CtrlRef)
    (s s' : Sys) :
  initialize_body env p (Some c) s = (s', Ok tt) ->
  exists c6,
    (forall ev, ev <> discord_member_join -> ev <> discord_invite_delete ->
       under ev c6 = under ev (ctrl s)) /\
    ctrl s' =
    EventController.add_listener server_update cb_on_update (Some pred_is_self)
      (EventController.add_listener discord_guild_remove cb_on_guild_remove None
         (EventController.add_listener discord_guild_join cb_on_guild_join
            (Some pred_name_match)
            match auto_join (self s) with
            | Some _ =>
                EventController.add_listener auto_guild_start_join cb_join_guilds
                  (Some pred_is_self) c6
            | None => c6
            end)).
Proof.
  intros H. unfold initialize_body in H.
  apply bind_ok_inv in H as (s1 & [] & H1 & H).
  apply the_parent_ok_inv in H1. subst s1.
  apply bind_ok_inv in H as (s2 & [] & H2 & H). inversion H2. subst s2. clear H2.
  apply bind_ok_inv in H as (s3 & [] & H3 & H). inversion H3. subst s3. clear H3.
  apply bind_ok_inv in H as (s4 & [] & H4 & H).
  apply bind_ok_inv in H as (s5 & [] & H5 & H).
  apply bind_ok_inv in H as (s6 & [] & H6 & H).
  apply bind_ok_inv in H as (s7 & [] & H7 & H).
  apply bind_ok_inv in H as (s8 & [] & H8 & H).
  pose proof (keeps_run _ _ _ _ _ init_auto_join_keeps_ctrl H4) as Hc4.
  pose proof (keeps_run _ _ _ _ _ init_auto_join_keeps_auto_join H4) as Ha4.
  pose proof (keeps_run _ _ _ _ _ (init_removal_keeps_ctrl env (Some c)) H5) as Hc5.
  pose proof (keeps_run _ _ _ _ _ (init_removal_keeps_auto_join env (Some c)) H5)
    as Ha5.
  pose proof (keeps_run _ _ _ _ _ (init_invites_keeps_auto_join env) H6) as Ha6.
  pose proof (init_join_timer_run c s6 s7 H7) as Hc7.
  pose proof (init_listeners_run c s7 s8 H8) as Hc8.
  pose proof (keeps_run _ _ _ _ _ (init_guilds_keeps_ctrl env) H) as Hc9.
  cbn in Hc4, Ha4, Hc5, Ha5, Ha6.
  exists (ctrl s6). split.
  - intros ev Hev1 Hev2.
    rewrite (keeps_run _ _ _ _ _ (init_invites_keeps_under_other env ev Hev1 Hev2) H6).
    rewrite Hc5, Hc4. reflexivity.
  - rewrite Hc9, Hc8, Hc7, Ha6, Ha5, Ha4. reflexivity.
Qed.

(** X18. When [initialize] completes it has registered, after what was
    there, exactly one listener for guild joins, one for guild removals
    and one for updates, one for the auto-join timer exactly when
    [auto_join] is set, and none for the removal event. *)
Theorem initialize_registers_core_listeners (env : Env) (p : option ParentRef)
    (c : CtrlRef) (s s' : Sys) :
  initialize env p (Some c) s = (s', Ok None) ->
  under discord_guild_join (ctrl s') =
    under discord_guild_join (ctrl s) ++ [guild_join_listener] /\
  under discord_guild_remove (ctrl s') =
    under discord_guild_remove (ctrl s) ++ [guild_remove_listener] /\
  under server_update (ctrl s') =
    under server_update (ctrl s) ++ [update_listener] /\
  under auto_guild_start_join (ctrl s') =
    under auto_guild_start_join (ctrl s) ++
    match auto_join (self s) with
    | Some _ => [start_join_listener]
    | None => []
    end /\
  under server_removed (ctrl s') = under server_removed (ctrl s).
Proof.
  intros H. apply initialize_ok_inv in H.
  destruct (initialize_body_ctrl env p c s s' H) as (c6 & Hc6 & ->).
  repeat split.
  - rewrite !under_add_other by discriminate. rewrite under_add_same.
    destruct (auto_join (self s));
      rewrite ?under_add_other by discriminate;
      rewrite Hc6 by discriminate; reflexivity.
  - rewrite under_add_other by discriminate. rewrite under_add_same.
    rewrite under_add_other by discriminate.
    destruct (auto_join (self s));
      rewrite ?under_add_other by discriminate;
      rewrite Hc6 by discriminate; reflexivity.
  - rewrite under_add_same. rewrite !under_add_other by discriminate.
    destruct (auto_join (self s));
      rewrite ?under_add_other by discriminate;
      rewrite Hc6 by discriminate; reflexivity.
  - rewrite !under_add_other by discriminate.
    destruct (auto_join (self s)).
    + rewrite under_add_same. rewrite Hc6 by discriminate. reflexivity.
    + rewrite Hc6 by discriminate. symmetry. apply app_nil_r.
  - rewrite !under_add_other by discriminate.
    destruct (auto_join (self s));
      rewrite ?under_add_other by discriminate;
      rewrite Hc6 by discriminate; reflexivity.
Qed.

Lemma initialize_registers_core_listeners_witness :
  let env := quiet_env 1000 in
  let s := system_of
             (__init__ env (with_auto_join (discovery 5 []) (plain_args "shill")))
             [guild_named 1 "shill-chat"] in
  let s' := fst (initialize env (Some the_account) (Some the_controller) s) in
  initialize env (Some the_account) (Some the_controller) s = (s', Ok None) /\
  under discord_guild_join (ctrl s') = [guild_join_listener] /\
  under discord_guild_remove (ctrl s') = [guild_remove_listener] /\
  under server_update (ctrl s') = [update_listener] /\
  under auto_guild_start_join (ctrl s') = [start_join_listener] /\
  under server_removed (ctrl s') = [].
Proof.
  cbv zeta.
  set (env := quiet_env 1000).
  set (s := system_of _ _).
  assert (H : initialize env (Some the_account) (Some the_controller) s =
              (fst (initialize env (Some the_account) (Some the_controller) s),
               Ok None)) by (vm_compute; reflexivity).
  split; [exact H|].
  exact (initialize_registers_core_listeners _ _ _ _ _ H).
Defined.

(** X19. Closing an object and initializing it again, as an update
    does, leaves one more guild-join listener and one more guild-remove
    listener than before the close: [_close] removes neither and
    [initialize] registers both anew. *)
Theorem reinitialize_adds_guild_listeners (env : Env) (p : option ParentRef)
    (c : CtrlRef) (s s' : Sys) :
  initialize env p (Some c) (fst (_close s)) = (s', Ok None) ->
  under discord_guild_join (ctrl s') =
    under discord_guild_join (ctrl s) ++ [guild_join_listener] /\
  under discord_guild_remove (ctrl s') =
    under discord_guild_remove (ctrl s) ++ [guild_remove_listener].
Proof.
  intros H. apply initialize_ok_inv in H.
  destruct (initialize_body_ctrl env p c _ s' H) as (c6 & Hc6 & ->).
  split.
  - rewrite !under_add_other by discriminate. rewrite under_add_same.
    rewrite <- (_close_keeps_under discord_guild_join) by discriminate.
    destruct (auto_join (self (fst (_close s))));
      rewrite ?under_add_other by discriminate;
      rewrite Hc6 by discriminate; reflexivity.
  - rewrite under_add_other by discriminate. rewrite under_add_same.
    rewrite under_add_other by discriminate.
    rewrite <- (_close_keeps_under discord_guild_remove) by discriminate.
    destruct (auto_join (self (fst (_close s))));
      rewrite ?under_add_other by discriminate;
      rewrite Hc6 by discriminate; reflexivity.
Qed.

Lemma reinitialize_adds_guild_listeners_witness :
  let env := quiet_env 1000 in
  let s := boot env (plain_args "shill") [guild_named 1 "shill-chat"] in
  let s' := fst (initialize env (Some the_account) (Some the_controller)
                   (fst (_close s))) in
  initialize env (Some the_account) (Some the_controller) (fst (_close s)) =
    (s', Ok None) /\
  under discord_guild_join (ctrl s') = [guild_join_listener; guild_join_listener] /\
  under discord_guild_remove (ctrl s') =
    [guild_remove_listener; guild_remove_listener].
Proof.
  cbv zeta.
  set (env := quiet_env 1000).
  set (s := boot env (plain_args "shill") [guild_named 1 "shill-chat"]).
  assert (H : initialize env (Some the_account) (Some the_controller)
                (fst (_close s)) =
              (fst (initialize env (Some the_account) (Some the_controller)
                      (fst (_close s))), Ok None)) by (vm_compute; reflexivity).
  split; [exact H|].
  exact (reinitialize_adds_guild_listeners _ _ _ _ _ H).
Defined.

(** * One firing of the auto-join timer *)

Lemma already_joined_frame (env : Env) (s s' : Sys) (q : QueryResult) :
  include_pattern (self s') = include_pattern (self s) ->
  exclude_pattern (self s') = exclude_pattern (self s) ->
  client_guilds s' = client_guilds s ->
  already_joined env s q -> already_joined env s' q.
Proof.
  unfold already_joined, get_next_guild, get_guild.
  intros -> -> ->. tauto.
Qed.

Lemma join_loop_already_joined_step (env : Env) (q : QueryResult)
    (rest : list FeedItem) (s : Sys) :
  already_joined env s q ->
  join_loop env (Yield q :: rest) s =
  join_loop env rest (add_join_count 1 (with_feed (Some rest) s)).
Proof.
  intros [Hc Hg]. cbn [join_loop]. rewrite bind_run. cbn [get]. rewrite Hc.
  destruct (get_guild s (q_id q)) eqn:E; [|congruence].
  reflexivity.
Qed.

Lemma add_join_count_twice (n : Z) (f g : option (list FeedItem)) (s : Sys) :
  add_join_count n (with_feed g (add_join_count 1 (with_feed f s))) =
  add_join_count (1 + n) (with_feed g s).
Proof.
  unfold add_join_count, with_feed. cbn. rewrite Z.add_assoc. reflexivity.
Qed.

(** X20. A run of candidates that pass the patterns and that the client
    has already joined is consumed within one firing: each of them
    raises the join count by one, the limit is not looked at in between,
    and the loop goes on with what follows them in the feed. *)
Theorem join_loop_counts_already_joined (env : Env) (q : QueryResult)
    (qs : list QueryResult) (rest : list FeedItem) (s : Sys) :
  Forall (already_joined env s) (q :: qs) ->
  join_loop env (map Yield (q :: qs) ++ rest) s =
  join_loop env rest
    (add_join_count (Z.of_nat (length (q :: qs))) (with_feed (Some rest) s)).
Proof.
  revert q s. induction qs as [|q' qs IH]; intros q s H.
  - inversion H as [|? ? Hq _]. subst.
    cbn [map app length]. apply join_loop_already_joined_step. assumption.
  - inversion H as [|? ? Hq Hqs]. subst.
    change (map Yield (q :: q' :: qs) ++ rest)
      with (Yield q :: (map Yield (q' :: qs) ++ rest)).
    rewrite (join_loop_already_joined_step env q _ s Hq).
    rewrite IH.
    + rewrite add_join_count_twice. do 2 f_equal.
      change (length (q :: q' :: qs)) with (S (length (q' :: qs))). lia.
    + eapply List.Forall_impl; [|exact Hqs].
      intros x Hx. revert Hx. apply already_joined_frame; reflexivity.
Qed.

Lemma join_loop_counts_already_joined_witness :
  let env := quiet_env 1045 in
  let s := boot (quiet_env 1000)
             (with_auto_join
                (discovery 1
                   [candidate 1 "shill-chat"; candidate 2 "shill-hub";
                    candidate 3 "shill-new"])
                (plain_args "shill"))
             [guild_named 1 "shill-chat"; guild_named 2 "shill-hub"] in
  let qs := [ {| q_id := 1; q_name := "shill-chat";
                 q_url := "https://top.gg/shill-chat" |};
              {| q_id := 2; q_name := "shill-hub";
                 q_url := "https://top.gg/shill-hub" |} ] in
  Forall (already_joined env s) qs /\
  join_loop env (map Yield qs ++ [candidate 3 "shill-new"]) s =
  join_loop env [candidate 3 "shill-new"]
    (add_join_count 2 (with_feed (Some [candidate 3 "shill-new"]) s)).
Proof.
  cbv zeta.
  set (env := quiet_env 1045).
  set (s := boot _ _ _).
  assert (H : Forall (already_joined env s)
                [ {| q_id := 1; q_name := "shill-chat";
                     q_url := "https://top.gg/shill-chat" |};
                  {| q_id := 2; q_name := "shill-hub";
                     q_url := "https://top.gg/shill-hub" |} ]).
  { repeat constructor; vm_compute; congruence. }
  split; [exact H|].
  exact (join_loop_counts_already_joined env _ _ [candidate 3 "shill-new"] s H).
Defined.








(** A firing whose candidate the browser joins: one invite link is
    asked for, the client enters that guild, and the count goes up. *)
Example join_guilds_one_attempt :
  let env :=
    {| now := 1045; re_search := literal_search; re_sub_bar := fun p => p;
       guild_init_error := fun _ => None;
       message_init_error := fun _ _ => None;
       selenium_join := fun q => Joined (Some (guild_named (q_id q) (q_name q))) |} in
  let s0 := boot (quiet_env 1000)
              (with_auto_join
                 (discovery 5 [candidate 8 "shill-hub"; candidate 9 "shill-new"])
                 (plain_args "shill")) [] in
  let out := _join_guilds env (timer_fired 0 s0) in
  snd out = Ok tt /\
  ext_calls (fst out) =
    ext_calls s0 ++ [call_fetch_invite_link "https://top.gg/shill-hub"] /\
  client_guilds (fst out) = [guild_named 8 "shill-hub"] /\
  guild_join_count (self (fst out)) = 1 /\
  guild_query_iter (self (fst out)) = Some [candidate 9 "shill-new"].
Proof. vm_compute. repeat split; reflexivity. Qed.

(** * Reading the invites *)

Lemma collect_invites_ok (gs : list DiscordGuild) (l : list Invite) :
  collect_invites gs = Ok l -> l = flat_map readable_invites gs.
Proof.
  revert l. induction gs as [|g gs IH]; intros l; cbn.
  - intros [= <-]. reflexivity.
  - unfold readable_invites.
    destruct (dg_manage_guild g) as [[|]|]; cbn; [| |discriminate].
    + destruct (dg_invites g) as [here|e]; cbn.
      * destruct (collect_invites gs) as [rest|e]; cbn; [|discriminate].
        intros [= <-]. rewrite (IH rest eq_refl). reflexivity.
      * destruct e; cbn; try discriminate.
        destruct (collect_invites gs) as [rest|e]; cbn; [|discriminate].
        intros [= <-]. rewrite (IH rest eq_refl). reflexivity.
    + destruct (collect_invites gs) as [rest|e]; cbn; [|discriminate].
      intros [= <-]. rewrite (IH rest eq_refl). reflexivity.
Qed.

(** X22. When [_get_invites] returns, it returns, in the client's order,
    the invites of the guilds whose name passes the patterns: all those
    of a guild the account may manage and whose query succeeded, none of
    a guild it may not manage or whose query failed with an
    [HTTPException]; the cache has been replaced by those guilds and
    nothing else has changed. *)
Theorem get_invites_reads_matching_guilds (env : Env) (s s' : Sys)
    (l : list Invite) :
  _get_invites env s = (s', Ok l) ->
  exists guilds,
    matching_guilds env (self s) (client_guilds s) = Ok guilds /\
    l = flat_map readable_invites guilds /\
    s' = set_self (set_cache guilds (self s)) s.
Proof.
  unfold _get_invites. intros H.
  apply bind_ok_inv in H as (s1 & s0 & H1 & H). inversion H1. subst s1 s0. clear H1.
  apply bind_ok_inv in H as (s1 & [] & H1 & H).
  apply the_parent_ok_inv in H1. subst s1.
  apply bind_ok_inv in H as (s1 & guilds & H1 & H).
  apply _get_guilds_ok_inv in H1 as [Hm Hs1].
  unfold lift in H. inversion H as [[Hs Hl]]. subst s1.
  exists guilds. split; [exact Hm|]. split; [|symmetry; exact Hs].
  apply collect_invites_ok. assumption.
Qed.

Lemma get_invites_reads_matching_guilds_witness :
  let env := quiet_env 1000 in
  let open := guild_with_invites 1 "shill-chat"
                [ {| inv_id := "abc"; inv_uses := 3 |} ] in
  let closed := {| dg_name := Some "shill-hub"; dg_id := 2;
                   dg_manage_guild := Some false;
                   dg_invites := Ok [ {| inv_id := "xyz"; inv_uses := 9 |} ] |} in
  let failing := {| dg_name := Some "shill-new"; dg_id := 3;
                    dg_manage_guild := Some true;
                    dg_invites := Raise HTTPException |} in
  let s := boot env (plain_args "shill") [open; closed; failing] in
  let out := _get_invites env s in
  out = (fst out, Ok [ {| inv_id := "abc"; inv_uses := 3 |} ]) /\
  exists guilds,
    matching_guilds env (self s) (client_guilds s) = Ok guilds /\
    [ {| inv_id := "abc"; inv_uses := 3 |} ] = flat_map readable_invites guilds.
Proof.
  cbv zeta.
  set (env := quiet_env 1000).
  set (s := boot env _ _).
  assert (H : _get_invites env s =
              (fst (_get_invites env s), Ok [ {| inv_id := "abc"; inv_uses := 3 |} ]))
    by (vm_compute; reflexivity).
  split; [exact H|].
  destruct (get_invites_reads_matching_guilds env s _ _ H) as (guilds & Hm & Hl & _).
  exists guilds. split; [exact Hm | exact Hl].
Defined.

(** * An empty include pattern *)

Lemma matching_guilds_no_pattern (env : Env) (a : AutoGUILD)
    (gs : list DiscordGuild) :
  include_pattern a = None ->
  matching_guilds env a gs =
  if forallb (fun g => match dg_name g with None => true | Some _ => false end) gs
  then Ok [] else Raise TypeError.
Proof.
  intros Hp. induction gs as [|g gs IH]; [reflexivity|]. cbn.
  unfold _check_name_match. rewrite Hp.
  destruct (dg_name g) as [n|]; cbn; [reflexivity|].
  rewrite IH. destruct (forallb _ gs); reflexivity.
Qed.

(** X23. An object built with the empty string as include pattern
    stores no include pattern.  Checking any name then raises
    [TypeError]; so does collecting the matching guilds as soon as one
    guild of the client has a name, and without such a guild nothing
    matches. *)
Theorem empty_include_pattern_matches_nothing (env : Env) (args : InitArgs) :
  a_include_pattern args = EmptyString ->
  let a := __init__ env args in
  include_pattern a = None /\
  (forall name, _check_name_match env a (Some name) = Raise TypeError) /\
  (forall gs, Exists (fun g => dg_name g <> None) gs ->
     matching_guilds env a gs = Raise TypeError) /\
  (forall gs, Forall (fun g => dg_name g = None) gs ->
     matching_guilds env a gs = Ok []).
Proof.
  intros Hp a.
  assert (Hnone : include_pattern a = None) by (subst a; cbn; rewrite Hp; reflexivity).
  split; [exact Hnone|]. split; [|split].
  - intros name. unfold _check_name_match. rewrite Hnone. reflexivity.
  - intros gs Hex. rewrite (matching_guilds_no_pattern env a gs Hnone).
    induction Hex as [g gs Hg | g gs Hex IH]; cbn.
    + destruct (dg_name g); [reflexivity | congruence].
    + destruct (dg_name g); [reflexivity|]. exact IH.
  - intros gs Hall. rewrite (matching_guilds_no_pattern env a gs Hnone).
    induction Hall as [|g gs Hg Hall IH]; cbn; [reflexivity|].
    rewrite Hg. exact IH.
Qed.

Lemma empty_include_pattern_matches_nothing_witness :
  let env := quiet_env 1000 in
  let a := __init__ env (plain_args EmptyString) in
  include_pattern a = None /\
  _check_name_match env a (Some "shill-chat") = Raise TypeError /\
  matching_guilds env a [guild_named 1 "shill-chat"] = Raise TypeError.
Proof.
  cbv zeta.
  destruct (empty_include_pattern_matches_nothing (quiet_env 1000) (plain_args EmptyString)
              eq_refl) as (H1 & H2 & H3 & _).
  split; [exact H1|]. split; [exact (H2 "shill-chat")|].
  apply H3. constructor. discriminate.
Defined.
